(** * Visited-Links-Marker: settings resolution, persistence and style injection

    A shallow embedding of the extension's three scripts:
    - [src/content-scripts/content-script.mjs], second document: the service
      worker, class [VisitedLinkService];
    - [src/utilities/storage-manager.mjs]: class [StorageManager];
    - the popup script: class [PopupController].

    JavaScript values are an inductive type, objects are finite maps from
    property names to values, and the asynchronous host calls ([chrome.*])
    run in a state-and-exception monad over one [world] record, which holds
    the store, the tabs, the service worker's memory and the popup's page.
    A listener runs from its start to its end before the next one starts.
    The document of the popup is a map from the elements the script looks up
    to the properties it assigns.  The bridge script of the pages is not
    embedded. *)

From Stdlib Require Import Ascii String.
From stdpp Require Import base option list strings pretty gmap fin_maps.

Local Open Scope string_scope.

(** ** JavaScript values and operators *)

Module JS.

(** The values the settings record and the messages are made of.  Numbers
    are only ever tested for truthiness and printed, so integers suffice. *)
#[warnings="-register-all"]
Inductive value : Type :=
| VUndefined
| VNull
| VBool (b : bool)
| VNum (n : Z)
| VStr (s : string)
| VObj (fields : gmap string value).

(** An [Error] object: the program reads nothing but [error.message]. *)
Record error : Type := Error { message : string }.

(** Outcome of evaluating an expression or awaiting a promise. *)
Inductive result (A : Type) : Type :=
| Ok (a : A)
| Throw (e : error).
Arguments Ok {A} a.
Arguments Throw {A} e.

Definition TypeError : error := Error "TypeError".

(** ToBoolean. *)
Definition truthy (v : value) : bool :=
  match v with
  | VUndefined | VNull => false
  | VBool b => b
  | VNum n => negb (n =? 0)%Z
  | VStr s => negb (String.eqb s "")
  | VObj _ => true
  end.

(** [a || b] and [a && b]: both return one of their operands. *)
Definition or (a b : value) : value := if truthy a then a else b.
Definition and (a b : value) : value := if truthy a then b else a.

(** [v !== false] and [v !== undefined]. *)
Definition is_not_false (v : value) : bool :=
  match v with VBool false => false | _ => true end.
Definition is_not_undefined (v : value) : bool :=
  match v with VUndefined => false | _ => true end.

(** Decimal rendering of an array index, to read [str[i]]. *)
Definition index_key (i : nat) : string := pretty i.

(** The character of [s] whose index prints as [k], if any. *)
Fixpoint char_at_key (i : nat) (s : string) (k : string) : option string :=
  match s with
  | EmptyString => None
  | String c rest =>
      if String.eqb (index_key i) k then Some (String c EmptyString)
      else char_at_key (S i) rest k
  end.

(** Own properties of a value.  A string has [length] and its indices;
    the other primitives have none.  Inherited properties are left out
    here: none of them is named [enabled], [visitedColor] or [siteSettings],
    and the ones a site's name can select ([constructor], [__proto__], ...)
    are built-in objects, which carry no such property either.  Where the
    program tests or assigns through the name of a site, it reads with
    [lookup] below. *)
Definition own (v : value) (k : string) : value :=
  match v with
  | VObj m => default VUndefined (m !! k)
  | VStr s =>
      if String.eqb k "length" then VNum (Z.of_nat (String.length s))
      else match char_at_key 0 s k with
           | Some c => VStr c
           | None => VUndefined
           end
  | _ => VUndefined
  end.

(** [v.k] and [v[k]]: reading a property of [undefined] or [null] throws. *)
Definition get (v : value) (k : string) : result value :=
  match v with
  | VUndefined | VNull => Throw TypeError
  | _ => Ok (own v k)
  end.

(** The names a value inherits: every value has the properties of
    [Object.prototype], a string those of [String.prototype] and a number
    those of [Number.prototype] as well (ECMAScript 2024; the names of
    [Boolean.prototype] are among the first). *)
Definition Object_prototype : list string :=
  ["constructor"; "__defineGetter__"; "__defineSetter__"; "hasOwnProperty";
   "__lookupGetter__"; "__lookupSetter__"; "isPrototypeOf";
   "propertyIsEnumerable"; "toString"; "valueOf"; "__proto__"; "toLocaleString"].

Definition String_prototype : list string :=
  ["anchor"; "at"; "big"; "blink"; "bold"; "charAt"; "charCodeAt"; "codePointAt";
   "concat"; "endsWith"; "fontcolor"; "fontsize"; "fixed"; "includes"; "indexOf";
   "isWellFormed"; "italics"; "lastIndexOf"; "link"; "localeCompare"; "match";
   "matchAll"; "normalize"; "padEnd"; "padStart"; "repeat"; "replace";
   "replaceAll"; "search"; "slice"; "small"; "split"; "strike"; "sub"; "substr";
   "substring"; "sup"; "startsWith"; "toWellFormed"; "trim"; "trimStart";
   "trimLeft"; "trimEnd"; "trimRight"; "toLocaleLowerCase"; "toLocaleUpperCase";
   "toLowerCase"; "toUpperCase"].

Definition Number_prototype : list string :=
  ["toExponential"; "toFixed"; "toPrecision"].

Definition has_own (v : value) (k : string) : bool :=
  match v with
  | VObj m => bool_decide (is_Some (m !! k))
  | VStr s => String.eqb k "length" || bool_decide (is_Some (char_at_key 0 s k))
  | _ => false
  end.

Definition inherits (v : value) (k : string) : bool :=
  bool_decide (k ∈ Object_prototype)
  || match v with
     | VStr _ => bool_decide (k ∈ String_prototype)
     | VNum _ => bool_decide (k ∈ Number_prototype)
     | _ => false
     end.

(** What [v[k]] finds: an own property, or else a property of the
    prototype chain.  The inherited ones are functions and prototype
    objects of the page: truthy objects outside the settings, which take a
    new property without complaint. *)
Inductive property : Type :=
| Value (x : value)
| Builtin.

Definition lookup (v : value) (k : string) : result property :=
  match v with
  | VUndefined | VNull => Throw TypeError
  | _ => if negb (has_own v k) && inherits v k then Ok Builtin
         else Ok (Value (own v k))
  end.

Definition truthy_property (p : property) : bool :=
  match p with
  | Value x => truthy x
  | Builtin => true
  end.

(** [v?.[k]]: optional chaining short-circuits to [undefined]. *)
Definition get_opt (v : value) (k : string) : value :=
  match v with
  | VUndefined | VNull => VUndefined
  | _ => own v k
  end.

(** [v[k] = x] in strict code (modules are strict; the service worker
    declares ['use strict']): only an object takes the property. *)
Definition set (v : value) (k : string) (x : value) : result value :=
  match v with
  | VObj m => Ok (VObj (<[k := x]> m))
  | _ => Throw TypeError
  end.

(** [delete v[k]] for a key that is no own property of a string. *)
Definition delete_prop (v : value) (k : string) : value :=
  match v with
  | VObj m => VObj (delete k m)
  | _ => v
  end.

(** The own enumerable properties [{...v}] copies. *)
Fixpoint string_props (i : nat) (s : string) : gmap string value :=
  match s with
  | EmptyString => ∅
  | String c rest => <[index_key i := VStr (String c EmptyString)]> (string_props (S i) rest)
  end.

Definition props (v : value) : gmap string value :=
  match v with
  | VObj m => m
  | VStr s => string_props 0 s
  | _ => ∅
  end.

(** [{ ...v }] and [{ ...a, ...b }]: the properties of [b] win. *)
Definition spread (v : value) : value := VObj (props v).
Definition spread2 (a b : value) : value := VObj (props b ∪ props a).

(** [v === 'literal']. *)
Definition is_string (v : value) (s : string) : bool :=
  match v with
  | VStr t => String.eqb t s
  | _ => false
  end.

(** [String(v)], as a template literal applies it. *)
Definition to_string (v : value) : string :=
  match v with
  | VUndefined => "undefined"
  | VNull => "null"
  | VBool true => "true"
  | VBool false => "false"
  | VNum n => pretty n
  | VStr s => s
  | VObj _ => "[object Object]"
  end.

(** [haystack.includes(needle)]. *)
Fixpoint includes (needle haystack : string) : bool :=
  String.prefix needle haystack
  || match haystack with
     | EmptyString => false
     | String _ rest => includes needle rest
     end.

(** [Object.keys(v).length]: the number of own enumerable properties;
    [Object.keys] throws on [undefined] and [null]. *)
Definition Object_keys_length (v : value) : result nat :=
  match v with
  | VUndefined | VNull => Throw TypeError
  | _ => Ok (size (props v))
  end.

End JS.

(** ** The host's [URL] constructor *)

Module URL.

(** The two components the program reads. *)
Record t : Type := Make { protocol : string; hostname : string }.

Definition code (c : ascii) : nat := nat_of_ascii c.

Definition is_upper (c : ascii) : bool := (65 <=? code c)%nat && (code c <=? 90)%nat.
Definition is_lower (c : ascii) : bool := (97 <=? code c)%nat && (code c <=? 122)%nat.
Definition is_digit (c : ascii) : bool := (48 <=? code c)%nat && (code c <=? 57)%nat.
Definition is_alpha (c : ascii) : bool := is_upper c || is_lower c.

Definition to_lower (c : ascii) : ascii :=
  if is_upper c then ascii_of_nat (code c + 32) else c.

Fixpoint lower (s : string) : string :=
  match s with
  | EmptyString => EmptyString
  | String c rest => String (to_lower c) (lower rest)
  end.

(** Input clean-up: C0 controls and spaces are stripped at both ends, tabs
    and newlines are removed everywhere. *)
Definition is_c0_or_space (c : ascii) : bool := (code c <=? 32)%nat.
Definition is_tab_or_newline (c : ascii) : bool :=
  (code c =? 9)%nat || (code c =? 10)%nat || (code c =? 13)%nat.

Fixpoint drop_while (p : ascii -> bool) (s : string) : string :=
  match s with
  | EmptyString => EmptyString
  | String c rest => if p c then drop_while p rest else s
  end.

Fixpoint take_until (p : ascii -> bool) (s : string) : string :=
  match s with
  | EmptyString => EmptyString
  | String c rest => if p c then EmptyString else String c (take_until p rest)
  end.

Fixpoint remove (p : ascii -> bool) (s : string) : string :=
  match s with
  | EmptyString => EmptyString
  | String c rest => if p c then remove p rest else String c (remove p rest)
  end.

Fixpoint any (p : ascii -> bool) (s : string) : bool :=
  match s with
  | EmptyString => false
  | String c rest => p c || any p rest
  end.

Definition clean (s : string) : string :=
  remove is_tab_or_newline
    (String.rev (drop_while is_c0_or_space (String.rev (drop_while is_c0_or_space s)))).

(** Scheme start state and scheme state: a letter, then letters, digits,
    [+], [-] and [.], closed by a colon.  There is no base URL, so anything
    else is a failure. *)
Definition is_scheme_char (c : ascii) : bool :=
  is_alpha c || is_digit c || Ascii.eqb c "+" || Ascii.eqb c "-" || Ascii.eqb c ".".

Fixpoint scheme_state (s : string) : option (string * string) :=
  match s with
  | EmptyString => None
  | String c rest =>
      if is_scheme_char c then
        match scheme_state rest with
        | Some (scheme, after) => Some (String (to_lower c) scheme, after)
        | None => None
        end
      else if Ascii.eqb c ":" then Some (EmptyString, rest)
      else None
  end.

Definition scheme_start_state (s : string) : option (string * string) :=
  match s with
  | String c _ => if is_alpha c then scheme_state s else None
  | EmptyString => None
  end.

Definition is_special (scheme : string) : bool :=
  bool_decide (scheme ∈ ["ftp"; "file"; "http"; "https"; "ws"; "wss"]).

Definition is_slash (c : ascii) : bool := Ascii.eqb c "/" || Ascii.eqb c "\".

(** *** Hosts *)

(** A host, as the host parser returns it.  [Unprocessed] is a domain that
    IDNA has to process, one with a byte outside ASCII or with a label that
    starts with [xn--]: the Unicode tables of that processing are no part
    of this model, which keeps the name in lower case, as the processing
    does to a name that has been through it before. *)
Inductive host : Type :=
| Domain (name : string)
| Unprocessed (name : string)
| IPv4 (address : N)
| IPv6 (pieces : list N)
| Opaque (text : string)
| Empty.

Definition digit_value (c : ascii) : N := N.of_nat (code c - 48).

Definition hex_value (c : ascii) : option N :=
  if is_digit c then Some (digit_value c)
  else if (97 <=? code (to_lower c))%nat && (code (to_lower c) <=? 102)%nat
       then Some (N.of_nat (code (to_lower c) - 87))
       else None.

Definition hex_char (upper : bool) (d : N) : ascii :=
  if (d <? 10)%N then ascii_of_N (48 + d)
  else ascii_of_N ((if upper then 55 else 87) + d).

(** Percent-decoding: [%] and two hexadecimal digits give one byte. *)
Fixpoint percent_decode (s : string) : string :=
  match s with
  | EmptyString => EmptyString
  | String c rest =>
      if Ascii.eqb c "%" then
        match rest with
        | String a (String b rest') =>
            match hex_value a, hex_value b with
            | Some x, Some y => String (ascii_of_N (16 * x + y)) (percent_decode rest')
            | _, _ => String c (percent_decode rest)
            end
        | _ => String c (percent_decode rest)
        end
      else String c (percent_decode rest)
  end.

(** Percent-encoding with the C0 control set: C0 controls and everything
    above [~]. *)
Fixpoint percent_encode (s : string) : string :=
  match s with
  | EmptyString => EmptyString
  | String c rest =>
      if (code c <=? 31)%nat || (127 <=? code c)%nat
      then String "%" (String (hex_char true (N.of_nat (code c) / 16))
                      (String (hex_char true (N.of_nat (code c) mod 16))
                              (percent_encode rest)))
      else String c (percent_encode rest)
  end.

(** Forbidden host code points: NUL, tab, LF, CR, space and
    [# / : < > ? @ [ \ ] ^ |]; a domain further excludes the C0 controls,
    [%] and DEL. *)
Definition is_forbidden_host (c : ascii) : bool :=
  bool_decide (code c ∈ [0; 9; 10; 13; 32; 35; 47; 58; 60; 62; 63; 64; 91; 92; 93; 94; 124]%nat).

Definition is_forbidden_domain (c : ascii) : bool :=
  is_forbidden_host c || (code c <=? 31)%nat || (code c =? 37)%nat || (code c =? 127)%nat.

(** Strict splitting on a separator. *)
Fixpoint split_on (sep : ascii) (s : string) : list string :=
  match s with
  | EmptyString => [EmptyString]
  | String c rest =>
      if Ascii.eqb c sep then EmptyString :: split_on sep rest
      else match split_on sep rest with
           | part :: parts => String c part :: parts
           | [] => [String c EmptyString]
           end
  end.

(** The digits of [s] in the given radix, if they all are. *)
Fixpoint digits_in (radix : N) (value : N) (s : string) : option N :=
  match s with
  | EmptyString => Some value
  | String c rest =>
      match hex_value c with
      | Some d => if (d <? radix)%N then digits_in radix (radix * value + d) rest else None
      | None => None
      end
  end.

(** The IPv4 number parser: [0x] announces hexadecimal, another leading
    [0] octal. *)
Definition ipv4_number (input : string) : option N :=
  match input with
  | EmptyString => None
  | String a (String b rest) =>
      if Ascii.eqb a "0" && (Ascii.eqb b "x" || Ascii.eqb b "X") then digits_in 16 0 rest
      else if Ascii.eqb a "0" then digits_in 8 0 (String b rest)
      else digits_in 10 0 input
  | _ => digits_in 10 0 input
  end.

Definition all_digits (s : string) : bool := negb (any (fun c => negb (is_digit c)) s).

Definition numeric (part : string) : bool :=
  (negb (String.eqb part "") && all_digits part) || bool_decide (is_Some (ipv4_number part)).

(** The ends-in-a-number checker. *)
Definition ends_in_a_number (input : string) : bool :=
  match rev (split_on "." input) with
  | [] => false
  | last :: before =>
      if String.eqb last "" then
        match before with
        | [] => false
        | last' :: _ => numeric last'
        end
      else numeric last
  end.

Fixpoint ipv4_sum (counter : nat) (numbers : list N) : N :=
  match numbers with
  | [] => 0
  | n :: rest => (n * 256 ^ (3 - N.of_nat counter) + ipv4_sum (S counter) rest)%N
  end.

(** The IPv4 parser. *)
Definition ipv4_parser (input : string) : option N :=
  let parts := split_on "." input in
  let parts := match rev parts with
               | last :: (_ :: _) as before =>
                   if String.eqb last "" then rev before else parts
               | _ => parts
               end in
  if (4 <? length parts)%nat then None
  else
    match mapM ipv4_number parts with
    | None => None
    | Some numbers =>
        match rev numbers with
        | [] => None
        | last :: before =>
            if existsb (fun n => 255 <? n)%N before then None
            else if (256 ^ (5 - N.of_nat (length numbers)) <=? last)%N then None
            else Some (last + ipv4_sum 0 (rev before))%N
        end
    end.

Definition ipv4_serializer (address : N) : string :=
  pretty (address / 16777216)%N ++ "." ++ pretty ((address / 65536) mod 256)%N ++ "."
  ++ pretty ((address / 256) mod 256)%N ++ "." ++ pretty (address mod 256)%N.

(** A run of at most [n] hexadecimal digits: its value, its length and what
    follows it. *)
Fixpoint hex_run (n : nat) (value : N) (count : nat) (s : string) : N * nat * string :=
  match n, s with
  | S n', String c rest =>
      match hex_value c with
      | Some d => hex_run n' (16 * value + d)%N (S count) rest
      | None => (value, count, s)
      end
  | _, _ => (value, count, s)
  end.

(** One number of a dotted quad inside an IPv6 address: decimal digits, no
    leading zero, at most 255. *)
Fixpoint ipv4_piece (piece : option N) (s : string) : option (N * string) :=
  match s with
  | String c rest =>
      if is_digit c then
        match piece with
        | None => ipv4_piece (Some (digit_value c)) rest
        | Some p =>
            if (p =? 0)%N then None
            else if (255 <? 10 * p + digit_value c)%N then None
            else ipv4_piece (Some (10 * p + digit_value c)%N) rest
        end
      else match piece with
           | Some p => Some (p, s)
           | None => None
           end
  | EmptyString =>
      match piece with
      | Some p => Some (p, s)
      | None => None
      end
  end.

Definition after_dot (s : string) : option string :=
  match s with
  | String c rest => if Ascii.eqb c "." then Some rest else None
  | EmptyString => None
  end.

(** The dotted quad that ends an IPv6 address, as two pieces. *)
Definition ipv4_in_ipv6 (s : string) : option (N * N) :=
  '(a, s) ← ipv4_piece None s ;
  s ← after_dot s ;
  '(b, s) ← ipv4_piece None s ;
  s ← after_dot s ;
  '(c, s) ← ipv4_piece None s ;
  s ← after_dot s ;
  '(d, s) ← ipv4_piece None s ;
  if String.eqb s "" then Some (a * 256 + b, c * 256 + d)%N else None.

(** The main loop of the IPv6 parser.  [pieces] are the pieces written so
    far, [compress] is the index after the [::].  Every round writes a
    piece, and eight are the most. *)
Fixpoint ipv6_pieces (rounds : nat) (pieces : list N) (compress : option nat) (s : string)
  : option (list N * option nat) :=
  match s, rounds with
  | EmptyString, _ => Some (pieces, compress)
  | String _ _, O => None
  | String c rest, S rounds =>
      if (length pieces =? 8)%nat then None
      else if Ascii.eqb c ":" then
        match compress with
        | Some _ => None
        | None => ipv6_pieces rounds (pieces ++ [0%N])%list (Some (S (length pieces))) rest
        end
      else
        let '(value, count, after) := hex_run 4 0 0 s in
        match after with
        | EmptyString => Some ((pieces ++ [value])%list, compress)
        | String d after' =>
            if Ascii.eqb d "." then
              if (count =? 0)%nat then None
              else if (6 <? length pieces)%nat then None
              else match ipv4_in_ipv6 s with
                   | Some (p1, p2) => Some ((pieces ++ [p1; p2])%list, compress)
                   | None => None
                   end
            else if Ascii.eqb d ":" then
              if String.eqb after' "" then None
              else ipv6_pieces rounds (pieces ++ [value])%list compress after'
            else None
        end
  end.

(** The IPv6 parser: the pieces after the [::] move to the end. *)
Definition ipv6_parser (input : string) : option (list N) :=
  let start :=
    match input with
    | String a rest =>
        if Ascii.eqb a ":" then
          match rest with
          | String b rest' =>
              if Ascii.eqb b ":" then Some ([0%N], Some 1%nat, rest') else None
          | EmptyString => None
          end
        else Some ([], None, input)
    | EmptyString => Some ([], None, input)
    end in
  '(pieces, compress, s) ← start ;
  '(pieces, compress) ← ipv6_pieces 9 pieces compress s ;
  match compress with
  | Some k => Some (take k pieces ++ replicate (8 - length pieces) 0%N ++ drop k pieces)%list
  | None => if (length pieces =? 8)%nat then Some pieces else None
  end.

Fixpoint hex_text (digits : nat) (n : N) (text : string) : string :=
  match digits with
  | O => text
  | S digits =>
      let text := String (hex_char false (n mod 16)) text in
      if (n / 16 =? 0)%N then text else hex_text digits (n / 16)%N text
  end.

Fixpoint zeros_at_head (pieces : list N) : nat :=
  match pieces with
  | piece :: rest => if (piece =? 0)%N then S (zeros_at_head rest) else O
  | [] => O
  end.

(** The first longest run of two or more pieces that are 0: its index and
    its length. *)
Fixpoint longest_zero_run (i : nat) (pieces : list N) : option (nat * nat) :=
  match pieces with
  | [] => None
  | _ :: rest =>
      let here := zeros_at_head pieces in
      match longest_zero_run (S i) rest with
      | Some (j, n) => if (n <=? here)%nat then Some (i, here) else Some (j, n)
      | None => if (1 <? here)%nat then Some (i, here) else None
      end
  end.

Fixpoint ipv6_text (compress : option nat) (ignore0 : bool) (i : nat) (pieces : list N)
  : string :=
  match pieces with
  | [] => EmptyString
  | piece :: rest =>
      if ignore0 && (piece =? 0)%N then ipv6_text compress true (S i) rest
      else if bool_decide (compress = Some i)
      then (if (i =? 0)%nat then "::" else ":") ++ ipv6_text compress true (S i) rest
      else hex_text 4 piece "" ++ (if (i =? 7)%nat then "" else ":")
           ++ ipv6_text compress false (S i) rest
  end.

Definition ipv6_serializer (pieces : list N) : string :=
  ipv6_text (fst <$> longest_zero_run 0 pieces) false 0 pieces.

Definition host_serializer (h : host) : string :=
  match h with
  | Domain name | Unprocessed name => name
  | IPv4 address => ipv4_serializer address
  | IPv6 pieces => "[" ++ ipv6_serializer pieces ++ "]"
  | Opaque text => text
  | Empty => ""
  end.

Definition needs_IDNA (domain : string) : bool :=
  any (fun c => (128 <=? code c)%nat) domain
  || existsb (String.prefix "xn--") (split_on "." (lower domain)).

Definition ends_with_bracket (s : string) : bool :=
  match String.rev s with
  | String c _ => Ascii.eqb c "]"
  | EmptyString => false
  end.

Definition without_last (s : string) : string :=
  match String.rev s with
  | String _ rest => String.rev rest
  | EmptyString => EmptyString
  end.

(** The host parser.  A domain is percent-decoded and put in lower case,
    which is all that IDNA does to an ASCII name without [xn--] labels. *)
Definition host_parser (opaque : bool) (input : string) : option host :=
  match input with
  | String "[" inner =>
      if ends_with_bracket input then IPv6 <$> ipv6_parser (without_last inner) else None
  | _ =>
      if opaque then
        if any is_forbidden_host input then None else Some (Opaque (percent_encode input))
      else
        let domain := percent_decode input in
        if needs_IDNA domain then Some (Unprocessed (lower domain))
        else
          let asciiDomain := lower domain in
          if String.eqb asciiDomain "" then None
          else if any is_forbidden_domain asciiDomain then None
          else if ends_in_a_number asciiDomain then IPv4 <$> ipv4_parser asciiDomain
          else Some (Domain asciiDomain)
  end.

(** *** Authority, host and port states *)

Definition ends_authority (special : bool) (c : ascii) : bool :=
  Ascii.eqb c "/" || Ascii.eqb c "?" || Ascii.eqb c "#" || (special && Ascii.eqb c "\").

(** The text after the last [@] of an authority. *)
Fixpoint after_userinfo (a : string) : string :=
  match a with
  | EmptyString => EmptyString
  | String _ rest =>
      if String.eqb (take_until (Ascii.eqb "@") a) a then a
      else after_userinfo rest
  end.

(** The host state: the buffer runs up to the first colon outside
    brackets; what follows the colon is for the port state. *)
Fixpoint host_state (insideBrackets : bool) (s : string) : string * option string :=
  match s with
  | EmptyString => (EmptyString, None)
  | String c rest =>
      if Ascii.eqb c ":" && negb insideBrackets then (EmptyString, Some rest)
      else
        let inside := if Ascii.eqb c "[" then true
                      else if Ascii.eqb c "]" then false
                      else insideBrackets in
        let '(buffer, port) := host_state inside rest in
        (String c buffer, port)
  end.

(** The port state: digits only, and no more than 65535. *)
Definition port_state (buffer : string) : bool :=
  all_digits buffer
  && match digits_in 10 0 buffer with
     | Some port => (port <=? 65535)%N
     | None => false
     end.

(** From the authority state to the end of the port state. *)
Definition authority_state (special : bool) (s : string) : option host :=
  let authority := take_until (ends_authority special) s in
  let buffer := after_userinfo authority in
  if any (Ascii.eqb "@") authority && String.eqb buffer "" then None
  else
    match host_state false buffer with
    | (buffer, Some port) =>
        if String.eqb buffer "" then None
        else match host_parser (negb special) buffer with
             | Some h => if port_state port then Some h else None
             | None => None
             end
    | (buffer, None) =>
        if special && String.eqb buffer "" then None
        else host_parser (negb special) buffer
    end.

Definition is_windows_drive_letter (s : string) : bool :=
  match s with
  | String a (String b EmptyString) => is_alpha a && (Ascii.eqb b ":" || Ascii.eqb b "|")
  | _ => false
  end.

(** The file, file slash and file host states. *)
Definition file_state (s : string) : option host :=
  match s with
  | String a (String b rest) =>
      if is_slash a && is_slash b then
        let buffer := take_until (fun c => is_slash c || Ascii.eqb c "?" || Ascii.eqb c "#")
                                 rest in
        if is_windows_drive_letter buffer then Some Empty
        else if String.eqb buffer "" then Some Empty
        else match host_parser false buffer with
             | Some (Domain name) =>
                 if String.eqb name "localhost" then Some Empty else Some (Domain name)
             | other => other
             end
      else Some Empty
  | _ => Some Empty
  end.

Definition starts_with_two (p : ascii -> bool) (s : string) : bool :=
  match s with
  | String a (String b _) => p a && p b
  | _ => false
  end.

Definition drop2 (s : string) : string :=
  match s with
  | String _ (String _ rest) => rest
  | _ => s
  end.

(** The basic URL parser without a base, up to the host: the scheme and
    the host, or a failure.  The states that follow (path, query and
    fragment) never fail. *)
Definition basic_parser (input : string) : option (string * host) :=
  match scheme_start_state (clean input) with
  | None => None
  | Some (scheme, rest) =>
      if String.eqb scheme "file" then pair scheme <$> file_state rest
      else if is_special scheme
      then pair scheme <$> authority_state true (drop_while is_slash rest)
      else if starts_with_two (Ascii.eqb "/") rest
      then pair scheme <$> authority_state false (drop2 rest)
      else Some (scheme, Empty)
  end.

(** [new URL(input)], as far as [protocol] and [hostname] go. *)
Definition parse (input : string) : option t :=
  match basic_parser input with
  | Some (scheme, h) => Some (Make (scheme ++ ":") (host_serializer h))
  | None => None
  end.

End URL.

(** ** The host runtime: storage, tabs, scripting and messaging *)

Module Host.
Import JS.

(** A browsing context.  [tab_url] is [None] where the host withholds the
    address; [tab_active] marks the active tab of the current window;
    [tab_sheets] lists the style sheets the extension has inserted, oldest
    first.  [chrome.scripting.removeCSS] is the only call that takes one out
    again, and the program never issues it. *)
Record tab : Type := Tab {
  tab_id : Z;
  tab_url : option string;
  tab_active : bool;
  tab_sheets : list string
}.

(** The calls the program makes on the host. *)
Inductive op : Type :=
| StorageGet
| StorageSet (settings : value)
| StorageClear
| TabsGet (tabId : value)
| TabsQuery
| TabsQueryActive
| InsertCSS (tabId : value) (css : string)
| TabsSendMessage (tabId : Z) (msg : value)
| RuntimeSendMessage (msg : value).

(** What the popup's [this.settings] refers to: the module-level
    [DEFAULT_SETTINGS] object itself, or an object of its own. *)
Inductive binding : Type :=
| TheDefaults
| Own (v : value).

(** State of the popup page: the [DEFAULT_SETTINGS] object of
    [storage-manager.mjs] as it currently is, and the controller's fields. *)
Record popup : Type := Popup {
  DEFAULT_SETTINGS_object : value;
  settings : binding;
  currentSite : value;
  storageUpdateTimeout : bool
}.

(** [storage] is [chrome.storage.sync]; [faults] scripts the outcome of the
    next host calls ([Some e]: the promise rejects with [e]), every call
    after the script succeeding; [log] records the calls made, oldest
    first; [service_settings] is the service worker's [this.settings]. *)
Record world : Type := World {
  storage : gmap string value;
  tabs : list tab;
  faults : list (option error);
  log : list op;
  service_settings : value;
  page : popup
}.

Definition with_storage (s : gmap string value) (w : world) : world :=
  World s (tabs w) (faults w) (log w) (service_settings w) (page w).
Definition with_tabs (t : list tab) (w : world) : world :=
  World (storage w) t (faults w) (log w) (service_settings w) (page w).
Definition with_faults (f : list (option error)) (w : world) : world :=
  World (storage w) (tabs w) f (log w) (service_settings w) (page w).
Definition with_log (l : list op) (w : world) : world :=
  World (storage w) (tabs w) (faults w) l (service_settings w) (page w).
Definition with_service_settings (v : value) (w : world) : world :=
  World (storage w) (tabs w) (faults w) (log w) v (page w).
Definition with_page (p : popup) (w : world) : world :=
  World (storage w) (tabs w) (faults w) (log w) (service_settings w) p.

(** Asynchronous code: a computation over the world that returns or throws.
    A throw keeps the effects made so far. *)
Definition M (A : Type) : Type := world -> result A * world.

Definition ret {A} (a : A) : M A := fun w => (Ok a, w).
Definition throw {A} (e : error) : M A := fun w => (Throw e, w).

Definition bind {A B} (m : M A) (k : A -> M B) : M B :=
  fun w => match m w with
           | (Ok a, w') => k a w'
           | (Throw e, w') => (Throw e, w')
           end.

(** [try { m } catch (error) { handler }]. *)
Definition try_catch {A} (m : M A) (handler : error -> M A) : M A :=
  fun w => match m w with
           | (Ok a, w') => (Ok a, w')
           | (Throw e, w') => handler e w'
           end.

(** A synchronous expression evaluated inside asynchronous code. *)
Definition lift {A} (r : result A) : M A := fun w => (r, w).

Definition read {A} (f : world -> A) : M A := fun w => (Ok (f w), w).
Definition modify (f : world -> world) : M unit := fun w => (Ok tt, f w).

(** The outcome scripted for the next host call. *)
Definition next_fault (w : world) : option error := mjoin (head (faults w)).

(** The world once a call has been issued: the call is in the log and its
    scripted outcome is used up. *)
Definition issued (o : op) (w : world) : world :=
  with_faults (tail (faults w)) (with_log (log w ++ [o]) w).

(** One host call: it is logged, then rejects if the script says so, and
    otherwise runs. *)
Definition call {A} (o : op) (run : M A) : M A :=
  fun w =>
    match next_fault w with
    | Some e => (Throw e, issued o w)
    | None => run (issued o w)
    end.

(** Storage and messages hold JSON: a property whose value is [undefined]
    is dropped on the way. *)
Fixpoint serialize (v : value) : option value :=
  match v with
  | VUndefined => None
  | VObj m => Some (VObj (omap serialize m))
  | _ => Some v
  end.

Definition SETTINGS_KEY : string := "settings".

(** [chrome.storage.sync.get(SETTINGS_KEY)]: the result object holds the key
    if the store does. *)
Definition storage_get : M value :=
  call StorageGet
    (read (fun w => match storage w !! SETTINGS_KEY with
                    | Some v => VObj {[SETTINGS_KEY := v]}
                    | None => VObj ∅
                    end)).

(** [chrome.storage.sync.set({ [SETTINGS_KEY]: settings })]. *)
Definition storage_set (settings : value) : M unit :=
  call (StorageSet settings)
    (modify (fun w => match serialize settings with
                      | Some v => with_storage (<[SETTINGS_KEY := v]> (storage w)) w
                      | None => w
                      end)).

(** [chrome.storage.sync.clear()]. *)
Definition storage_clear : M unit :=
  call StorageClear (modify (with_storage ∅)).

Definition find_tab (id : Z) (ts : list tab) : option tab :=
  List.find (fun t => (tab_id t =? id)%Z) ts.

(** [chrome.tabs.get(tabId)]: rejects when there is no such tab. *)
Definition tabs_get (tabId : value) : M tab :=
  call (TabsGet tabId)
    (match tabId with
     | VNum id =>
         bind (read (fun w => find_tab id (tabs w)))
              (fun found =>
                 match found with
                 | Some t => ret t
                 | None => throw (Error "No tab with id")
                 end)
     | _ => throw TypeError
     end).

(** [chrome.tabs.query({})]: every open tab. *)
Definition tabs_query : M (list tab) := call TabsQuery (read tabs).

(** [chrome.tabs.query({ active: true, currentWindow: true })]. *)
Definition tabs_query_active : M (list tab) :=
  call TabsQueryActive (read (fun w => List.filter tab_active (tabs w))).

Definition add_sheet (id : Z) (css : string) (t : tab) : tab :=
  if (tab_id t =? id)%Z
  then Tab (tab_id t) (tab_url t) (tab_active t) (tab_sheets t ++ [css])
  else t.

(** [chrome.scripting.insertCSS({ target: { tabId }, css })]: one more
    style sheet on the tab; rejects when there is no such tab. *)
Definition scripting_insertCSS (tabId : value) (css : string) : M unit :=
  call (InsertCSS tabId css)
    (match tabId with
     | VNum id =>
         bind (read (fun w => find_tab id (tabs w)))
              (fun found =>
                 match found with
                 | Some _ => modify (fun w => with_tabs (List.map (add_sheet id css) (tabs w)) w)
                 | None => throw (Error "No tab with id")
                 end)
     | _ => throw TypeError
     end).

(** [chrome.tabs.sendMessage(tab.id, message)].  The bridge script of the
    page answers, and its [requestCSSInjection] sends nothing back:
    [chrome.tabs] is not available to such a script, so [getCurrentTabId]
    catches the error and yields [null]. *)
Definition tabs_sendMessage (id : Z) (msg : value) : M unit :=
  call (TabsSendMessage id msg) (ret tt).

(** [new URL(s)] throws where the parser fails. *)
Definition new_URL (s : string) : result URL.t :=
  match URL.parse s with
  | Some u => Ok u
  | None => Throw TypeError
  end.

(** [tab.url] as a JavaScript value. *)
Definition url_value (t : tab) : value :=
  match tab_url t with
  | Some s => VStr s
  | None => VUndefined
  end.

End Host.

Declare Scope js_scope.
Delimit Scope js_scope with js.
Notation "x <- m ;; k" := (Host.bind m (fun x => k))
  (at level 20, m at level 99, k at level 200, only parsing) : js_scope.
Notation "m ;; k" := (Host.bind m (fun _ => k))
  (at level 100, k at level 200, only parsing, right associativity) : js_scope.
Notation "'let?' x := e 'in' k" :=
  (match e with JS.Ok x => k | JS.Throw err => JS.Throw err end)
  (at level 10, x name, e at level 100, k at level 200, only parsing) : js_scope.

(** ** The service worker: class [VisitedLinkService] *)

Module Service.
Import JS Host.
Local Open Scope js_scope.

Definition DEFAULT_SETTINGS : value :=
  VObj (<["visitedColor" := VStr "#551a8b"]>
       (<["enabled" := VBool true]>
       (<["siteSettings" := VObj ∅]> ∅))).

(** The object [getEffectiveSettings] returns. *)
Record effective : Type := Effective { visitedColor : value; enabled : value }.

(** The object handed to [sendResponse]; [data] is [undefined] and [error]
    is [None] where the literal leaves them out. *)
Record response : Type := Response {
  success : bool;
  data : value;
  error : option string
}.

Definition this_settings : M value := read service_settings.

Definition loadSettings : M unit :=
  try_catch
    (result <- storage_get ;;
     stored <- lift (get result SETTINGS_KEY) ;;
     modify (with_service_settings (or stored (spread DEFAULT_SETTINGS))))
    (fun _ => modify (with_service_settings (spread DEFAULT_SETTINGS))).

Definition blocked_protocol (protocol : string) : bool :=
  String.eqb protocol "chrome:"
  || String.eqb protocol "chrome-extension:"
  || String.eqb protocol "moz-extension:"
  || String.eqb protocol "edge:"
  || String.eqb protocol "about:"
  || String.eqb protocol "data:"
  || String.eqb protocol "file:".

Definition shouldInjectOnSite (url : string) : bool :=
  match new_URL url with
  | Ok urlObj => if blocked_protocol (URL.protocol urlObj) then false else true
  | Throw _ => false
  end.

Definition nl : string := String "010" EmptyString.
Definition dq : string := String "034" EmptyString.

(** The template of [generateCSS], line by line, up to the interpolated colour. *)
Definition generateCSS_before : list string :=
  [ "";
    "        /* Visited Links Marker CSS - Using Browser's Native :visited State */";
    "        :root {";
    "          --visited-link-color: " ].

(** The rest of the template. *)
Definition generateCSS_after : list string :=
  [ ";";
    "        }";
    "";
    "        /* High specificity CSS rules to override any website styles */";
    "        html body a:visited,";
    "        html body a:visited *,";
    "        html body [role=" ++ dq ++ "link" ++ dq ++ "]:visited,";
    "        html body [role=" ++ dq ++ "link" ++ dq ++ "]:visited * {";
    "          color: var(--visited-link-color) !important;";
    "        }";
    "";
    "        /* Additional high-specificity rules for stubborn websites */";
    "        html body div a:visited,";
    "        html body div a:visited *,";
    "        html body section a:visited,";
    "        html body section a:visited *,";
    "        html body article a:visited,";
    "        html body article a:visited *,";
    "        html body main a:visited,";
    "        html body main a:visited *,";
    "        html body nav a:visited,";
    "        html body nav a:visited *,";
    "        html body header a:visited,";
    "        html body header a:visited *,";
    "        html body footer a:visited,";
    "        html body footer a:visited * {";
    "          color: var(--visited-link-color) !important;";
    "        }";
    "";
    "        /* Handle common class-based links */";
    "        html body .link:visited,";
    "        html body .link:visited *,";
    "        html body .url:visited,";
    "        html body .url:visited *,";
    "        html body .external:visited,";
    "        html body .external:visited * {";
    "          color: var(--visited-link-color) !important;";
    "        }";
    "";
    "        /* Handle deeply nested elements */";
    "        html body a:visited span,";
    "        html body a:visited div,";
    "        html body a:visited p,";
    "        html body a:visited h1,";
    "        html body a:visited h2,";
    "        html body a:visited h3,";
    "        html body a:visited h4,";
    "        html body a:visited h5,";
    "        html body a:visited h6,";
    "        html body a:visited strong,";
    "        html body a:visited em,";
    "        html body a:visited b,";
    "        html body a:visited i,";
    "        html body a:visited u {";
    "          color: var(--visited-link-color) !important;";
    "        }";
    "";
    "        /* Override text decoration while preserving functionality */";
    "        html body a:visited {";
    "          color: var(--visited-link-color) !important;";
    "        }";
    "      " ].

(** The template of [removeCSS]. *)
Definition resetCSS_lines : list string :=
  [ "";
    "          :root {";
    "            --visited-link-color: unset;";
    "          }";
    "          html body a:visited,";
    "          html body a:visited *,";
    "          html body [role=" ++ dq ++ "link" ++ dq ++ "]:visited,";
    "          html body [role=" ++ dq ++ "link" ++ dq ++ "]:visited * {";
    "            color: unset !important;";
    "          }";
    "        " ].

Definition resetCSS : string := String.concat nl resetCSS_lines.

Definition generateCSS (color : value) : string :=
  String.concat nl generateCSS_before
  ++ to_string (or color (VStr "unset"))
  ++ String.concat nl generateCSS_after.

Definition removeCSS (tabId : value) : M unit :=
  try_catch (scripting_insertCSS tabId resetCSS) (fun _ => ret tt).

(** Lines 461 to 477 of [getEffectiveSettings]: the resolution itself, once
    the host name of the tab is known. *)
Definition resolve (settings : value) (currentSite : string) : result effective :=
  let? allSites := get settings "siteSettings" in
  let siteSettings := or (get_opt allSites currentSite) (VObj ∅) in
  let? siteFlag := get siteSettings "enabled" in
  let siteEnabled := is_not_false siteFlag in
  let? siteColor := get siteSettings "visitedColor" in
  let? visitedColor :=
    (if is_not_undefined siteColor
     then get siteSettings "visitedColor"
     else get settings "visitedColor") in
  let? globalEnabled := get settings "enabled" in
  Ok (Effective visitedColor (and globalEnabled (VBool siteEnabled))).

Definition getEffectiveSettings (tabId : value) : M effective :=
  try_catch
    (tab <- tabs_get tabId ;;
     url <- lift (new_URL (to_string (url_value tab))) ;;
     let currentSite := URL.hostname url in
     settings <- this_settings ;;
     lift (resolve settings currentSite))
    (fun _ =>
       settings <- this_settings ;;
       color <- lift (get settings "visitedColor") ;;
       flag <- lift (get settings "enabled") ;;
       ret (Effective color flag)).

Definition injectCSS (tabId : value) : M unit :=
  try_catch
    (tab <- tabs_get tabId ;;
     if negb (truthy (url_value tab)) then ret tt
     else if negb (shouldInjectOnSite (to_string (url_value tab))) then ret tt
     else
       effectiveSettings <- getEffectiveSettings tabId ;;
       if negb (truthy (enabled effectiveSettings)) then removeCSS tabId
       else
         let css := generateCSS (visitedColor effectiveSettings) in
         scripting_insertCSS tabId css)
    (fun _ => ret tt).

Definition getSettings : M value :=
  try_catch
    (result <- storage_get ;;
     stored <- lift (get result SETTINGS_KEY) ;;
     ret (or stored (spread DEFAULT_SETTINGS)))
    (fun _ => ret (spread DEFAULT_SETTINGS)).

(** The inner [try] of [setSettings] either returns [true] or falls through
    to the final [return false]; [None] is the fall-through. *)
Definition setSettings (settings : value) : M bool :=
  try_catch
    (storage_set settings ;;
     modify (with_service_settings settings) ;;
     ret true)
    (fun error =>
       returned <-
         (if includes "quota" (message error)
          then try_catch
                 (storage_clear ;;
                  storage_set settings ;;
                  modify (with_service_settings settings) ;;
                  ret (Some true))
                 (fun _ => ret None)
          else ret None) ;;
       match returned with
       | Some b => ret b
       | None => ret false
       end).

(** [for (const x of xs) await body(x)]. *)
Fixpoint for_each {A} (xs : list A) (body : A -> M unit) : M unit :=
  match xs with
  | [] => ret tt
  | x :: rest => body x ;; for_each rest body
  end.

Definition eligible (t : tab) : bool :=
  truthy (url_value t) && shouldInjectOnSite (to_string (url_value t)).

Definition notifyAllTabs (msg : value) : M unit :=
  try_catch
    (tabs <- tabs_query ;;
     for_each tabs (fun tab =>
       if eligible tab
       then try_catch (tabs_sendMessage (tab_id tab) msg) (fun _ => ret tt)
       else ret tt))
    (fun _ => ret tt).

(** The callbacks of [tabs.map] are run here one after the other.  Each
    touches its own tab and only reads [this.settings]. *)
Definition updateAllTabs : M unit :=
  try_catch
    (tabs <- tabs_query ;;
     for_each tabs (fun tab =>
       try_catch
         (if eligible tab then injectCSS (VNum (tab_id tab)) else ret tt)
         (fun _ => ret tt)))
    (fun _ => ret tt).

Definition updateSettings_message (settings : value) : value :=
  VObj (<["action" := VStr "updateSettings"]> (<["settings" := settings]> ∅)).

Definition updateSettings (newSettings : value) : M bool :=
  try_catch
    (current <- this_settings ;;
     modify (with_service_settings (spread2 current newSettings)) ;;
     merged <- this_settings ;;
     _ <- setSettings merged ;;
     latest <- this_settings ;;
     notifyAllTabs (updateSettings_message latest) ;;
     updateAllTabs ;;
     ret true)
    (fun _ => ret false).

(** [handleMessage] yields the object it passes to [sendResponse]. *)
Definition handleMessage (msg : value) : M response :=
  try_catch
    (action <- lift (get msg "action") ;;
     if is_string action "getSettings" then
       settings <- getSettings ;;
       ret (Response true settings None)
     else if is_string action "updateSettings" then
       payload <- lift (get msg "settings") ;;
       _ <- updateSettings payload ;;
       ret (Response true VUndefined None)
     else if is_string action "injectCSS" then
       tabId <- lift (get msg "tabId") ;;
       injectCSS tabId ;;
       ret (Response true VUndefined None)
     else if is_string action "ping" then
       ret (Response true VUndefined None)
     else
       ret (Response false VUndefined (Some "Unknown action")))
    (fun error => ret (Response false VUndefined (Some (message error)))).

(** [init], as far as the state goes: [setupEventListeners] only registers
    the listeners below. *)
Definition init : M unit :=
  try_catch
    (loadSettings ;;
     updateAllTabs)
    (fun _ => ret tt).

(** [new VisitedLinkService()]: the constructor sets the field and calls
    [init]. *)
Definition new_VisitedLinkService : M unit :=
  modify (with_service_settings (spread DEFAULT_SETTINGS)) ;;
  init.

Definition initializeDefaultSettings : M unit :=
  try_catch
    (currentSettings <- getSettings ;;
     empty <- (if negb (truthy currentSettings) then ret true
               else n <- lift (Object_keys_length currentSettings) ;;
                    ret (n =? 0)%nat) ;;
     if empty : bool then _ <- setSettings DEFAULT_SETTINGS ;; ret tt else ret tt)
    (fun _ => ret tt).

Definition handleInstallation (details : value) : M unit :=
  reason <- lift (get details "reason") ;;
  if is_string reason "install" then initializeDefaultSettings else ret tt.

(** The callback [handleTabUpdate] hands to [setTimeout]. *)
Definition delayed_injectCSS (tabId : value) : M unit :=
  try_catch (injectCSS tabId) (fun _ => ret tt).

(** [handleTabUpdate] yields the callbacks it has scheduled; [tab] is the
    object the event carries. *)
Definition handleTabUpdate (tabId changeInfo tab : value) : M (list (M unit)) :=
  status <- lift (get changeInfo "status") ;;
  if is_string status "loading" || is_string status "complete" then
    url <- lift (get tab "url") ;;
    if truthy url then
      try_catch
        (if shouldInjectOnSite (to_string url) then
           try_catch (injectCSS tabId) (fun _ => ret tt) ;;
           if is_string status "loading"
           then ret [delayed_injectCSS tabId]
           else ret []
         else ret [])
        (fun _ => ret [])
    else ret []
  else ret [].

Definition handleStorageChange (changes namespace : value) : M unit :=
  if is_string namespace "sync" then
    changed <- lift (get changes "settings") ;;
    if truthy changed then
      newValue <- lift (get changed "newValue") ;;
      modify (with_service_settings (or newValue (spread DEFAULT_SETTINGS))) ;;
      current <- this_settings ;;
      notifyAllTabs (updateSettings_message current)
    else ret tt
  else ret tt.

(** The listener of [chrome.tabs.onCreated]. *)
Definition tabs_onCreated (tab : value) : M unit :=
  id <- lift (get tab "id") ;;
  if truthy id then
    url <- lift (get tab "url") ;;
    if shouldInjectOnSite (to_string url) then injectCSS id else ret tt
  else ret tt.

(** The listener of [chrome.tabs.onActivated]. *)
Definition tabs_onActivated (activeInfo : value) : M unit :=
  try_catch
    (tabId <- lift (get activeInfo "tabId") ;;
     tab <- tabs_get tabId ;;
     if eligible tab then injectCSS tabId else ret tt)
    (fun _ => ret tt).

(** What the host can deliver to the service worker: the six events
    [setupEventListeners] listens to, and the expiry of a pending timer. *)
Inductive event : Type :=
| onInstalled (details : value)
| onMessage (message : value)
| onUpdated (tabId changeInfo tab : value)
| onCreated (tab : value)
| onActivated (activeInfo : value)
| onChanged (changes namespace : value)
| onTimeout (n : nat).

(** The listeners of [setupEventListeners], over the timers that are
    pending: each yields the timers pending afterwards. *)
Definition setupEventListeners (e : event) (pending : list (M unit))
  : M (list (M unit)) :=
  match e with
  | onInstalled details => handleInstallation details ;; ret pending
  | onMessage message => _ <- handleMessage message ;; ret pending
  | onUpdated tabId changeInfo tab =>
      scheduled <- handleTabUpdate tabId changeInfo tab ;;
      ret (pending ++ scheduled)%list
  | onCreated tab => tabs_onCreated tab ;; ret pending
  | onActivated activeInfo => tabs_onActivated activeInfo ;; ret pending
  | onChanged changes namespace => handleStorageChange changes namespace ;; ret pending
  | onTimeout n =>
      match pending !! n with
      | Some callback => callback ;; ret (delete n pending)
      | None => ret pending
      end
  end.

(** The service worker over a sequence of events.  A listener that throws
    leaves the effects it has made and the timers as they were. *)
Fixpoint run (events : list event) (w : world) (pending : list (M unit))
  : world * list (M unit) :=
  match events with
  | [] => (w, pending)
  | e :: rest =>
      match setupEventListeners e pending w with
      | (Ok pending', w') => run rest w' pending'
      | (Throw _, w') => run rest w' pending
      end
  end.

(** The service worker from its start. *)
Definition started (events : list event) (w : world) : world :=
  fst (run events (snd (new_VisitedLinkService w)) []).

End Service.

(** ** Regular expressions, as far as the popup's validator needs them *)

Module Regex.

Inductive regex : Type :=
| Fail
| Empty
| Class (member : ascii -> bool)
| Seq (r1 r2 : regex)
| Alt (r1 r2 : regex).

(** [r{n}]. *)
Fixpoint times (n : nat) (r : regex) : regex :=
  match n with
  | O => Empty
  | S n' => Seq r (times n' r)
  end.

Fixpoint nullable (r : regex) : bool :=
  match r with
  | Fail => false
  | Empty => true
  | Class _ => false
  | Seq r1 r2 => nullable r1 && nullable r2
  | Alt r1 r2 => nullable r1 || nullable r2
  end.

(** What is left of [r] once [c] has been read. *)
Fixpoint after (c : ascii) (r : regex) : regex :=
  match r with
  | Fail => Fail
  | Empty => Fail
  | Class member => if member c then Empty else Fail
  | Seq r1 r2 =>
      if nullable r1 then Alt (Seq (after c r1) r2) (after c r2)
      else Seq (after c r1) r2
  | Alt r1 r2 => Alt (after c r1) (after c r2)
  end.

(** [/^r$/.test(s)]: without the [m] flag the anchors are the two ends of
    the input, so the whole of [s] has to match. *)
Fixpoint test (r : regex) (s : string) : bool :=
  match s with
  | EmptyString => nullable r
  | String c rest => test (after c r) rest
  end.

Definition char (c : ascii) : regex := Class (Ascii.eqb c).

(** The strings an expression stands for. *)
Inductive matches : regex -> string -> Prop :=
| matches_Empty : matches Empty EmptyString
| matches_Class (member : ascii -> bool) (c : ascii) :
    member c = true -> matches (Class member) (String c EmptyString)
| matches_Seq (r1 r2 : regex) (s1 s2 : string) :
    matches r1 s1 -> matches r2 s2 -> matches (Seq r1 r2) (s1 ++ s2)
| matches_Alt_l (r1 r2 : regex) (s : string) :
    matches r1 s -> matches (Alt r1 r2) s
| matches_Alt_r (r1 r2 : regex) (s : string) :
    matches r2 s -> matches (Alt r1 r2) s.

Definition range (lo hi : ascii) (c : ascii) : bool :=
  (nat_of_ascii lo <=? nat_of_ascii c)%nat && (nat_of_ascii c <=? nat_of_ascii hi)%nat.

End Regex.

(** ** The settings store: class [StorageManager] *)

Module StorageManager.
Import JS Host.
Local Open Scope js_scope.

(** The object literal of lines 34 to 38. *)
Definition DEFAULT_SETTINGS : value :=
  VObj (<["visitedColor" := VStr "#551a8b"]>
       (<["enabled" := VBool true]>
       (<["siteSettings" := VObj ∅]> ∅))).

(** The object a reference denotes in the current state of the page. *)
Definition deref (b : binding) (w : world) : value :=
  match b with
  | TheDefaults => DEFAULT_SETTINGS_object (page w)
  | Own v => v
  end.

(** [stored || DEFAULT_SETTINGS] yields the module's object itself, not a
    copy. *)
Definition or_DEFAULT_SETTINGS (stored : value) : binding :=
  if truthy stored then Own stored else TheDefaults.

Definition getSettings : M binding :=
  try_catch
    (result <- storage_get ;;
     stored <- lift (get result SETTINGS_KEY) ;;
     ret (or_DEFAULT_SETTINGS stored))
    (fun _ => ret TheDefaults).

Definition setSettings (settings : value) : M bool :=
  try_catch
    (storage_set settings ;;
     ret true)
    (fun _ => ret false).

Definition updateSettings (updates : value) : M bool :=
  try_catch
    (currentRef <- getSettings ;;
     currentSettings <- read (deref currentRef) ;;
     let newSettings := spread2 currentSettings updates in
     setSettings newSettings)
    (fun _ => ret false).

End StorageManager.

(** ** The popup: class [PopupController] *)

Module Popup.
Import JS Host.
Local Open Scope js_scope.

(** The page right after its modules are evaluated and the constructor has
    run: [this.settings = { ...DEFAULT_SETTINGS }], no site, no timer.  The
    copy shares its [siteSettings] object with the module's; [loadSettings]
    replaces it before any listener is installed. *)
Definition fresh_page : popup :=
  Popup StorageManager.DEFAULT_SETTINGS
        (Own (spread StorageManager.DEFAULT_SETTINGS))
        VNull
        false.

Definition this_settings : M value :=
  read (fun w => StorageManager.deref (settings (page w)) w).

(** A mutation of the object [this.settings] refers to.  When that object
    is [DEFAULT_SETTINGS], the module's object changes with it. *)
Definition mutate_settings (v : value) : M unit :=
  modify (fun w =>
    let p := page w in
    match settings p with
    | TheDefaults =>
        with_page (Popup v TheDefaults (currentSite p) (storageUpdateTimeout p)) w
    | Own _ =>
        with_page (Popup (DEFAULT_SETTINGS_object p) (Own v) (currentSite p)
                         (storageUpdateTimeout p)) w
    end).

(** [this.settings = ref]. *)
Definition assign_settings (ref : binding) : M unit :=
  modify (fun w =>
    let p := page w in
    with_page (Popup (DEFAULT_SETTINGS_object p) ref (currentSite p)
                     (storageUpdateTimeout p)) w).

Definition set_currentSite (site : value) : M unit :=
  modify (fun w =>
    let p := page w in
    with_page (Popup (DEFAULT_SETTINGS_object p) (settings p) site
                     (storageUpdateTimeout p)) w).

Definition set_timeout (pending : bool) : M unit :=
  modify (fun w =>
    let p := page w in
    with_page (Popup (DEFAULT_SETTINGS_object p) (settings p) (currentSite p) pending) w).

(** An object mutated in place is seen through every path to it: as values,
    the container is rebuilt around the new content.  A primitive container
    never held the object. *)
Definition put_back (container : value) (k : string) (x : value) : value :=
  match container with
  | VObj m => VObj (<[k := x]> m)
  | _ => container
  end.

Definition loadSettings : M unit :=
  try_catch
    (ref <- StorageManager.getSettings ;;
     assign_settings ref)
    (fun _ => assign_settings (Own (spread StorageManager.DEFAULT_SETTINGS))).

(** [const [tab] = await chrome.tabs.query(...)] takes the first tab, if
    there is one. *)
Definition getCurrentSiteInfo : M unit :=
  try_catch
    (found <- tabs_query_active ;;
     match found with
     | tab :: _ =>
         if truthy (url_value tab) then
           url <- lift (new_URL (to_string (url_value tab))) ;;
           set_currentSite (VStr (URL.hostname url))
         else ret tt
     | [] => ret tt
     end)
    (fun _ => set_currentSite (VStr "Unknown")).

(** [init], as far as the state goes: the settings, then the site. *)
Definition init : M unit :=
  try_catch
    (loadSettings ;;
     getCurrentSiteInfo)
    (fun _ => ret tt).

(** The page opens: its modules are evaluated, the constructor sets the
    fields, and [init] runs. *)
Definition start : M unit :=
  modify (with_page fresh_page) ;;
  init.

Definition getCurrentSite : M value :=
  site <- read (fun w => currentSite (page w)) ;;
  if is_string site "local-file" then ret (VStr "local-file")
  else ret (or site (VStr "unknown")).

(** The popup sends the message; the service worker's listener handles a
    copy of it and its response comes back. *)
Definition runtime_sendMessage (msg : value) : M Service.response :=
  call (RuntimeSendMessage msg)
    (Service.handleMessage (default VUndefined (serialize msg))).

Definition notifyServiceWorker : M unit :=
  try_catch
    (current <- this_settings ;;
     response <- runtime_sendMessage (Service.updateSettings_message current) ;;
     if negb (Service.success response)
     then throw (Error ("Service worker returned error: "
                        ++ to_string (or (default VUndefined (VStr <$> Service.error response))
                                         (VStr "Unknown error"))))
     else ret tt)
    (fun error => throw error).

(** The body of the timer callback of [saveSettings]. *)
Definition debounced_save : M unit :=
  try_catch
    (current <- this_settings ;;
     _ <- StorageManager.setSettings current ;;
     try_catch notifyServiceWorker (fun _ => ret tt))
    (fun _ => ret tt).

(** The 300 ms timer elapses. *)
Definition timeout_fires : M unit :=
  pending <- read (fun w => storageUpdateTimeout (page w)) ;;
  if pending then set_timeout false ;; debounced_save else ret tt.

Definition saveSettings (key : string) : M unit :=
  set_timeout false ;;
  if String.eqb key "enabled" then
    current <- this_settings ;;
    _ <- StorageManager.setSettings current ;;
    try_catch notifyServiceWorker (fun _ => ret tt)
  else
    set_timeout true.

Definition updateGlobalSetting (key : string) (v : value) : M unit :=
  try_catch
    (current <- this_settings ;;
     updated <- lift (set current key v) ;;
     mutate_settings updated ;;
     saveSettings key)
    (fun _ => ret tt).

(** [siteSettings[currentSite]] reads through the prototype chain.  Where
    the site has no entry and its name is an inherited one, the test finds
    a built-in object, no entry is made, and the assignment lands on that
    object: it takes the property (the listeners pass [enabled] and
    [visitedColor], which it does not define), and the settings stay as
    they are.  No later step reads that object back into the settings: the
    site of a page never changes, and the store and the messages take own
    properties only. *)
Definition updateSiteSetting (key : string) (v : value) : M unit :=
  try_catch
    (site <- getCurrentSite ;;
     let currentSite := to_string site in
     s0 <- this_settings ;;
     all0 <- lift (get s0 "siteSettings") ;;
     (if negb (truthy all0)
      then s <- lift (set s0 "siteSettings" (VObj ∅)) ;; mutate_settings s
      else ret tt) ;;
     s1 <- this_settings ;;
     all1 <- lift (get s1 "siteSettings") ;;
     entry1 <- lift (lookup all1 currentSite) ;;
     (if negb (truthy_property entry1)
      then all <- lift (set all1 currentSite (VObj ∅)) ;;
           mutate_settings (put_back s1 "siteSettings" all)
      else ret tt) ;;
     s2 <- this_settings ;;
     all2 <- lift (get s2 "siteSettings") ;;
     entry2 <- lift (lookup all2 currentSite) ;;
     match entry2 with
     | Value entry2 =>
         entry <- lift (set entry2 key v) ;;
         mutate_settings (put_back s2 "siteSettings" (put_back all2 currentSite entry))
     | Builtin => ret tt
     end ;;
     saveSettings key)
    (fun _ => ret tt).

(** The same test: on a site whose name finds a built-in object, the
    [delete] lands on that object, and the write and the message follow. *)
Definition removeSiteSetting (key : string) : M unit :=
  try_catch
    (site <- getCurrentSite ;;
     let currentSite := to_string site in
     s0 <- this_settings ;;
     all0 <- lift (get s0 "siteSettings") ;;
     if truthy all0 then
       entry0 <- lift (lookup all0 currentSite) ;;
       if truthy_property entry0 then
         match entry0 with
         | Value entry0 =>
             mutate_settings
               (put_back s0 "siteSettings"
                  (put_back all0 currentSite (delete_prop entry0 key)))
         | Builtin => ret tt
         end ;;
         s1 <- this_settings ;;
         _ <- StorageManager.setSettings s1 ;;
         notifyServiceWorker
       else ret tt
     else ret tt)
    (fun _ => ret tt).

Definition hex_digit : Regex.regex :=
  Regex.Class (fun c => Regex.range "A" "F" c || Regex.range "a" "f" c || Regex.range "0" "9" c).

(** [/^#([A-Fa-f0-9]{6}|[A-Fa-f0-9]{3})$/]. *)
Definition hex_color_pattern : Regex.regex :=
  Regex.Seq (Regex.char "#")
            (Regex.Alt (Regex.times 6 hex_digit) (Regex.times 3 hex_digit)).

Definition isValidHexColor (hex : string) : bool :=
  Regex.test hex_color_pattern hex.

(** The listeners.  What they write to the document's controls is not
    part of the state. *)
Definition globalToggle_change (checked : bool) : M unit :=
  updateGlobalSetting "enabled" (VBool checked).

Definition globalColorPicker_input (v : string) : M unit :=
  updateGlobalSetting "visitedColor" (VStr v).

Definition globalColorHex_input (v : string) : M unit :=
  if isValidHexColor v
  then updateGlobalSetting "visitedColor" (VStr v)
  else ret tt.

Definition siteToggle_change (checked : bool) : M unit :=
  updateSiteSetting "enabled" (VBool checked).

Definition siteColorPicker_input (v : string) : M unit :=
  updateSiteSetting "visitedColor" (VStr v).

Definition siteColorHex_input (v : string) : M unit :=
  if isValidHexColor v
  then updateSiteSetting "visitedColor" (VStr v)
  else ret tt.

Definition useCustomColor_change (checked : bool) : M unit :=
  if checked then
    current <- this_settings ;;
    globalColor <- lift (get current "visitedColor") ;;
    updateSiteSetting "visitedColor" globalColor
  else
    removeSiteSetting "visitedColor".

(** [destroy], which the page runs when it unloads. *)
Definition destroy : M unit :=
  pending <- read (fun w => storageUpdateTimeout (page w)) ;;
  if pending then set_timeout false else ret tt.

(** The document of the popup, as far as the script touches it: the
    elements it looks up, by the id or the selector it uses, each with the
    properties the script has assigned.  An element that is not in the map
    is one the lookup does not find. *)
Definition document : Type := gmap string (gmap string value).

(** [element.property = v], for an element the lookup has found. *)
Definition assign (element property : string) (v : value) (doc : document) : document :=
  match doc !! element with
  | Some properties => <[element := <[property := v]> properties]> doc
  | None => doc
  end.

(** [document.getElementById(id)], as the conditions test it. *)
Definition found (element : string) (doc : document) : bool :=
  match doc !! element with
  | Some _ => true
  | None => false
  end.

Definition initializeGlobalSettings (doc : document) : M document :=
  doc <- (if found "global-toggle" doc then
            current <- this_settings ;;
            flag <- lift (get current "enabled") ;;
            ret (assign "global-toggle" "checked" flag doc)
          else ret doc) ;;
  if found "global-color-picker" doc && found "global-color-hex" doc then
    current <- this_settings ;;
    color <- lift (get current "visitedColor") ;;
    ret (assign "global-color-hex" "value" color
           (assign "global-color-picker" "value" color doc))
  else ret doc.

Definition initializeSiteSettings (doc : document) : M document :=
  site <- getCurrentSite ;;
  let currentSite := to_string site in
  current <- this_settings ;;
  allSites <- lift (get current "siteSettings") ;;
  let siteSettings := or (get_opt allSites currentSite) (VObj ∅) in
  doc <- (if found "site-toggle" doc then
            flag <- lift (get siteSettings "enabled") ;;
            ret (assign "site-toggle" "checked" (VBool (is_not_false flag)) doc)
          else ret doc) ;;
  doc <- (if found "use-custom-color" doc && found "site-color-row" doc then
            color <- lift (get siteSettings "visitedColor") ;;
            let hasCustomColor := is_not_undefined color in
            ret (assign "site-color-row" "style.display"
                   (VStr (if hasCustomColor then "flex" else "none"))
                   (assign "use-custom-color" "checked" (VBool hasCustomColor) doc))
          else ret doc) ;;
  if found "site-color-picker" doc && found "site-color-hex" doc then
    color <- lift (get siteSettings "visitedColor") ;;
    if truthy color then
      ret (assign "site-color-hex" "value" color
             (assign "site-color-picker" "value" color doc))
    else
      current <- this_settings ;;
      globalColor <- lift (get current "visitedColor") ;;
      ret (assign "site-color-hex" "value" globalColor
             (assign "site-color-picker" "value" globalColor doc))
  else ret doc.

Definition updateStatusIndicator (doc : document) : M document :=
  if found ".status-dot" doc && found ".status-text" doc then
    current <- this_settings ;;
    flag <- lift (get current "enabled") ;;
    if truthy flag then
      ret (assign ".status-text" "textContent" (VStr "Active")
             (assign ".status-dot" "className" (VStr "status-dot active") doc))
    else
      ret (assign ".status-text" "textContent" (VStr "Disabled")
             (assign ".status-dot" "className" (VStr "status-dot inactive") doc))
  else ret doc.

Definition initializeUI (doc : document) : M document :=
  doc <- initializeGlobalSettings doc ;;
  doc <- initializeSiteSettings doc ;;
  updateStatusIndicator doc.

End Popup.

(** ** The settings record of the data model *)

Module Model.
Import JS.

(** A per-site entry: both fields are optional. *)
Record SiteEntry : Type := {
  site_enabled : option bool;
  site_visitedColor : option string
}.

Record Settings : Type := {
  enabled : bool;
  visitedColor : string;
  siteSettings : gmap string SiteEntry
}.

Definition optional_field (k : string) (v : option value) (m : gmap string value)
  : gmap string value :=
  match v with
  | Some x => <[k := x]> m
  | None => m
  end.

(** The JavaScript objects such a record and its entries are. *)
Definition entry_object (e : SiteEntry) : value :=
  VObj (optional_field "enabled" (VBool <$> site_enabled e)
       (optional_field "visitedColor" (VStr <$> site_visitedColor e) ∅)).

Definition settings_object (s : Settings) : value :=
  VObj (<["visitedColor" := VStr (visitedColor s)]>
       (<["enabled" := VBool (enabled s)]>
       (<["siteSettings" := VObj (entry_object <$> siteSettings s)]> ∅))).

(** The derivation rule of the effective settings, in the spec's words:
    [enabled] is the conjunction of the global flag and the site's flag
    (true when absent); [visitedColor] is the site's colour if present, else
    the global one. *)
Definition effective_enabled (s : Settings) (site : string) : bool :=
  enabled s && default true (siteSettings s !! site ≫= site_enabled).

Definition effective_visitedColor (s : Settings) (site : string) : string :=
  default (visitedColor s) (siteSettings s !! site ≫= site_visitedColor).

End Model.

(** ** Vocabulary of the statements *)

Module Vocabulary.
Import JS Host.

(** The entry the resolver works with: [siteSettings?.[site] || {}]. *)
Definition entry_of (settings : value) (site : string) : value :=
  or (get_opt (own settings "siteSettings") site) (VObj ∅).

(** The pair of global values, which the [catch] branch of
    [getEffectiveSettings] returns. *)
Definition global_settings (settings : value) : Service.effective :=
  Service.Effective (own settings "visitedColor") (own settings "enabled").

(** [getEffectiveSettings] in closed form: one [tabs.get], then either the
    resolution for the tab's host name or the global pair. *)
Definition effective_for (w : world) (tabId : value) : Service.effective :=
  match next_fault w, tabId with
  | None, VNum id =>
      match find_tab id (tabs w) with
      | Some t =>
          match URL.parse (to_string (url_value t)) with
          | Some u =>
              match Service.resolve (service_settings w) (URL.hostname u) with
              | Ok e => e
              | Throw _ => global_settings (service_settings w)
              end
          | None => global_settings (service_settings w)
          end
      | None => global_settings (service_settings w)
      end
  | _, _ => global_settings (service_settings w)
  end.

(** "Use global" for both fields: the global colour, and the global flag
    as [flag && true] leaves it. *)
Definition inherit_global (settings : value) : Service.effective :=
  Service.Effective (own settings "visitedColor")
                    (and (own settings "enabled") (VBool true)).

(** The host name of the page a tab shows, when the tab exists and its
    address parses. *)
Definition site_of_tab (w : world) (tabId : Z) : option string :=
  t ← find_tab tabId (tabs w);
  URL.hostname <$> URL.parse (to_string (url_value t)).

(** The world after [chrome.scripting.insertCSS] has been called. *)
Definition inserted (w : world) (tabId : value) (css : string) : world :=
  match next_fault w, tabId with
  | None, VNum id =>
      match find_tab id (tabs w) with
      | Some _ => with_tabs (List.map (add_sheet id css) (tabs w))
                            (issued (InsertCSS tabId css) w)
      | None => issued (InsertCSS tabId css) w
      end
  | _, _ => issued (InsertCSS tabId css) w
  end.

(** The style sheet [injectCSS] chooses for an effective pair. *)
Definition sheet_for (e : Service.effective) : string :=
  if truthy (Service.enabled e)
  then Service.generateCSS (Service.visitedColor e)
  else Service.resetCSS.

(** [injectCSS] in closed form: one [tabs.get]; for an eligible tab a
    second one, made by [getEffectiveSettings], and one [insertCSS] with the
    sheet of the pair it returned. *)
Definition injected (w : world) (tabId : value) : world :=
  let w1 := issued (TabsGet tabId) w in
  match next_fault w, tabId with
  | None, VNum id =>
      match find_tab id (tabs w) with
      | Some t =>
          if Service.eligible t then
            match fst (Service.getEffectiveSettings tabId w1) with
            | Ok e => inserted (issued (TabsGet tabId) w1) tabId (sheet_for e)
            | Throw _ => issued (TabsGet tabId) w1
            end
          else w1
      | None => w1
      end
  | _, _ => w1
  end.

(** The style sheets of a tab, oldest first. *)
Definition sheets_of (w : world) (id : Z) : list string :=
  match find_tab id (tabs w) with
  | Some t => tab_sheets t
  | None => []
  end.

(** The sheets a call adds to the tab it addresses; the other tabs keep
    theirs. *)
Definition adds (w w' : world) (tabId : value) (added : list string) : Prop :=
  forall id,
    sheets_of w' id
    = (sheets_of w id
       ++ match tabId with
          | VNum i => if (i =? id)%Z then added else []
          | _ => []
          end)%list.

(** A computation leaves a component of the world as it found it. *)
Definition keeps {X A} (f : world -> X) (m : M A) : Prop :=
  forall w, f (snd (m w)) = f w.

(** A component the bookkeeping of a host call does not touch. *)
Definition unlogged {X} (f : world -> X) : Prop :=
  forall o w, f (issued o w) = f w.

(** The outcome scripted for the host call after the next one. *)
Definition second_fault (w : world) : option error := mjoin (head (tail (faults w))).

(** The key under which the popup files the entry of its site. *)
Definition popup_site (w : world) : string :=
  to_string (or (currentSite (page w)) (VStr "unknown")).

(** The object the popup's [this.settings] refers to. *)
Definition popup_settings (w : world) : value :=
  StorageManager.deref (settings (page w)) w.

(** What [chrome.storage.sync] holds under the settings key, as a read of
    the result object sees it. *)
Definition stored_settings (w : world) : value :=
  default VUndefined (storage w !! SETTINGS_KEY).

(** The default record, as the spec spells it. *)
Definition default_record : value :=
  VObj {["enabled" := VBool true;
         "visitedColor" := VStr "#551a8b";
         "siteSettings" := VObj ∅]}.

(** The world once a write of [settings] has gone through. *)
Definition persisted (settings : value) (w : world) : world :=
  match serialize settings with
  | Some v => with_storage (<[SETTINGS_KEY := v]> (storage w)) w
  | None => w
  end.

(** What the quota branch of the service worker's [setSettings] comes to,
    given the outcomes scripted after the failed write: the result and the
    calls made after that write. *)
Definition retry_outcome (settings : value) (rest : list (option error))
  : bool * list op :=
  match rest with
  | Some _ :: _ => (false, [StorageClear])
  | None :: Some _ :: _ => (false, [StorageClear; StorageSet settings])
  | _ => (true, [StorageClear; StorageSet settings])
  end.

Definition is_clear (o : op) : bool :=
  match o with StorageClear => true | _ => false end.

(** The calls a computation adds to the log. *)
Definition calls_since (before after : world) : list op :=
  drop (length (log before)) (log after).

Definition is_insertCSS (o : op) : bool :=
  match o with InsertCSS _ _ => true | _ => false end.




(** What a style sheet declares for [--visited-link-color]: the text
    between the first [--visited-link-color: ] and the next semicolon. *)
Fixpoint strip_prefix (p s : string) : option string :=
  match p, s with
  | EmptyString, _ => Some s
  | String a p', String b s' => if Ascii.eqb a b then strip_prefix p' s' else None
  | String _ _, EmptyString => None
  end.

Fixpoint find_after (marker s : string) : option string :=
  match strip_prefix marker s with
  | Some rest => Some rest
  | None =>
      match s with
      | EmptyString => None
      | String _ s' => find_after marker s'
      end
  end.

(** A colour in hexadecimal notation, in the spec's words: [#] followed by
    three or six hexadecimal digits. *)
Definition hex_digits : list ascii :=
  list_ascii_of_string "0123456789abcdefABCDEF".

Definition is_hex_digit (c : ascii) : bool := existsb (Ascii.eqb c) hex_digits.

Fixpoint all_hex_digits (s : string) : bool :=
  match s with
  | EmptyString => true
  | String c rest => is_hex_digit c && all_hex_digits rest
  end.

Definition hex_color (s : string) : Prop :=
  exists digits,
    s = String "#" digits
    /\ (String.length digits = 3 \/ String.length digits = 6)
    /\ all_hex_digits digits = true.

(** No character of [s] satisfies [p]. *)
Fixpoint none_of (p : ascii -> bool) (s : string) : bool :=
  match s with
  | EmptyString => true
  | String c rest => negb (p c) && none_of p rest
  end.

Definition declared_color (css : string) : option string :=
  URL.take_until (Ascii.eqb ";") <$> find_after "--visited-link-color: " css.

(** A computation keeps an invariant of the world. *)
Definition preserves {A} (I : world -> Prop) (m : M A) : Prop :=
  forall w, I w -> I (snd (m w)).

(** The effective pair for the page a tab shows, as [getEffectiveSettings]
    forms it from the given record. *)
Definition effective_of (settings : value) (t : tab) : Service.effective :=
  match URL.parse (to_string (url_value t)) with
  | Some u =>
      match Service.resolve settings (URL.hostname u) with
      | Ok e => e
      | Throw _ => global_settings settings
      end
  | None => global_settings settings
  end.

(** A tab with one more style sheet. *)
Definition with_sheet (css : string) (t : tab) : tab :=
  Tab (tab_id t) (tab_url t) (tab_active t) (tab_sheets t ++ [css]).

(** A tab once [injectCSS] has gone through for it under the given record:
    an eligible tab has the sheet of its effective pair as its newest one,
    any other tab is as it was. *)
Definition refreshed (settings : value) (t : tab) : tab :=
  if Service.eligible t
  then with_sheet (sheet_for (effective_of settings t)) t
  else t.

(** The message [notifyAllTabs] sends to a tab. *)
Definition sent (msg : value) (t : tab) : op := TabsSendMessage (tab_id t) msg.

(** What the service worker's [getSettings] returns: the stored value, or a
    copy of the defaults where nothing truthy is stored or the read fails. *)
Definition settings_as_read (w : world) : value :=
  match next_fault w with
  | Some _ => spread Service.DEFAULT_SETTINGS
  | None => or (stored_settings w) (spread Service.DEFAULT_SETTINGS)
  end.

(** Whether the popup has a save pending. *)
Definition save_pending (w : world) : bool := storageUpdateTimeout (page w).

(** The log has only grown. *)
Definition log_extends (before : list op) (w : world) : Prop :=
  exists more, log w = (before ++ more)%list.

(** The object a container offers for an assignment to one of its
    properties: itself where it is an object, a new empty one where it is
    falsy, and none where it is another primitive, on which the assignment
    throws. *)
Definition object_or_empty (v : value) : option (gmap string value) :=
  match v with
  | VObj m => Some m
  | _ => if truthy v then None else Some ∅
  end.

(** Between two worlds nothing has changed but the settings the popup
    holds. *)
Definition only_settings_changed (w w' : world) : Prop :=
  w' = with_page (page w') w
  /\ currentSite (page w') = currentSite (page w)
  /\ storageUpdateTimeout (page w') = storageUpdateTimeout (page w).

(** The settings of the popup with [key] set to [v] in the entry of
    [site]. *)
Definition with_site_setting (o m e : gmap string value) (site key : string) (v : value)
  : value :=
  VObj (<["siteSettings" := VObj (<[site := VObj (<[key := v]> e)]> m)]> o).

(** What the document shows in a property of an element: the value the
    script has assigned to it. *)
Definition shown (doc : Popup.document) (element property : string) : value :=
  match doc !! element with
  | Some properties => default VUndefined (properties !! property)
  | None => VUndefined
  end.

(** The elements [initializeUI] looks up. *)
Definition controls : list string :=
  ["global-toggle"; "global-color-picker"; "global-color-hex";
   "site-toggle"; "use-custom-color"; "site-color-row";
   "site-color-picker"; "site-color-hex"; ".status-dot"; ".status-text"].

(** The document has all of them. *)
Definition complete (doc : Popup.document) : Prop :=
  Forall (fun element => Popup.found element doc = true) controls.

End Vocabulary.

(** ** Sample data *)

Module Sample.
Import JS Host.

Definition example_entry : Model.SiteEntry :=
  {| Model.site_enabled := Some false; Model.site_visitedColor := Some "#abcdef" |}.

Definition example_settings : Model.Settings :=
  {| Model.enabled := true;
     Model.visitedColor := "#123456";
     Model.siteSettings := {["example.com" := example_entry]} |}.

Definition example_tab : tab := Tab 7 (Some "https://example.com/page") true [].
Definition news_tab : tab := Tab 8 (Some "https://news.example.org/") false [].
Definition internal_tab : tab := Tab 9 (Some "chrome://extensions/") false [].

(** A world with three tabs, an empty store, no scripted failure, and the
    given record in the service worker's memory. *)
Definition world_with (settings : value) : world :=
  World ∅ [example_tab; news_tab; internal_tab] [] [] settings Popup.fresh_page.

Definition example_world : world := world_with (Model.settings_object example_settings).

(** A world whose next host call fails for lack of quota. *)
Definition quota_error : error := Error "QUOTA_BYTES_PER_ITEM quota exceeded".

Definition over_quota : world :=
  World ∅ [example_tab] [Some quota_error] [] Service.DEFAULT_SETTINGS Popup.fresh_page.

(** A world whose next host call fails for another reason. *)
Definition offline : world :=
  World ∅ [example_tab] [Some (Error "Extension context invalidated.")] []
        Service.DEFAULT_SETTINGS Popup.fresh_page.

(** A record with a custom colour for [example.com], and a world that
    holds it in the store and in the service worker's memory, the active tab
    showing that site. *)
Definition custom_entry : gmap string value := {["visitedColor" := VStr "#abcdef"]}.
Definition custom_sites : gmap string value := {["example.com" := VObj custom_entry]}.
Definition custom_record : gmap string value :=
  {["enabled" := VBool true;
    "visitedColor" := VStr "#123456";
    "siteSettings" := VObj custom_sites]}.

Definition installed : world :=
  World {[SETTINGS_KEY := VObj custom_record]} [example_tab; news_tab; internal_tab]
        [] [] (VObj custom_record) Popup.fresh_page.

(** The same record with the global switch off. *)
Definition switched_off : Model.Settings :=
  {| Model.enabled := false;
     Model.visitedColor := "#123456";
     Model.siteSettings := {["example.com" := example_entry]} |}.

(** A world whose store holds a record without any property. *)
Definition empty_record_stored : world :=
  World {[SETTINGS_KEY := VObj ∅]} [example_tab; news_tab; internal_tab]
        [] [] Service.DEFAULT_SETTINGS Popup.fresh_page.

(** A world whose active tab shows a local file. *)
Definition local_file_tab : tab := Tab 3 (Some "file:///home/u/a.html") true [].

Definition on_a_local_file : world :=
  World ∅ [local_file_tab] [] [] Service.DEFAULT_SETTINGS Popup.fresh_page.

(** A world whose active tab is on a host with the name of a property
    that every object inherits. *)
Definition constructor_tab : tab := Tab 4 (Some "http://constructor/") true [].

Definition on_constructor : world :=
  World ∅ [constructor_tab] [] [] Service.DEFAULT_SETTINGS Popup.fresh_page.

(** The document of the popup before the script has assigned anything. *)
Definition blank_document : Popup.document :=
  {["global-toggle" := ∅; "global-color-picker" := ∅; "global-color-hex" := ∅;
    "site-toggle" := ∅; "use-custom-color" := ∅; "site-color-row" := ∅;
    "site-color-picker" := ∅; "site-color-hex" := ∅;
    ".status-dot" := ∅; ".status-text" := ∅]}.

End Sample.

(** * Properties *)

Import JS Host Vocabulary.

(** ** Reading the fields of a settings record *)

Section Fields.
Variable s : Model.Settings.

Lemma own_visitedColor :
  own (Model.settings_object s) "visitedColor" = VStr (Model.visitedColor s).
Proof. unfold Model.settings_object, own. by rewrite lookup_insert_eq. Qed.

Lemma own_enabled :
  own (Model.settings_object s) "enabled" = VBool (Model.enabled s).
Proof.
  unfold Model.settings_object, own.
  rewrite lookup_insert_ne by done. by rewrite lookup_insert_eq.
Qed.

Lemma own_siteSettings :
  own (Model.settings_object s) "siteSettings"
  = VObj (Model.entry_object <$> Model.siteSettings s).
Proof.
  unfold Model.settings_object, own.
  do 2 (rewrite lookup_insert_ne by done). by rewrite lookup_insert_eq.
Qed.

Lemma own_site (site : string) :
  own (VObj (Model.entry_object <$> Model.siteSettings s)) site
  = default VUndefined (Model.entry_object <$> Model.siteSettings s !! site).
Proof. unfold own. by rewrite lookup_fmap. Qed.

End Fields.

(** The resolution of a record of the data model, in the words of the
    derivation rule. *)
Lemma resolve_settings_object (s : Model.Settings) (site : string) :
  Service.resolve (Model.settings_object s) site
  = Ok (Service.Effective (VStr (Model.effective_visitedColor s site))
                          (VBool (Model.effective_enabled s site))).
Proof.
  unfold Service.resolve, Model.effective_visitedColor, Model.effective_enabled.
  change (get (Model.settings_object s)) with (fun k => Ok (own (Model.settings_object s) k)).
  cbv beta. rewrite own_siteSettings, own_visitedColor, own_enabled.
  unfold get_opt. rewrite own_site.
  destruct s as [g col m]; cbn [Model.siteSettings Model.enabled Model.visitedColor].
  destruct (m !! site) as [[[[]|] [c|]]|]; vm_compute; by destruct g.
Qed.

(** ** Running asynchronous code *)

Lemma call_resolves {A} (o : op) (run : M A) (w : world) :
  next_fault w = None -> call o run w = run (issued o w).
Proof. intros H. unfold call. by rewrite H. Qed.

(** A [try] whose handler returns cannot throw. *)
Lemma try_catch_returns {A} (m : M A) (handler : JS.error -> M A) :
  (forall e w, exists a w', handler e w = (Ok a, w')) ->
  forall w, exists a w', try_catch m handler w = (Ok a, w').
Proof.
  intros Hh w. unfold try_catch.
  destruct (m w) as [[a|e] w']; eauto.
Qed.

Lemma truthy_get (v : value) (k : string) :
  truthy v = true -> get v k = Ok (own v k).
Proof. by destruct v. Qed.

Lemma truthy_or_object (v : value) (m : gmap string value) :
  truthy (or v (VObj m)) = true.
Proof. unfold or. by destruct (truthy v) eqn:E. Qed.

(** ** The resolver *)

(** [resolve] in closed form.  The service worker's [this.settings] is
    always truthy: every assignment to it is an object literal or guarded by
    [||]. *)
Lemma resolve_truthy (settings : value) (site : string) :
  truthy settings = true ->
  Service.resolve settings site
  = Ok (Service.Effective
          (if is_not_undefined (own (entry_of settings site) "visitedColor")
           then own (entry_of settings site) "visitedColor"
           else own settings "visitedColor")
          (and (own settings "enabled")
               (VBool (is_not_false (own (entry_of settings site) "enabled"))))).
Proof.
  intros Ht. unfold Service.resolve.
  rewrite !(truthy_get settings) by done.
  fold (entry_of settings site).
  rewrite !(truthy_get (entry_of settings site)) by apply truthy_or_object.
  by destruct (is_not_undefined _).
Qed.

Lemma resolve_object (o : gmap string value) (site : string) :
  Service.resolve (VObj o) site
  = Ok (Service.Effective
          (if is_not_undefined (own (entry_of (VObj o) site) "visitedColor")
           then own (entry_of (VObj o) site) "visitedColor"
           else own (VObj o) "visitedColor")
          (and (own (VObj o) "enabled")
               (VBool (is_not_false (own (entry_of (VObj o) site) "enabled"))))).
Proof. by apply resolve_truthy. Qed.

Lemma global_settings_truthy (settings : value) (w : world) :
  truthy settings = true ->
  (color <- lift (get settings "visitedColor") ;;
   flag <- lift (get settings "enabled") ;;
   ret (Service.Effective color flag))%js w
  = (Ok (global_settings settings), w).
Proof.
  intros Ht. unfold bind, lift, ret. by rewrite !truthy_get by done.
Qed.

Lemma getEffectiveSettings_truthy (w : world) (tabId : value) :
  truthy (service_settings w) = true ->
  Service.getEffectiveSettings tabId w
  = (Ok (effective_for w tabId), issued (TabsGet tabId) w).
Proof.
  intros Hs.
  assert (forall w', service_settings w' = service_settings w ->
            (settings <- Service.this_settings ;;
             color <- lift (get settings "visitedColor") ;;
             flag <- lift (get settings "enabled") ;;
             ret (Service.Effective color flag))%js w'
            = (Ok (global_settings (service_settings w)), w')) as Hcatch.
  { intros w' Hw'. unfold bind at 1. unfold Service.this_settings, read.
    rewrite Hw'. by apply global_settings_truthy. }
  unfold Service.getEffectiveSettings, effective_for, try_catch.
  unfold bind at 1. unfold tabs_get, call.
  destruct (next_fault w) as [e|]; [by apply Hcatch|].
  destruct tabId as [| | |id| |]; try (by apply Hcatch).
  unfold bind at 1. unfold read.
  change (tabs (issued (TabsGet (VNum id)) w)) with (tabs w).
  destruct (find_tab id (tabs w)) as [t|]; [|by apply Hcatch].
  unfold ret at 1. unfold bind at 1. unfold lift at 1. unfold new_URL.
  destruct (URL.parse (to_string (url_value t))) as [u|]; [|by apply Hcatch].
  unfold bind, Service.this_settings, read, lift.
  change (service_settings (issued (TabsGet (VNum id)) w)) with (service_settings w).
  rewrite (resolve_truthy _ _ Hs). reflexivity.
Qed.

Lemma getEffectiveSettings_object (w : world) (tabId : value) (o : gmap string value) :
  service_settings w = VObj o ->
  Service.getEffectiveSettings tabId w
  = (Ok (effective_for w tabId), issued (TabsGet tabId) w).
Proof. intros Hs. apply getEffectiveSettings_truthy. by rewrite Hs. Qed.

(** ** What a computation leaves alone *)

Section Keeps.
Context {X : Type} (f : world -> X).

Lemma keeps_ret {A} (a : A) : keeps f (ret a).
Proof. by intros w. Qed.

Lemma keeps_throw {A} (e : JS.error) : keeps f (@throw A e).
Proof. by intros w. Qed.

Lemma keeps_lift {A} (r : result A) : keeps f (lift r).
Proof. by intros w. Qed.

Lemma keeps_read {A} (g : world -> A) : keeps f (read g).
Proof. by intros w. Qed.

Lemma keeps_modify (g : world -> world) :
  (forall w, f (g w) = f w) -> keeps f (modify g).
Proof. intros H w. apply H. Qed.

Lemma keeps_bind {A B} (m : M A) (k : A -> M B) :
  keeps f m -> (forall a, keeps f (k a)) -> keeps f (bind m k).
Proof.
  intros Hm Hk w. unfold bind. specialize (Hm w).
  destruct (m w) as [[a|e] w']; cbn [snd] in *; [|done].
  by rewrite (Hk a w').
Qed.

Lemma keeps_try_catch {A} (m : M A) (handler : JS.error -> M A) :
  keeps f m -> (forall e, keeps f (handler e)) -> keeps f (try_catch m handler).
Proof.
  intros Hm Hh w. unfold try_catch. specialize (Hm w).
  destruct (m w) as [[a|e] w']; cbn [snd] in *; [done|].
  by rewrite (Hh e w').
Qed.

Lemma keeps_call {A} (o : op) (run : M A) :
  unlogged f -> keeps f run -> keeps f (call o run).
Proof.
  intros Hu Hrun w. unfold call.
  destruct (next_fault w); cbn [snd]; [apply Hu|].
  by rewrite (Hrun (issued o w)).
Qed.

Lemma keeps_for_each {A} (xs : list A) (body : A -> M unit) :
  (forall x, keeps f (body x)) -> keeps f (Service.for_each xs body).
Proof.
  intros Hbody. induction xs as [|x xs IH]; cbn [Service.for_each].
  - apply keeps_ret.
  - apply keeps_bind; [apply Hbody|by intros _].
Qed.

End Keeps.

(** Splits a computation into its steps, down to the changes it makes to
    the world, and closes the steps that plainly leave the component
    alone. *)
Ltac keeps_steps :=
  repeat first
    [ apply keeps_ret | apply keeps_throw | apply keeps_lift | apply keeps_read
    | apply keeps_bind | apply keeps_try_catch | apply keeps_for_each
    | apply keeps_call; [by intros ? ?|]
    | apply keeps_modify; by (intros ?; try destruct (serialize _))
    | progress intros
    | match goal with
      | |- keeps _ (if ?b then _ else _) => destruct b
      | |- keeps _ (match ?x with _ => _ end) => destruct x
      end ].

Lemma site_of_tab_Some (w : world) (tabId : Z) (site : string) :
  site_of_tab w tabId = Some site ->
  exists t u, find_tab tabId (tabs w) = Some t
              /\ URL.parse (to_string (url_value t)) = Some u
              /\ URL.hostname u = site.
Proof.
  unfold site_of_tab. intros H.
  destruct (find_tab tabId (tabs w)) as [t|]; [|done]. simpl in H.
  destruct (URL.parse (to_string (url_value t))) as [u|] eqn:Hu; [|done].
  simpl in H. injection H as <-. by exists t, u.
Qed.

(** For an existing tab with a parsable address, [getEffectiveSettings] is
    the resolution for the tab's host name. *)
Lemma getEffectiveSettings_resolves (w : world) (tabId : Z) (site : string)
      (o : gmap string value) :
  service_settings w = VObj o ->
  next_fault w = None ->
  site_of_tab w tabId = Some site ->
  exists e, Service.resolve (VObj o) site = Ok e
            /\ Service.getEffectiveSettings (VNum tabId) w
               = (Ok e, issued (TabsGet (VNum tabId)) w).
Proof.
  intros Hs Hf (t & u & Ht & Hu & <-)%site_of_tab_Some.
  rewrite (getEffectiveSettings_object w _ o Hs).
  unfold effective_for. rewrite Hf, Ht, Hu, Hs, resolve_object. eauto.
Qed.

(** C1. For every settings record and site identifier the resolver returns
    [enabled] equal to the conjunction of the global flag and the site's
    flag (true when absent) and [visitedColor] equal to the site's colour
    when present, else the global one; so does [getEffectiveSettings] for a
    tab showing that site; and a site entry whose flag is [false] yields
    [enabled] false whatever the global flag. *)
Theorem effective_settings_resolution (s : Model.Settings) (site : string) :
  Service.resolve (Model.settings_object s) site
  = Ok (Service.Effective (VStr (Model.effective_visitedColor s site))
                          (VBool (Model.effective_enabled s site)))
  /\ (forall w tabId,
        service_settings w = Model.settings_object s ->
        next_fault w = None ->
        site_of_tab w tabId = Some site ->
        Service.getEffectiveSettings (VNum tabId) w
        = (Ok (Service.Effective (VStr (Model.effective_visitedColor s site))
                                 (VBool (Model.effective_enabled s site))),
           issued (TabsGet (VNum tabId)) w))
  /\ (forall e,
        Model.siteSettings s !! site = Some e ->
        Model.site_enabled e = Some false ->
        Service.enabled <$> (match Service.resolve (Model.settings_object s) site with
                             | Ok r => Some r
                             | Throw _ => None
                             end)
        = Some (VBool false)).
Proof.
  pose proof (resolve_settings_object s site) as Hr.
  split; [exact Hr|]. split.
  - intros w tabId Hs Hf Hsite.
    destruct (getEffectiveSettings_resolves w tabId site _ Hs Hf Hsite) as (e & He & ->).
    unfold Model.settings_object in Hr. rewrite Hr in He. by injection He as <-.
  - intros e He Hflag. rewrite Hr. simpl. f_equal. f_equal.
    unfold Model.effective_enabled. rewrite He. simpl. rewrite Hflag. simpl.
    apply andb_false_r.
Qed.

Lemma effective_settings_resolution_witness :
  Service.getEffectiveSettings (VNum 7) Sample.example_world
  = (Ok (Service.Effective (VStr "#abcdef") (VBool false)),
     issued (TabsGet (VNum 7)) Sample.example_world)
  /\ Service.enabled <$> (match Service.resolve (Model.settings_object Sample.example_settings)
                                               "example.com" with
                          | Ok r => Some r
                          | Throw _ => None
                          end)
     = Some (VBool false).
Proof.
  destruct (effective_settings_resolution Sample.example_settings "example.com")
    as (_ & Htab & Hoff).
  split.
  - apply (Htab Sample.example_world 7%Z); reflexivity.
  - apply (Hoff Sample.example_entry); reflexivity.
Defined.

(** ** Missing pieces of the record *)

Lemma entry_of_missing_map (o : gmap string value) (site : string) :
  o !! "siteSettings" = None -> entry_of (VObj o) site = VObj ∅.
Proof. intros H. unfold entry_of, own. by rewrite H. Qed.

Lemma entry_of_missing_site (o m : gmap string value) (site : string) :
  o !! "siteSettings" = Some (VObj m) -> m !! site = None ->
  entry_of (VObj o) site = VObj ∅.
Proof. intros Ho Hm. unfold entry_of, own. rewrite Ho. simpl. by rewrite Hm. Qed.

Lemma entry_of_present (o m e : gmap string value) (site : string) :
  o !! "siteSettings" = Some (VObj m) -> m !! site = Some (VObj e) ->
  entry_of (VObj o) site = VObj e.
Proof. intros Ho Hm. unfold entry_of, own. rewrite Ho. simpl. by rewrite Hm. Qed.

Lemma resolve_empty_entry (o : gmap string value) (site : string) :
  entry_of (VObj o) site = VObj ∅ ->
  Service.resolve (VObj o) site = Ok (inherit_global (VObj o)).
Proof. intros H. rewrite resolve_object, H. reflexivity. Qed.

(** [getEffectiveSettings] returns whatever the host does. *)
Lemma getEffectiveSettings_returns (w : world) (tabId : value) (o : gmap string value) :
  service_settings w = VObj o ->
  exists e w', Service.getEffectiveSettings tabId w = (Ok e, w').
Proof. intros Hs. rewrite (getEffectiveSettings_object w tabId o Hs). eauto. Qed.

(** C5. The resolver never throws: for every settings object it returns a
    pair, and so does [getEffectiveSettings] in every state of the host; a
    missing [siteSettings] mapping and a missing entry for the site give the
    global values, and an entry without [enabled] or without [visitedColor]
    gives the global value of that field. *)
Theorem resolver_never_throws (o : gmap string value) (site : string) :
  (exists e, Service.resolve (VObj o) site = Ok e)
  /\ (forall w tabId,
        service_settings w = VObj o ->
        exists e w', Service.getEffectiveSettings tabId w = (Ok e, w'))
  /\ (o !! "siteSettings" = None ->
      Service.resolve (VObj o) site = Ok (inherit_global (VObj o)))
  /\ (forall m,
        o !! "siteSettings" = Some (VObj m) -> m !! site = None ->
        Service.resolve (VObj o) site = Ok (inherit_global (VObj o)))
  /\ (forall m e r,
        o !! "siteSettings" = Some (VObj m) -> m !! site = Some (VObj e) ->
        Service.resolve (VObj o) site = Ok r ->
        (e !! "enabled" = None ->
         Service.enabled r = Service.enabled (inherit_global (VObj o)))
        /\ (e !! "visitedColor" = None ->
            Service.visitedColor r = Service.visitedColor (inherit_global (VObj o)))).
Proof.
  split; [rewrite resolve_object; eauto|].
  split; [intros w tabId Hs; by eapply getEffectiveSettings_returns|].
  split; [intros H; by apply resolve_empty_entry, entry_of_missing_map|].
  split; [intros m Ho Hm; by eapply resolve_empty_entry, entry_of_missing_site|].
  intros m e r Ho Hm Hr.
  rewrite resolve_object, (entry_of_present o m e site Ho Hm) in Hr.
  injection Hr as <-. split; intros He; simpl; by rewrite He.
Qed.

Lemma resolver_never_throws_witness :
  Service.resolve (VObj {["enabled" := VBool true; "visitedColor" := VStr "#123456"]})
                  "example.com"
  = Ok (Service.Effective (VStr "#123456") (VBool true))
  /\ (exists e w',
        Service.getEffectiveSettings (VNum 7)
          (Sample.world_with (VObj {["enabled" := VBool true;
                                     "visitedColor" := VStr "#123456"]}))
        = (Ok e, w')).
Proof.
  destruct (resolver_never_throws
              {["enabled" := VBool true; "visitedColor" := VStr "#123456"]}
              "example.com") as (_ & Hget & Hmissing & _).
  split.
  - apply Hmissing. reflexivity.
  - apply Hget. reflexivity.
Defined.

(** ** Entries of other sites *)

(** C10. Two settings objects that agree on the global flag, the global
    colour and the entry of the queried site resolve alike for that site,
    and [getEffectiveSettings] returns the same pair in two worlds that hold
    them and agree on the tabs and on the outcome of the host call. *)
Theorem other_sites_do_not_matter (o1 o2 : gmap string value) (site : string) :
  own (VObj o1) "enabled" = own (VObj o2) "enabled" ->
  own (VObj o1) "visitedColor" = own (VObj o2) "visitedColor" ->
  get_opt (own (VObj o1) "siteSettings") site
  = get_opt (own (VObj o2) "siteSettings") site ->
  Service.resolve (VObj o1) site = Service.resolve (VObj o2) site
  /\ (forall w1 w2 tabId,
        service_settings w1 = VObj o1 ->
        service_settings w2 = VObj o2 ->
        tabs w1 = tabs w2 ->
        next_fault w1 = next_fault w2 ->
        (forall id, tabId = VNum id -> site_of_tab w1 id = None
                                       \/ site_of_tab w1 id = Some site) ->
        fst (Service.getEffectiveSettings tabId w1)
        = fst (Service.getEffectiveSettings tabId w2)).
Proof.
  intros He Hc Hsite.
  assert (Service.resolve (VObj o1) site = Service.resolve (VObj o2) site) as Hres.
  { rewrite !resolve_object. unfold entry_of. by rewrite He, Hc, Hsite. }
  split; [exact Hres|].
  intros w1 w2 tabId Hs1 Hs2 Ht Hf Hquery.
  rewrite (getEffectiveSettings_object w1 tabId o1 Hs1),
          (getEffectiveSettings_object w2 tabId o2 Hs2).
  cbn [fst]. f_equal. unfold effective_for.
  rewrite <- Ht, <- Hf, Hs1, Hs2.
  assert (global_settings (VObj o1) = global_settings (VObj o2)) as Hg
    by (unfold global_settings; by rewrite He, Hc).
  destruct (next_fault w1); [done|].
  destruct tabId as [| | |id| |]; try done.
  specialize (Hquery id eq_refl). unfold site_of_tab in Hquery.
  destruct (find_tab id (tabs w1)) as [t|]; [|done]. simpl in Hquery.
  destruct (URL.parse (to_string (url_value t))) as [u|]; [|done].
  simpl in Hquery. destruct Hquery as [|[= ->]]; [done|].
  by rewrite Hres, Hg.
Qed.

Lemma other_sites_do_not_matter_witness :
  Service.resolve
    (VObj {["enabled" := VBool true; "visitedColor" := VStr "#123456";
            "siteSettings" := VObj {["example.com" := VObj {["enabled" := VBool false]}]}]})
    "example.com"
  = Service.resolve
      (VObj {["enabled" := VBool true; "visitedColor" := VStr "#123456";
              "siteSettings" := VObj {["example.com" := VObj {["enabled" := VBool false]};
                                       "news.example.org" := VObj {["visitedColor" := VStr "#00ff00"]}]}]})
      "example.com".
Proof.
  apply (other_sites_do_not_matter
           {["enabled" := VBool true; "visitedColor" := VStr "#123456";
             "siteSettings" := VObj {["example.com" := VObj {["enabled" := VBool false]}]}]}
           {["enabled" := VBool true; "visitedColor" := VStr "#123456";
             "siteSettings" := VObj {["example.com" := VObj {["enabled" := VBool false]};
                                      "news.example.org" := VObj {["visitedColor" := VStr "#00ff00"]}]}]}
           "example.com"); reflexivity.
Defined.

(** ** Injection *)

Lemma scripting_insertCSS_closed (w : world) (tabId : value) (css : string) :
  snd (scripting_insertCSS tabId css w) = inserted w tabId css.
Proof.
  unfold scripting_insertCSS, inserted, call.
  destruct (next_fault w); [done|].
  destruct tabId as [| | |id| |]; try done.
  unfold bind, read.
  change (tabs (issued (InsertCSS (VNum id) css) w)) with (tabs w).
  by destruct (find_tab id (tabs w)).
Qed.

Lemma removeCSS_closed (w : world) (tabId : value) :
  Service.removeCSS tabId w = (Ok tt, inserted w tabId Service.resetCSS).
Proof.
  unfold Service.removeCSS, try_catch.
  rewrite <- scripting_insertCSS_closed.
  destruct (scripting_insertCSS tabId Service.resetCSS w) as [[[]|e] w']; reflexivity.
Qed.

(** A computation that changes nothing is one that keeps the world. *)
Lemma snd_bind_pure {A B} (m : M A) (k : A -> M B) (g : world -> world) (w : world) :
  snd (m w) = g w -> (forall a, keeps (fun w0 => w0) (k a)) -> snd (bind m k w) = g w.
Proof.
  intros Hm Hk. unfold bind.
  destruct (m w) as [[a|e] w']; cbn [snd] in *; [|done].
  by rewrite (Hk a w').
Qed.

Lemma snd_tabs_get (tabId : value) (w : world) :
  snd (tabs_get tabId w) = issued (TabsGet tabId) w.
Proof.
  unfold tabs_get, call. destruct (next_fault w); [done|].
  destruct tabId as [| | |id| |]; try done.
  unfold bind, read.
  by destruct (find_tab id (tabs (issued (TabsGet (VNum id)) w))).
Qed.

(** [getEffectiveSettings] makes one host call, the look-up of the tab,
    whatever it returns. *)
Lemma getEffectiveSettings_world (tabId : value) (w : world) :
  snd (Service.getEffectiveSettings tabId w) = issued (TabsGet tabId) w.
Proof.
  unfold Service.getEffectiveSettings, try_catch.
  pose proof (snd_bind_pure (tabs_get tabId)
                (fun tab =>
                   (url <- lift (new_URL (to_string (url_value tab))) ;;
                    settings <- Service.this_settings ;;
                    lift (Service.resolve settings (URL.hostname url)))%js)
                (issued (TabsGet tabId)) w (snd_tabs_get tabId w)) as Hbody.
  destruct (bind (tabs_get tabId) _ w) as [[e|err] w1].
  - apply Hbody. intros tab. unfold Service.this_settings. keeps_steps.
  - cbn [snd] in Hbody. rewrite <- Hbody.
    + assert (keeps (fun w0 => w0)
                (settings <- Service.this_settings ;;
                 color <- lift (get settings "visitedColor") ;;
                 flag <- lift (get settings "enabled") ;;
                 ret (Service.Effective color flag))%js) as Hcatch
        by (unfold Service.this_settings; keeps_steps).
      apply Hcatch.
    + intros tab. unfold Service.this_settings. keeps_steps.
Qed.

(** [injectCSS] never throws and leaves the world [injected] describes. *)
Lemma injectCSS_closed (w : world) (tabId : value) :
  Service.injectCSS tabId w = (Ok tt, injected w tabId).
Proof.
  unfold Service.injectCSS, injected, try_catch.
  unfold bind at 1. unfold tabs_get, call.
  destruct (next_fault w) as [e|]; [done|].
  destruct tabId as [| | |id| |]; try done.
  unfold bind at 1. unfold read.
  change (tabs (issued (TabsGet (VNum id)) w)) with (tabs w).
  destruct (find_tab id (tabs w)) as [t|]; [|done].
  unfold ret at 1. unfold Service.eligible.
  destruct (truthy (url_value t)); [|done].
  destruct (Service.shouldInjectOnSite (to_string (url_value t))); [|done].
  cbn [negb andb]. unfold bind.
  pose proof (getEffectiveSettings_world (VNum id) (issued (TabsGet (VNum id)) w)) as Hw.
  destruct (Service.getEffectiveSettings _ _) as [[e|err] w2]; cbn [fst snd] in *;
    subst w2; [|done].
  unfold sheet_for.
  destruct (truthy (Service.enabled e)); cbn [negb].
  - rewrite <- scripting_insertCSS_closed.
    by destruct (scripting_insertCSS _ _ _) as [[[]|err] w'].
  - by rewrite removeCSS_closed.
Qed.

(** With the service worker's settings in place, the pair is the one
    [effective_for] describes. *)
Lemma injected_truthy (w : world) (id : Z) (t : tab) :
  truthy (service_settings w) = true ->
  next_fault w = None ->
  find_tab id (tabs w) = Some t ->
  Service.eligible t = true ->
  injected w (VNum id)
  = inserted (issued (TabsGet (VNum id)) (issued (TabsGet (VNum id)) w)) (VNum id)
      (sheet_for (effective_for (issued (TabsGet (VNum id)) w) (VNum id))).
Proof.
  intros Hs Hf Ht He. unfold injected. rewrite Hf, Ht, He.
  by rewrite getEffectiveSettings_truthy.
Qed.

(** ** Eligibility *)



Lemma calls_since_issued (o : op) (w : world) : calls_since w (issued o w) = [o].
Proof. unfold calls_since, issued. simpl. by rewrite drop_app_length. Qed.




(** ** Style sheets accumulate *)

Lemma find_tab_add_sheet (id id' : Z) (css : string) (ts : list tab) :
  find_tab id' (List.map (add_sheet id css) ts) = add_sheet id css <$> find_tab id' ts.
Proof.
  unfold find_tab. induction ts as [|t ts IH]; [done|].
  cbn [List.map List.find].
  assert (tab_id (add_sheet id css t) = tab_id t) as ->
    by (unfold add_sheet; by destruct (tab_id t =? id)%Z).
  by destruct (tab_id t =? id')%Z.
Qed.

Lemma find_tab_id (id : Z) (ts : list tab) (t : tab) :
  find_tab id ts = Some t -> tab_id t = id.
Proof.
  unfold find_tab. intros [_ H]%find_some. by apply Z.eqb_eq.
Qed.

Lemma adds_nothing (o : op) (w : world) (tabId : value) :
  adds w (issued o w) tabId [].
Proof.
  intros id. change (sheets_of (issued o w) id) with (sheets_of w id).
  destruct tabId as [| | |i| |]; try by rewrite app_nil_r.
  destruct (i =? id)%Z; by rewrite app_nil_r.
Qed.

Lemma adds_issued (o : op) (w w' : world) (tabId : value) (added : list string) :
  adds (issued o w) w' tabId added -> adds w w' tabId added.
Proof. intros H id. by rewrite (H id). Qed.

(** One [insertCSS] call adds its sheet, or nothing when it is rejected. *)
Lemma inserted_adds (w : world) (tabId : value) (css : string) :
  exists added, (added = [] \/ added = [css])
                /\ adds w (inserted w tabId css) tabId added.
Proof.
  unfold inserted.
  destruct (next_fault w); [exists []; split; [by left|apply adds_nothing]|].
  destruct tabId as [| | |i| |];
    try (exists []; split; [by left|apply adds_nothing]).
  destruct (find_tab i (tabs w)) as [t|] eqn:Ht;
    [|exists []; split; [by left|apply adds_nothing]].
  exists [css]. split; [by right|].
  intros id. unfold sheets_of.
  cbn [tabs with_tabs issued with_faults with_log].
  rewrite find_tab_add_sheet.
  destruct (find_tab id (tabs w)) as [t'|] eqn:Ht'; simpl.
  - unfold add_sheet. rewrite (find_tab_id _ _ _ Ht'), Z.eqb_sym.
    destruct (i =? id)%Z; [done|by rewrite app_nil_r].
  - destruct (i =? id)%Z eqn:E; [|done].
    apply Z.eqb_eq in E. congruence.
Qed.

(** Every call of [injectCSS] adds at most one sheet to the tab and takes
    none away. *)
Lemma injectCSS_adds (w : world) (tabId : value) :
  exists added,
    (added = [] \/ added = [Service.resetCSS]
     \/ exists color, added = [Service.generateCSS color])
    /\ adds w (snd (Service.injectCSS tabId w)) tabId added.
Proof.
  rewrite (injectCSS_closed w tabId). cbn [snd]. unfold injected.
  destruct (next_fault w); [exists []; split; [by left|apply adds_nothing]|].
  destruct tabId as [| | |i| |];
    try (exists []; split; [by left|apply adds_nothing]).
  destruct (find_tab i (tabs w)) as [t|];
    [|exists []; split; [by left|apply adds_nothing]].
  destruct (Service.eligible t);
    [|exists []; split; [by left|apply adds_nothing]].
  destruct (fst (Service.getEffectiveSettings _ _)) as [e|err].
  - match goal with |- context [inserted ?w1 ?i ?css] =>
      destruct (inserted_adds w1 i css) as (added & Hadded & Hadds)
    end.
    exists added. split.
    + destruct Hadded as [->| ->]; [by left|]. right. unfold sheet_for.
      destruct (truthy (Service.enabled _)); [right; by eexists|by left].
    + by do 2 apply (adds_issued (TabsGet (VNum i))).
  - exists []. split; [by left|].
    apply (adds_issued (TabsGet (VNum i))). apply adds_nothing.
Qed.

Lemma log_inserted (w : world) (tabId : value) (css : string) :
  log (inserted w tabId css) = (log w ++ [InsertCSS tabId css])%list.
Proof.
  unfold inserted. destruct (next_fault w); [done|].
  destruct tabId as [| | |i| |]; try done.
  by destruct (find_tab i (tabs w)).
Qed.

(** The host calls of one [injectCSS]: the look-up alone, or the look-up
    and the one of [getEffectiveSettings], followed by a single [insertCSS]
    unless the settings could not be read. *)
Lemma injectCSS_calls (w : world) (tabId : value) :
  calls_since w (snd (Service.injectCSS tabId w)) = [TabsGet tabId]
  \/ calls_since w (snd (Service.injectCSS tabId w)) = [TabsGet tabId; TabsGet tabId]
  \/ exists css,
       calls_since w (snd (Service.injectCSS tabId w))
       = [TabsGet tabId; TabsGet tabId; InsertCSS tabId css].
Proof.
  rewrite (injectCSS_closed w tabId). cbn [snd]. unfold injected.
  destruct (next_fault w); [left; apply calls_since_issued|].
  destruct tabId as [| | |i| |]; try (left; apply calls_since_issued).
  destruct (find_tab i (tabs w)) as [t|]; [|left; apply calls_since_issued].
  destruct (Service.eligible t); [|left; apply calls_since_issued].
  right. destruct (fst (Service.getEffectiveSettings _ _)) as [e|err].
  - right. eexists. unfold calls_since. rewrite log_inserted. simpl.
    rewrite <- !app_assoc. by rewrite drop_app_length.
  - left. unfold calls_since. simpl.
    rewrite <- !app_assoc. by rewrite drop_app_length.
Qed.

(** ** The custom property of the two style sheets *)

Lemma find_after_generateCSS_before (rest : string) :
  find_after "--visited-link-color: " (String.concat Service.nl Service.generateCSS_before ++ rest)
  = Some rest.
Proof. vm_compute. reflexivity. Qed.

Lemma take_until_app (p : ascii -> bool) (s : string) (c : ascii) (t : string) :
  p c = true ->
  URL.take_until p (s ++ String c t) = URL.take_until p s.
Proof.
  intros Hc. induction s as [|a s IH]; simpl.
  - by rewrite Hc.
  - destruct (p a); [done|]. by rewrite IH.
Qed.

Lemma take_until_none (p : ascii -> bool) (s : string) :
  none_of p s = true -> URL.take_until p s = s.
Proof.
  induction s as [|a s IH]; simpl; [done|].
  destruct (p a); simpl; [done|]. intros H. by rewrite IH.
Qed.

(** [generateCSS] declares the colour it is given, or [unset] for a falsy
    one, up to the first semicolon of its text. *)
Lemma declared_color_generateCSS (color : value) :
  declared_color (Service.generateCSS color)
  = Some (URL.take_until (Ascii.eqb ";") (to_string (or color (VStr "unset")))).
Proof.
  unfold declared_color, Service.generateCSS.
  rewrite find_after_generateCSS_before. cbn [fmap option_fmap option_map]. f_equal.
  assert (exists t, String.concat Service.nl Service.generateCSS_after = String ";" t)
    as [t ->] by (eexists; vm_compute; reflexivity).
  by apply take_until_app.
Qed.

Lemma declared_color_resetCSS : declared_color Service.resetCSS = Some "unset".
Proof. vm_compute. reflexivity. Qed.

Lemma effective_for_issued (o : op) (w : world) (tabId : value) :
  faults w = [] -> effective_for (issued o w) tabId = effective_for w tabId.
Proof.
  intros Hf. unfold effective_for, next_fault, issued.
  cbn [faults tabs service_settings with_faults with_log]. by rewrite Hf.
Qed.

(** With no scripted failure an eligible tab gets the sheet of its
    effective settings. *)
Lemma injectCSS_adds_sheet (w : world) (id : Z) (t : tab) :
  truthy (service_settings w) = true ->
  faults w = [] ->
  find_tab id (tabs w) = Some t ->
  Service.eligible t = true ->
  adds w (snd (Service.injectCSS (VNum id) w)) (VNum id)
       [sheet_for (effective_for w (VNum id))].
Proof.
  intros Hs Hf Ht He. rewrite (injectCSS_closed w _). cbn [snd].
  rewrite (injected_truthy w id t Hs) by (done || (unfold next_fault; by rewrite Hf)).
  rewrite effective_for_issued by done.
  do 2 apply (adds_issued (TabsGet (VNum id))).
  unfold inserted, next_fault. cbn [faults issued with_faults with_log tail tabs].
  rewrite Hf, Ht. cbn [head mjoin option_join tail].
  intros id'. unfold sheets_of. cbn [tabs with_tabs].
  rewrite find_tab_add_sheet.
  destruct (find_tab id' (tabs w)) as [t'|] eqn:Ht'; simpl.
  - unfold add_sheet. rewrite (find_tab_id _ _ _ Ht'), Z.eqb_sym, ?Ht'.
    destruct (id =? id')%Z; [done|by rewrite app_nil_r].
  - rewrite ?Ht'. destruct (id =? id')%Z eqn:E; [|done].
    apply Z.eqb_eq in E. congruence.
Qed.

(** C2, as the code has it.  A call of [injectCSS] never takes a style
    sheet away: it adds to the tab it addresses at most one sheet, the reset
    sheet or a generated one, through at most one [insertCSS] call, and
    leaves the other tabs alone; with no failure an eligible tab gets the
    sheet of its effective settings after the ones it had.  The generated
    sheet declares the colour (or [unset]) for [--visited-link-color] and
    the reset sheet declares [unset]. *)
Theorem injection_adds_one_sheet (w : world) (tabId : value) :
  (exists added,
      (added = [] \/ added = [Service.resetCSS]
       \/ exists color, added = [Service.generateCSS color])
      /\ adds w (snd (Service.injectCSS tabId w)) tabId added)
  /\ length (List.filter is_insertCSS (calls_since w (snd (Service.injectCSS tabId w))))
     <= 1
  /\ (forall id t,
        tabId = VNum id ->
        truthy (service_settings w) = true ->
        faults w = [] ->
        find_tab id (tabs w) = Some t ->
        Service.eligible t = true ->
        adds w (snd (Service.injectCSS tabId w)) tabId
             [sheet_for (effective_for w tabId)])
  /\ (forall color,
        declared_color (Service.generateCSS color)
        = Some (URL.take_until (Ascii.eqb ";") (to_string (or color (VStr "unset")))))
  /\ declared_color Service.resetCSS = Some "unset".
Proof.
  split; [by apply injectCSS_adds|].
  split.
  { destruct (injectCSS_calls w tabId) as [->|[->|[css ->]]]; cbn; lia. }
  split; [intros id t -> Hs Hf Ht He; by eapply injectCSS_adds_sheet|].
  split; [apply declared_color_generateCSS|apply declared_color_resetCSS].
Qed.

Lemma injection_adds_one_sheet_witness :
  adds Sample.example_world
       (snd (Service.injectCSS (VNum 8) Sample.example_world)) (VNum 8)
       [sheet_for (effective_for Sample.example_world (VNum 8))]
  /\ declared_color (Service.generateCSS (VStr "#123456")) = Some "#123456".
Proof.
  destruct (injection_adds_one_sheet Sample.example_world (VNum 8))
    as (_ & _ & Hadds & Hcolor & _).
  split.
  - apply (Hadds 8%Z Sample.news_tab); reflexivity.
  - rewrite Hcolor. reflexivity.
Defined.

(** C2 as the spec has it fails: a second injection leaves two sheets on
    the tab, and an injection with the switch off leaves the generated sheet
    in place under the reset sheet. *)
Lemma repeated_injection_accumulates :
  let generated := Service.generateCSS (VStr "#123456") in
  let w1 := snd (Service.injectCSS (VNum 8) Sample.example_world) in
  let w2 := snd (Service.injectCSS (VNum 8) w1) in
  let off := with_service_settings (Model.settings_object Sample.switched_off) w1 in
  let w3 := snd (Service.injectCSS (VNum 8) off) in
  sheets_of Sample.example_world 8 = []
  /\ sheets_of w1 8 = [generated]
  /\ sheets_of w2 8 = [generated; generated]
  /\ sheets_of w3 8 = [generated; Service.resetCSS].
Proof. repeat split; vm_compute; reflexivity. Qed.

(** ** Writing the settings *)

(** Closes a goal about the result and the calls of a computation that has
    been run on a world given field by field. *)
Ltac result_and_calls :=
  split; [done|];
  unfold calls_since; try destruct (serialize _); cbn;
  rewrite <- ?app_assoc; by rewrite drop_app_length.

(** The service worker's [setSettings] when the first write is rejected. *)
Lemma Service_setSettings_rejected (w : world) (settings : value) (e : JS.error)
      (rest : list (option JS.error)) :
  faults w = Some e :: rest ->
  fst (Service.setSettings settings w)
  = Ok (if includes "quota" (message e) then fst (retry_outcome settings rest) else false)
  /\ calls_since w (snd (Service.setSettings settings w))
     = StorageSet settings
       :: (if includes "quota" (message e) then snd (retry_outcome settings rest) else []).
Proof.
  destruct w as [st tb fs lg ss pg]. cbn [faults]. intros ->.
  unfold Service.setSettings, try_catch, bind, storage_set, storage_clear, call,
    next_fault, issued, modify, ret.
  cbn [faults log with_faults with_log head tail mjoin option_join].
  destruct (includes "quota" (message e)); [|result_and_calls].
  destruct rest as [|[e1|] rest]; [result_and_calls..|].
  destruct rest as [|[e2|] rest]; result_and_calls.
Qed.

(** [StorageManager.setSettings] makes one call whatever its outcome. *)
Lemma StorageManager_setSettings_closed (w : world) (settings : value) :
  StorageManager.setSettings settings w
  = match next_fault w with
    | Some _ => (Ok false, issued (StorageSet settings) w)
    | None => (Ok true, persisted settings (issued (StorageSet settings) w))
    end.
Proof.
  unfold StorageManager.setSettings, try_catch, bind, storage_set, call, modify, ret.
  by destruct (next_fault w).
Qed.


Lemma retry_outcome_one_clear (settings : value) (rest : list (option JS.error)) :
  List.filter is_clear (snd (retry_outcome settings rest)) = [StorageClear]
  /\ length (snd (retry_outcome settings rest)) <= 2.
Proof.
  unfold retry_outcome.
  destruct rest as [|[e1|] [|[e2|] rest]]; split; cbn; done || lia.
Qed.

(** C3, as the code has it.  When the first write is rejected, the service
    worker's [setSettings] clears the store and writes again, once, if the
    message of the error contains [quota], and returns [true] when that
    second write goes through, [false] otherwise; on any other error it
    returns [false] after the one write.  [StorageManager.setSettings]
    returns [false] after the one write whatever the error is.  Neither
    throws. *)
Theorem settings_write_failures (w : world) (settings : value) (e : JS.error)
        (rest : list (option JS.error)) :
  faults w = Some e :: rest ->
  (includes "quota" (message e) = true ->
   fst (Service.setSettings settings w) = Ok (fst (retry_outcome settings rest))
   /\ calls_since w (snd (Service.setSettings settings w))
      = StorageSet settings :: snd (retry_outcome settings rest)
   /\ List.filter is_clear (calls_since w (snd (Service.setSettings settings w)))
      = [StorageClear])
  /\ (includes "quota" (message e) = false ->
      fst (Service.setSettings settings w) = Ok false
      /\ calls_since w (snd (Service.setSettings settings w)) = [StorageSet settings])
  /\ fst (StorageManager.setSettings settings w) = Ok false
  /\ calls_since w (snd (StorageManager.setSettings settings w)) = [StorageSet settings].
Proof.
  intros Hf.
  destruct (Service_setSettings_rejected w settings e rest Hf) as [Hr Hc].
  split; [|split].
  - intros Hq. rewrite Hq in Hr, Hc. rewrite Hr, Hc.
    split; [done|]. split; [done|].
    cbn [List.filter is_clear].
    apply retry_outcome_one_clear.
  - intros Hq. rewrite Hq in Hr, Hc. by rewrite Hr, Hc.
  - rewrite StorageManager_setSettings_closed.
    unfold next_fault. rewrite Hf. cbn [head mjoin option_join fst snd].
    split; [done|]. apply calls_since_issued.
Qed.

Lemma settings_write_failures_witness :
  fst (Service.setSettings Service.DEFAULT_SETTINGS Sample.over_quota) = Ok true
  /\ calls_since Sample.over_quota
       (snd (Service.setSettings Service.DEFAULT_SETTINGS Sample.over_quota))
     = [StorageSet Service.DEFAULT_SETTINGS; StorageClear;
        StorageSet Service.DEFAULT_SETTINGS]
  /\ fst (Service.setSettings Service.DEFAULT_SETTINGS Sample.offline) = Ok false.
Proof.
  destruct (settings_write_failures Sample.over_quota Service.DEFAULT_SETTINGS
              Sample.quota_error [] eq_refl) as (Hquota & _).
  destruct (settings_write_failures Sample.offline Service.DEFAULT_SETTINGS
              (Error "Extension context invalidated.") [] eq_refl) as (_ & Hother & _).
  destruct (Hquota eq_refl) as (Hr & Hc & _).
  destruct (Hother eq_refl) as (Ho & _).
  split; [exact Hr|]. split; [exact Hc|exact Ho].
Defined.

(** C3 as the spec has it fails for [StorageManager.setSettings]: a write
    rejected for lack of quota is followed by no clear and no second write. *)
Lemma storage_manager_does_not_retry :
  next_fault Sample.over_quota = Some Sample.quota_error
  /\ includes "quota" (message Sample.quota_error) = true
  /\ fst (StorageManager.setSettings Service.DEFAULT_SETTINGS Sample.over_quota) = Ok false
  /\ calls_since Sample.over_quota
       (snd (StorageManager.setSettings Service.DEFAULT_SETTINGS Sample.over_quota))
     = [StorageSet Service.DEFAULT_SETTINGS]
  /\ List.filter is_clear
       (calls_since Sample.over_quota
          (snd (StorageManager.setSettings Service.DEFAULT_SETTINGS Sample.over_quota)))
     = [].
Proof. repeat split; vm_compute; reflexivity. Qed.

(** ** The response to an update request *)

Lemma updateSettings_returns (newSettings : value) (w : world) :
  exists b w', Service.updateSettings newSettings w = (Ok b, w').
Proof.
  unfold Service.updateSettings. apply try_catch_returns.
  intros e w0. by exists false, w0.
Qed.

Lemma bind_lift {A B} (a : A) (k : A -> M B) (w : world) :
  bind (lift (Ok a)) k w = k a w.
Proof. reflexivity. Qed.

Lemma message_action (payload : value) :
  get (Service.updateSettings_message payload) "action" = Ok (VStr "updateSettings").
Proof. vm_compute. reflexivity. Qed.

Lemma message_settings (payload : value) :
  get (Service.updateSettings_message payload) "settings" = Ok payload.
Proof. vm_compute. reflexivity. Qed.

(** The response to an [updateSettings] request does not depend on the
    outcome of the write. *)
Lemma handleMessage_updateSettings (payload : value) (w : world) :
  fst (Service.handleMessage (Service.updateSettings_message payload) w)
  = Ok (Service.Response true VUndefined None).
Proof.
  unfold Service.handleMessage, try_catch.
  rewrite message_action, bind_lift.
  change (is_string (VStr "updateSettings") "getSettings") with false.
  change (is_string (VStr "updateSettings") "updateSettings") with true.
  cbv iota. rewrite message_settings, bind_lift.
  unfold bind.
  destruct (updateSettings_returns payload w) as (b & w' & ->).
  reflexivity.
Qed.


(** ** Reading the settings *)

Lemma storage_get_closed (w : world) :
  (result <- storage_get ;; lift (get result SETTINGS_KEY))%js w
  = match next_fault w with
    | Some e => (Throw e, issued StorageGet w)
    | None => (Ok (stored_settings w), issued StorageGet w)
    end.
Proof.
  unfold bind, storage_get, call, read, lift, stored_settings.
  destruct (next_fault w); [done|].
  change (storage (issued StorageGet w)) with (storage w).
  destruct (storage w !! SETTINGS_KEY) as [v|]; cbn [get own default from_option id].
  - by rewrite lookup_singleton_eq.
  - by rewrite lookup_empty.
Qed.

Lemma snd_try_catch_ret (m : M unit) (w : world) :
  snd (try_catch m (fun _ => ret tt) w) = snd (m w).
Proof. unfold try_catch. by destruct (m w) as [[a|e] w']. Qed.

Lemma bind_assoc {A B C} (m : M A) (k : A -> M B) (h : B -> M C) (w : world) :
  bind (bind m k) h w = bind m (fun a => bind (k a) h) w.
Proof. unfold bind. by destruct (m w) as [[a|e] w']. Qed.

Lemma StorageManager_getSettings_closed (w : world) :
  StorageManager.getSettings w
  = (Ok (match next_fault w with
         | Some _ => TheDefaults
         | None => StorageManager.or_DEFAULT_SETTINGS (stored_settings w)
         end),
     issued StorageGet w).
Proof.
  unfold StorageManager.getSettings, try_catch.
  rewrite <- bind_assoc. unfold bind at 1. rewrite storage_get_closed.
  by destruct (next_fault w).
Qed.

Lemma Service_getSettings_closed (w : world) :
  Service.getSettings w
  = (Ok (match next_fault w with
         | Some _ => spread Service.DEFAULT_SETTINGS
         | None => or (stored_settings w) (spread Service.DEFAULT_SETTINGS)
         end),
     issued StorageGet w).
Proof.
  unfold Service.getSettings, try_catch.
  rewrite <- bind_assoc. unfold bind at 1. rewrite storage_get_closed.
  by destruct (next_fault w).
Qed.

Lemma default_record_is_DEFAULT_SETTINGS :
  StorageManager.DEFAULT_SETTINGS = default_record
  /\ spread Service.DEFAULT_SETTINGS = default_record.
Proof. split; vm_compute; reflexivity. Qed.

(** The reference [loadSettings] leaves in [this.settings]. *)
Lemma loadSettings_closed (w : world) :
  Popup.loadSettings w
  = (Ok tt,
     with_page (Popup (DEFAULT_SETTINGS_object (page w))
                      (match next_fault w with
                       | Some _ => TheDefaults
                       | None => StorageManager.or_DEFAULT_SETTINGS (stored_settings w)
                       end)
                      (currentSite (page w))
                      (storageUpdateTimeout (page w)))
               (issued StorageGet w)).
Proof.
  unfold Popup.loadSettings, try_catch, bind.
  rewrite StorageManager_getSettings_closed. reflexivity.
Qed.






(** ** The regular expression matcher *)

Lemma matches_Seq_inv (r1 r2 : Regex.regex) (s : string) :
  Regex.matches (Regex.Seq r1 r2) s ->
  exists s1 s2, s = s1 ++ s2 /\ Regex.matches r1 s1 /\ Regex.matches r2 s2.
Proof. inversion 1; subst. eauto. Qed.

Lemma matches_Alt_inv (r1 r2 : Regex.regex) (s : string) :
  Regex.matches (Regex.Alt r1 r2) s -> Regex.matches r1 s \/ Regex.matches r2 s.
Proof. inversion 1; subst; eauto. Qed.

Lemma matches_Class_inv (member : ascii -> bool) (s : string) :
  Regex.matches (Regex.Class member) s ->
  exists c, s = String c EmptyString /\ member c = true.
Proof. inversion 1; subst; eauto. Qed.

Lemma app_empty (s1 s2 : string) : EmptyString = s1 ++ s2 -> s1 = EmptyString /\ s2 = EmptyString.
Proof. by destruct s1. Qed.

Lemma nullable_matches (r : Regex.regex) :
  Regex.nullable r = true <-> Regex.matches r EmptyString.
Proof.
  induction r as [| |member|r1 IH1 r2 IH2|r1 IH1 r2 IH2]; simpl.
  - split; [done|]. inversion 1.
  - split; [constructor|done].
  - split; [done|]. inversion 1.
  - rewrite andb_true_iff, IH1, IH2. split.
    + intros [H1 H2]. by apply (Regex.matches_Seq _ _ EmptyString EmptyString).
    + intros (s1 & s2 & [-> ->]%app_empty & H1 & H2)%matches_Seq_inv. done.
  - rewrite orb_true_iff, IH1, IH2. split.
    + intros [H|H]; [by apply Regex.matches_Alt_l|by apply Regex.matches_Alt_r].
    + apply matches_Alt_inv.
Qed.

Lemma after_matches (r : Regex.regex) (c : ascii) (s : string) :
  Regex.matches (Regex.after c r) s <-> Regex.matches r (String c s).
Proof.
  revert s. induction r as [| |member|r1 IH1 r2 IH2|r1 IH1 r2 IH2]; intros s; simpl.
  - split; inversion 1.
  - split; inversion 1.
  - destruct (member c) eqn:Hc; split.
    + inversion 1; subst. by constructor.
    + intros (a & [= -> ->] & _)%matches_Class_inv. constructor.
    + inversion 1.
    + intros (a & [= -> ->] & Ha)%matches_Class_inv. congruence.
  - assert (Regex.matches (Regex.Seq (Regex.after c r1) r2) s
            -> Regex.matches (Regex.Seq r1 r2) (String c s)) as Hhead.
    { intros (s1 & s2 & -> & H1 & H2)%matches_Seq_inv.
      apply IH1 in H1.
      by apply (Regex.matches_Seq _ _ (String c s1) s2). }
    assert (Regex.matches (Regex.Seq r1 r2) (String c s)
            -> Regex.matches (Regex.Seq (Regex.after c r1) r2) s
               \/ (Regex.matches r1 EmptyString /\ Regex.matches (Regex.after c r2) s))
      as Hsplit.
    { intros (s1 & s2 & Heq & H1 & H2)%matches_Seq_inv.
      destruct s1 as [|a s1].
      - change (String c s = s2) in Heq. right. subst s2.
        split; [done|]. by apply IH2.
      - change (String c s = String a (s1 ++ s2)) in Heq.
        injection Heq as <- ->. left.
        apply Regex.matches_Seq; [by apply IH1|done]. }
    destruct (Regex.nullable r1) eqn:Hn; split.
    + intros [H|H]%matches_Alt_inv; [by apply Hhead|].
      apply (Regex.matches_Seq _ _ EmptyString (String c s));
        [by apply nullable_matches|by apply IH2].
    + intros [H|[_ H]]%Hsplit;
        [by apply Regex.matches_Alt_l|by apply Regex.matches_Alt_r].
    + apply Hhead.
    + intros [H|[H _]]%Hsplit; [done|].
      apply nullable_matches in H. congruence.
  - split; intros [H|H]%matches_Alt_inv;
      (apply Regex.matches_Alt_l; by apply IH1)
      || (apply Regex.matches_Alt_r; by apply IH2).
Qed.

(** The matcher decides membership. *)
Lemma test_matches (r : Regex.regex) (s : string) :
  Regex.test r s = true <-> Regex.matches r s.
Proof.
  revert r. induction s as [|c s IH]; intros r; simpl.
  - apply nullable_matches.
  - rewrite IH. apply after_matches.
Qed.

(** ** The colour validator *)

(** The class [[A-Fa-f0-9]] holds the hexadecimal digits and nothing
    else. *)
Lemma hex_class (c : ascii) :
  (Regex.range "A" "F" c || Regex.range "a" "f" c || Regex.range "0" "9" c)
  = is_hex_digit c.
Proof.
  destruct c as [b0 b1 b2 b3 b4 b5 b6 b7].
  destruct b0, b1, b2, b3, b4, b5, b6, b7; reflexivity.
Qed.

Lemma matches_Empty_inv (s : string) : Regex.matches Regex.Empty s -> s = EmptyString.
Proof. by inversion 1. Qed.

Lemma matches_hex_digits (n : nat) (s : string) :
  Regex.matches (Regex.times n Popup.hex_digit) s
  <-> String.length s = n /\ all_hex_digits s = true.
Proof.
  revert s. induction n as [|n IH]; intros s; cbn [Regex.times].
  - split.
    + by intros ->%matches_Empty_inv.
    + intros [Hlen _]. destruct s; [constructor|done].
  - split.
    + intros (s1 & s2 & -> & (c & -> & Hc)%matches_Class_inv & H2)%matches_Seq_inv.
      apply IH in H2 as [Hlen Hall].
      change (String c EmptyString ++ s2) with (String c s2).
      rewrite hex_class in Hc. cbn [String.length all_hex_digits].
      by rewrite Hlen, Hc, Hall.
    + intros [Hlen Hall]. destruct s as [|c s]; [done|].
      cbn [String.length all_hex_digits] in Hlen, Hall.
      apply andb_true_iff in Hall as [Hc Hall]. injection Hlen as Hlen.
      apply (Regex.matches_Seq _ _ (String c EmptyString) s).
      * constructor. by rewrite hex_class.
      * by apply IH.
Qed.

(** The pattern stands for the hexadecimal colours. *)
Lemma matches_hex_color (s : string) :
  Regex.matches Popup.hex_color_pattern s <-> hex_color s.
Proof.
  unfold Popup.hex_color_pattern, hex_color. split.
  - intros (s1 & s2 & -> & (c & -> & Hc)%matches_Class_inv & H2)%matches_Seq_inv.
    apply Ascii.eqb_eq in Hc as <-. exists s2. split; [done|].
    apply matches_Alt_inv in H2 as [[H ?]%matches_hex_digits|[H ?]%matches_hex_digits];
      (split; [|done]); [by right|by left].
  - intros (digits & -> & Hlen & Hall).
    apply (Regex.matches_Seq _ _ (String "#" EmptyString) digits).
    + constructor. apply Ascii.eqb_refl.
    + destruct Hlen as [Hlen|Hlen];
        [apply Regex.matches_Alt_r|apply Regex.matches_Alt_l];
        by apply matches_hex_digits.
Qed.

Lemma isValidHexColor_hex_color (s : string) :
  Popup.isValidHexColor s = true <-> hex_color s.
Proof. unfold Popup.isValidHexColor. rewrite test_matches. apply matches_hex_color. Qed.

(** C9. The validator accepts exactly [#] followed by three or six
    hexadecimal digits: it accepts [#fff], [#ffffff] and [#A1B2C3], rejects
    [fff], [#ff], [#gggggg] and the empty string; and a text the validator
    rejects, typed in either hex field, changes neither the settings nor
    anything else. *)
Theorem hex_validator (s : string) :
  (Popup.isValidHexColor s = true <-> hex_color s)
  /\ (Popup.isValidHexColor "#fff" = true
      /\ Popup.isValidHexColor "#ffffff" = true
      /\ Popup.isValidHexColor "#A1B2C3" = true)
  /\ (Popup.isValidHexColor "fff" = false
      /\ Popup.isValidHexColor "#ff" = false
      /\ Popup.isValidHexColor "#gggggg" = false
      /\ Popup.isValidHexColor "" = false)
  /\ (forall w,
        Popup.isValidHexColor s = false ->
        Popup.globalColorHex_input s w = (Ok tt, w)
        /\ Popup.siteColorHex_input s w = (Ok tt, w)).
Proof.
  split; [apply isValidHexColor_hex_color|].
  split; [by repeat split|].
  split; [by repeat split|].
  intros w Hs. unfold Popup.globalColorHex_input, Popup.siteColorHex_input.
  by rewrite Hs.
Qed.

Lemma hex_validator_witness :
  Popup.globalColorHex_input "#gggggg" Sample.example_world = (Ok tt, Sample.example_world)
  /\ Popup.siteColorHex_input "#gggggg" Sample.example_world = (Ok tt, Sample.example_world)
  /\ hex_color "#A1B2C3".
Proof.
  destruct (hex_validator "#gggggg") as (_ & _ & _ & Hrejected).
  destruct (hex_validator "#A1B2C3") as (Hiff & _).
  destruct (Hrejected Sample.example_world eq_refl) as [Hglobal Hsite].
  split; [exact Hglobal|]. split; [exact Hsite|]. apply Hiff. reflexivity.
Defined.

(** A colour the validator accepts is declared as it is. *)
Lemma hex_digit_not_semicolon (c : ascii) :
  is_hex_digit c = true -> Ascii.eqb ";" c = false.
Proof.
  intros Hc. destruct (Ascii.eqb ";" c) eqn:E; [|done].
  apply Ascii.eqb_eq in E as <-. done.
Qed.

Lemma hex_digits_no_semicolon (s : string) :
  all_hex_digits s = true -> none_of (Ascii.eqb ";") s = true.
Proof.
  induction s as [|c s IH]; [done|]. cbn [all_hex_digits none_of].
  intros [Hc Hs]%andb_true_iff. by rewrite (hex_digit_not_semicolon c Hc), IH.
Qed.

Lemma declared_color_valid (color : string) :
  Popup.isValidHexColor color = true ->
  declared_color (Service.generateCSS (VStr color)) = Some color.
Proof.
  intros (digits & -> & _ & Hall)%isValidHexColor_hex_color.
  rewrite declared_color_generateCSS. f_equal.
  change (or (VStr (String "#" digits)) (VStr "unset")) with (VStr (String "#" digits)).
  cbn [to_string]. apply take_until_none. cbn [none_of].
  by rewrite hex_digits_no_semicolon.
Qed.

(** ** The popup *)

Lemma getCurrentSite_closed (w : world) :
  exists v, Popup.getCurrentSite w = (Ok v, w) /\ to_string v = popup_site w.
Proof.
  unfold Popup.getCurrentSite, popup_site, bind, read, ret.
  destruct (currentSite (page w)) as [| | | |s|]; cbn [is_string]; eauto.
  destruct (String.eqb s "local-file") eqn:E; [|eauto].
  apply String.eqb_eq in E as ->. eauto.
Qed.

(** The popup's settings are a component of its page. *)
Lemma popup_settings_page (w w' : world) :
  page w' = page w -> popup_settings w' = popup_settings w.
Proof. unfold popup_settings, StorageManager.deref. by intros ->. Qed.

Lemma popup_settings_mutated (v : value) (w : world) :
  popup_settings (snd (Popup.mutate_settings v w)) = v.
Proof.
  unfold Popup.mutate_settings, modify, popup_settings, StorageManager.deref.
  cbn [snd]. by destruct (settings (page w)).
Qed.

(** A name that is a property of the object, or that no prototype
    defines, reads the object itself. *)
Lemma lookup_object (m : gmap string value) (k : string) :
  is_Some (m !! k) \/ k ∉ Object_prototype ->
  lookup (VObj m) k = Ok (Value (own (VObj m) k)).
Proof.
  intros H. unfold lookup, has_own, inherits.
  destruct H as [H|H].
  - by rewrite (bool_decide_eq_true_2 _ H).
  - rewrite (bool_decide_eq_false_2 _ H). by rewrite andb_false_r.
Qed.

Lemma lookup_builtin (m : gmap string value) (k : string) :
  m !! k = None -> k ∈ Object_prototype -> lookup (VObj m) k = Ok Builtin.
Proof.
  intros Hnone Hin. unfold lookup, has_own, inherits.
  rewrite bool_decide_eq_false_2 by (rewrite Hnone; by intros [? ?]).
  by rewrite (bool_decide_eq_true_2 _ Hin).
Qed.

(** [removeSiteSetting] on a site that has an entry: the key leaves the
    entry, and nothing else in the settings changes. *)
Lemma removeSiteSetting_deletes (key : string) (w : world) (o m e : gmap string value) :
  popup_settings w = VObj o ->
  o !! "siteSettings" = Some (VObj m) ->
  m !! popup_site w = Some (VObj e) ->
  popup_settings (snd (Popup.removeSiteSetting key w))
  = VObj (<["siteSettings" := VObj (<[popup_site w := VObj (delete key e)]> m)]> o).
Proof.
  intros Hs Ho Hm.
  unfold Popup.removeSiteSetting. rewrite snd_try_catch_ret.
  destruct (getCurrentSite_closed w) as (v & Hv & Hsite).
  unfold bind at 1. rewrite Hv, Hsite.
  unfold bind at 1. unfold Popup.this_settings at 1, read.
  fold (popup_settings w). rewrite Hs.
  rewrite (truthy_get (VObj o)) by done. rewrite bind_lift.
  cbn [own]. rewrite Ho. cbn [default from_option id truthy].
  rewrite (lookup_object m) by (left; by rewrite Hm). rewrite bind_lift.
  cbn [own]. rewrite Hm. cbn [default from_option id truthy truthy_property].
  unfold bind at 1.
  destruct (Popup.mutate_settings _ w) as [r w1] eqn:Hw1.
  assert (r = Ok tt) as -> by (unfold Popup.mutate_settings, modify in Hw1; by injection Hw1).
  assert (w1 = snd (Popup.mutate_settings
                      (Popup.put_back (VObj o) "siteSettings"
                         (Popup.put_back (VObj m) (popup_site w)
                            (delete_prop (VObj e) key))) w)) as Hw1'
    by (by rewrite Hw1).
  transitivity (popup_settings w1).
  - apply popup_settings_page.
    assert (keeps page
              (s1 <- Popup.this_settings ;;
               _ <- StorageManager.setSettings s1 ;;
               Popup.notifyServiceWorker)%js) as Hkeep.
    { unfold Popup.this_settings. keeps_steps. }
    apply Hkeep.
  - rewrite Hw1'. apply popup_settings_mutated.
Qed.

(** ** From the popup to the service worker *)

Lemma snd_try_catch_const {A} (m : M A) (x : A) (w : world) :
  snd (try_catch m (fun _ => ret x) w) = snd (m w).
Proof. unfold try_catch. by destruct (m w) as [[a|e] w']. Qed.

Lemma snd_try_catch_response {A} (m : M A) (h : JS.error -> A) (w : world) :
  snd (try_catch m (fun e => ret (h e)) w) = snd (m w).
Proof. unfold try_catch. by destruct (m w) as [[a|e] w']. Qed.

(** [setSettings] leaves in memory the record it is given, when memory
    holds it already. *)
Lemma Service_setSettings_memory (settings : value) (w : world) :
  service_settings w = settings ->
  service_settings (snd (Service.setSettings settings w)) = settings.
Proof.
  intros Hs.
  unfold Service.setSettings, try_catch, bind, storage_set, storage_clear, call,
    modify, ret.
  destruct (next_fault w) as [e|]; [|done]. cbn [snd].
  destruct (includes "quota" (message e)); [|done].
  destruct (next_fault (issued (StorageSet settings) w)); [done|].
  by destruct (next_fault _).
Qed.

(** The service worker's memory after an update: the merge, whatever
    happens to the write. *)
Lemma updateSettings_memory (newSettings : value) (w : world) :
  service_settings (snd (Service.updateSettings newSettings w))
  = spread2 (service_settings w) newSettings.
Proof.
  unfold Service.updateSettings. rewrite snd_try_catch_const.
  unfold bind at 1. unfold Service.this_settings at 1, read.
  unfold bind at 1. unfold modify at 1.
  unfold bind at 1. unfold Service.this_settings at 1, read.
  cbn [service_settings with_service_settings].
  set (merged := spread2 (service_settings w) newSettings).
  set (w1 := with_service_settings merged w).
  assert (keeps service_settings
            (fun w0 =>
               (latest <- Service.this_settings ;;
                Service.notifyAllTabs (Service.updateSettings_message latest) ;;
                Service.updateAllTabs ;;
                ret true)%js w0)) as Hrest.
  { unfold Service.this_settings. keeps_steps. }
  unfold bind at 1.
  pose proof (Service_setSettings_memory merged w1 eq_refl) as Hset.
  destruct (Service.setSettings merged w1) as [[b|e] w2]; cbn [snd] in *; [|done].
  by rewrite (Hrest w2).
Qed.

Lemma handleMessage_update (msg payload : value) (w : world) :
  get msg "action" = Ok (VStr "updateSettings") ->
  get msg "settings" = Ok payload ->
  Service.handleMessage msg w
  = (Ok (Service.Response true VUndefined None),
     snd (Service.updateSettings payload w)).
Proof.
  intros Ha Hp. unfold Service.handleMessage, try_catch.
  rewrite Ha, bind_lift.
  change (is_string (VStr "updateSettings") "getSettings") with false.
  change (is_string (VStr "updateSettings") "updateSettings") with true.
  cbv iota. rewrite Hp, bind_lift. unfold bind.
  destruct (updateSettings_returns payload w) as (b & w' & ->).
  reflexivity.
Qed.

Lemma serialize_object (m : gmap string value) :
  serialize (VObj m) = Some (VObj (omap serialize m)).
Proof. reflexivity. Qed.

(** The message as the service worker receives it. *)
Lemma received_update (current : gmap string value) :
  let received := default VUndefined (serialize (Service.updateSettings_message (VObj current))) in
  get received "action" = Ok (VStr "updateSettings")
  /\ get received "settings" = Ok (VObj (omap serialize current)).
Proof.
  unfold Service.updateSettings_message. rewrite serialize_object.
  cbn [default from_option id get own]. rewrite !lookup_omap.
  rewrite lookup_insert_eq. rewrite lookup_insert_ne by done.
  by rewrite lookup_insert_eq.
Qed.

(** When the message gets through, the service worker merges the popup's
    record, as stored, into its memory. *)
Lemma notifyServiceWorker_memory (w : world) (current : gmap string value) :
  popup_settings w = VObj current ->
  next_fault w = None ->
  service_settings (snd (Popup.notifyServiceWorker w))
  = spread2 (service_settings w) (VObj (omap serialize current)).
Proof.
  intros Hs Hf.
  unfold Popup.notifyServiceWorker, try_catch.
  unfold bind at 1. unfold Popup.this_settings at 1, read.
  fold (popup_settings w). rewrite Hs.
  unfold bind at 1. unfold Popup.runtime_sendMessage.
  rewrite call_resolves by done.
  destruct (received_update current) as [Ha Hp].
  rewrite (handleMessage_update _ _ _ Ha Hp).
  cbn [Service.success negb snd ret].
  by rewrite updateSettings_memory.
Qed.

Lemma faults_persisted (settings : value) (w : world) :
  faults (persisted settings w) = faults w.
Proof. unfold persisted. by destruct (serialize settings). Qed.

Lemma StorageManager_setSettings_next (settings : value) (w : world) :
  next_fault (snd (StorageManager.setSettings settings w)) = second_fault w.
Proof.
  rewrite StorageManager_setSettings_closed. unfold next_fault, second_fault.
  destruct (mjoin (head (faults w))); cbn [snd]; by rewrite ?faults_persisted.
Qed.

Lemma StorageManager_setSettings_returns (settings : value) (w : world) :
  exists b, fst (StorageManager.setSettings settings w) = Ok b.
Proof.
  rewrite StorageManager_setSettings_closed. destruct (next_fault w); eauto.
Qed.

(** The service worker's memory once [removeSiteSetting] is through, when
    the message to the service worker is not rejected. *)
Lemma removeSiteSetting_memory (key : string) (w : world) (o m e : gmap string value) :
  popup_settings w = VObj o ->
  o !! "siteSettings" = Some (VObj m) ->
  m !! popup_site w = Some (VObj e) ->
  second_fault w = None ->
  service_settings (snd (Popup.removeSiteSetting key w))
  = spread2 (service_settings w)
      (VObj (omap serialize
               (<["siteSettings" := VObj (<[popup_site w := VObj (delete key e)]> m)]> o))).
Proof.
  intros Hs Ho Hm Hf.
  unfold Popup.removeSiteSetting. rewrite snd_try_catch_ret.
  destruct (getCurrentSite_closed w) as (v & Hv & Hsite).
  unfold bind at 1. rewrite Hv, Hsite.
  unfold bind at 1. unfold Popup.this_settings at 1, read.
  fold (popup_settings w). rewrite Hs.
  rewrite (truthy_get (VObj o)) by done. rewrite bind_lift.
  cbn [own]. rewrite Ho. cbn [default from_option id truthy].
  rewrite (lookup_object m) by (left; by rewrite Hm). rewrite bind_lift.
  cbn [own]. rewrite Hm. cbn [default from_option id truthy truthy_property].
  cbn [Popup.put_back delete_prop].
  set (after := VObj (<["siteSettings" := VObj (<[popup_site w := VObj (delete key e)]> m)]> o)).
  unfold bind at 1.
  pose proof (popup_settings_mutated after w) as Hpopup.
  assert (service_settings (snd (Popup.mutate_settings after w)) = service_settings w) as Hmem
    by (unfold Popup.mutate_settings, modify; cbn [snd]; by destruct (settings (page w))).
  assert (faults (snd (Popup.mutate_settings after w)) = faults w) as Hfaults
    by (unfold Popup.mutate_settings, modify; cbn [snd]; by destruct (settings (page w))).
  destruct (Popup.mutate_settings after w) as [r w1] eqn:Hw1.
  assert (r = Ok tt) as -> by (unfold Popup.mutate_settings, modify in Hw1; by injection Hw1).
  cbn [snd] in Hpopup, Hmem, Hfaults.
  unfold bind at 1. unfold Popup.this_settings at 1, read.
  fold (popup_settings w1). rewrite Hpopup.
  unfold bind at 1.
  pose proof (StorageManager_setSettings_next after w1) as Hnext.
  assert (keeps popup_settings (StorageManager.setSettings after)) as Hkeep_popup
    by (unfold StorageManager.setSettings; keeps_steps).
  assert (keeps service_settings (StorageManager.setSettings after)) as Hkeep_mem
    by (unfold StorageManager.setSettings; keeps_steps).
  specialize (Hkeep_popup w1). specialize (Hkeep_mem w1).
  destruct (StorageManager_setSettings_returns after w1) as [b Hb].
  destruct (StorageManager.setSettings after w1) as [r2 w2].
  cbn [fst snd] in *. subst r2.
  rewrite (notifyServiceWorker_memory w2
             (<["siteSettings" := VObj (<[popup_site w := VObj (delete key e)]> m)]> o)).
  - by rewrite Hkeep_mem, Hmem.
  - by rewrite Hkeep_popup, Hpopup.
  - rewrite Hnext. unfold second_fault. by rewrite Hfaults.
Qed.

(** The colour a record resolves to for a site. *)
Lemma resolved_color_without_override (o m e : gmap string value) (site : string) :
  o !! "siteSettings" = Some (VObj m) ->
  m !! site = Some (VObj e) ->
  e !! "visitedColor" = None ->
  exists r, Service.resolve (VObj o) site = Ok r
            /\ Service.visitedColor r = own (VObj o) "visitedColor".
Proof.
  intros Ho Hm He. rewrite resolve_object, (entry_of_present o m e site Ho Hm).
  eexists. split; [done|]. cbn [Service.visitedColor own]. by rewrite He.
Qed.

(** C8. Where the site has an entry with a custom colour, switching "use
    custom colour for this site" off takes the [visitedColor] key out of that
    entry and leaves the rest of the settings as they were: no other key is
    written; the colour the settings then resolve to for the site is the
    global one, in the popup and, once the message has reached it, in the
    service worker. *)
Theorem custom_color_off_removes_override
        (w : world) (o m e : gmap string value) (color : value) :
  popup_settings w = VObj o ->
  o !! "siteSettings" = Some (VObj m) ->
  m !! popup_site w = Some (VObj e) ->
  e !! "visitedColor" = Some color ->
  let w' := snd (Popup.useCustomColor_change false w) in
  popup_settings w'
  = VObj (<["siteSettings" := VObj (<[popup_site w := VObj (delete "visitedColor" e)]> m)]> o)
  /\ own (entry_of (popup_settings w') (popup_site w)) "visitedColor" = VUndefined
  /\ (forall k, k <> "visitedColor" ->
        own (entry_of (popup_settings w') (popup_site w)) k = own (VObj e) k)
  /\ (exists r, Service.resolve (popup_settings w') (popup_site w) = Ok r
                /\ Service.visitedColor r = own (popup_settings w) "visitedColor")
  /\ (second_fault w = None ->
      exists r, Service.resolve (service_settings w') (popup_site w) = Ok r
                /\ Service.visitedColor r = own (service_settings w') "visitedColor").
Proof.
  intros Hs Ho Hm He w'.
  assert (popup_settings w'
          = VObj (<["siteSettings" :=
                      VObj (<[popup_site w := VObj (delete "visitedColor" e)]> m)]> o))
    as Hafter by (by apply removeSiteSetting_deletes).
  assert (entry_of (popup_settings w') (popup_site w) = VObj (delete "visitedColor" e))
    as Hentry.
  { rewrite Hafter.
    apply (entry_of_present _ (<[popup_site w := VObj (delete "visitedColor" e)]> m));
      by rewrite lookup_insert_eq. }
  split; [exact Hafter|]. rewrite Hentry. split; [|split; [|split]].
  - cbn [own]. by rewrite lookup_delete_eq.
  - intros k Hk. cbn [own]. by rewrite lookup_delete_ne.
  - rewrite Hafter, Hs.
    destruct (resolved_color_without_override
                (<["siteSettings" :=
                     VObj (<[popup_site w := VObj (delete "visitedColor" e)]> m)]> o)
                (<[popup_site w := VObj (delete "visitedColor" e)]> m)
                (delete "visitedColor" e) (popup_site w))
      as (r & Hr & Hcolor); try by rewrite ?lookup_insert_eq, ?lookup_delete_eq.
    exists r. split; [done|]. rewrite Hcolor. cbn [own].
    by rewrite lookup_insert_ne.
  - intros Hf. unfold w', Popup.useCustomColor_change.
    rewrite (removeSiteSetting_memory "visitedColor" w o m e Hs Ho Hm Hf).
    unfold spread2. cbn [props].
    apply (resolved_color_without_override _
             (omap serialize (<[popup_site w := VObj (delete "visitedColor" e)]> m))
             (omap serialize (delete "visitedColor" e))).
    + apply lookup_union_Some_l. rewrite lookup_omap, lookup_insert_eq. done.
    + rewrite lookup_omap, lookup_insert_eq. done.
    + by rewrite lookup_omap, lookup_delete_eq.
Qed.

Lemma custom_color_off_removes_override_witness :
  let w := snd (Popup.start Sample.installed) in
  let w' := snd (Popup.useCustomColor_change false w) in
  own (entry_of (popup_settings w) "example.com") "visitedColor" = VStr "#abcdef"
  /\ own (entry_of (popup_settings w') "example.com") "visitedColor" = VUndefined
  /\ (exists r, Service.resolve (popup_settings w') "example.com" = Ok r
                /\ Service.visitedColor r = VStr "#123456")
  /\ (exists r, Service.resolve (service_settings w') "example.com" = Ok r
                /\ Service.visitedColor r = own (service_settings w') "visitedColor").
Proof.
  cbv zeta.
  destruct (custom_color_off_removes_override
              (snd (Popup.start Sample.installed))
              Sample.custom_record Sample.custom_sites Sample.custom_entry
              (VStr "#abcdef") eq_refl eq_refl eq_refl eq_refl)
    as (_ & Hgone & _ & Hpopup & Hservice).
  split; [reflexivity|]. split; [exact Hgone|]. split; [exact Hpopup|].
  apply Hservice. reflexivity.
Defined.


(** ** The shared default object *)

(** On an empty store the popup works on the module's [DEFAULT_SETTINGS]
    object itself: an edit changes that object, and a later
    [StorageManager.getSettings] would hand out the changed one.  The page
    makes no such later call: [loadSettings] is the only caller, and it runs
    before any listener is installed. *)
Lemma defaults_object_is_shared :
  let w1 := snd (Popup.start Sample.example_world) in
  let w2 := snd (Popup.globalColorPicker_input "#ff0000" w1) in
  settings (page w1) = TheDefaults
  /\ storage w2 = ∅
  /\ own (DEFAULT_SETTINGS_object (page w2)) "visitedColor" = VStr "#ff0000"
  /\ exists ref,
       fst (StorageManager.getSettings w2) = Ok ref
       /\ own (StorageManager.deref ref (snd (StorageManager.getSettings w2))) "visitedColor"
          = VStr "#ff0000".
Proof.
  cbv zeta. split; [reflexivity|]. split; [reflexivity|]. split; [reflexivity|].
  exists TheDefaults. split; reflexivity.
Qed.

(** ** The address parser on sample inputs *)

Example parse_https :
  URL.parse "https://Example.com:8080/a?b#c" = Some (URL.Make "https:" "example.com").
Proof. reflexivity. Qed.

Example parse_chrome :
  URL.parse "chrome://extensions/" = Some (URL.Make "chrome:" "extensions").
Proof. reflexivity. Qed.

Example parse_about : URL.parse "about:blank" = Some (URL.Make "about:" "").
Proof. reflexivity. Qed.

Example parse_file : URL.parse "file:///home/u/a.html" = Some (URL.Make "file:" "").
Proof. reflexivity. Qed.

Example parse_data :
  URL.parse "data:text/html,<a href=x>" = Some (URL.Make "data:" "").
Proof. reflexivity. Qed.

Example parse_userinfo :
  URL.parse "http://user:pw@Host.org/x" = Some (URL.Make "http:" "host.org").
Proof. reflexivity. Qed.

Example parse_no_scheme : URL.parse "www.example.com" = None /\ URL.parse "" = None.
Proof. split; reflexivity. Qed.

(** What the constructor rejects: a port out of range or not a number, a
    forbidden code point in the host, an IPv4 address out of range, an
    IPv6 address without its closing bracket, a missing host. *)
Example parse_failures :
  Forall (fun input => URL.parse input = None)
    ["http://example.com:99999/"; "http://example.com:80a/"; "http://exa mple.com/";
     "http://256.1.1.1/"; "http://1.2.3.4.5/"; "http://1.2.3.08/"; "https://[::1/";
     "http://[::1]x/"; "http://[1:2:3:4:5:6:7::8]/"; "http://a%2Fb/"; "http://";
     "http://user@/"; "http://:80/"; "foo://ho st/"; "file://a b/"].
Proof. repeat constructor. Qed.

(** The host is normalised: lower case, percent-decoded, an IPv4 address
    in dotted decimals, an IPv6 address compressed. *)
Example parse_normalises :
  URL.hostname <$> URL.parse "http://EX%41MPLE.com./" = Some "example.com."
  /\ URL.hostname <$> URL.parse "http://0x7f.1/" = Some "127.0.0.1"
  /\ URL.hostname <$> URL.parse "http://0300.0250.0.1:80/" = Some "192.168.0.1"
  /\ URL.hostname <$> URL.parse "http://[2001:DB8:0:0:1:0:0:1]/" = Some "[2001:db8::1:0:0:1]"
  /\ URL.hostname <$> URL.parse "http://[::ffff:192.168.0.1]:8080/" = Some "[::ffff:c0a8:1]"
  /\ URL.hostname <$> URL.parse "web+x://Host/" = Some "Host"
  /\ URL.hostname <$> URL.parse "file://localhost/etc" = Some "".
Proof. repeat split; reflexivity. Qed.

Example parse_undefined : URL.parse (to_string VUndefined) = None.
Proof. reflexivity. Qed.

(** ** A session *)

(** The scenario of the spec, step by step: the site gets a custom colour,
    the service worker colours its tab with it; the toggle is released, and
    the next sheet on the tab carries the global colour. *)
Example custom_color_session :
  let opened := snd (Popup.start Sample.example_world) in
  let toggled := snd (Popup.siteToggle_change true opened) in
  let custom := snd (Popup.useCustomColor_change true toggled) in
  let typed := snd (Popup.siteColorHex_input "#abcdef" custom) in
  let saved := snd (Popup.timeout_fires typed) in
  let released := snd (Popup.useCustomColor_change false saved) in
  popup_site opened = "example.com"
  /\ fst (Service.getEffectiveSettings (VNum 7) saved)
     = Ok (Service.Effective (VStr "#abcdef") (VBool true))
  /\ fst (Service.getEffectiveSettings (VNum 7) released)
     = Ok (Service.Effective (VStr "#551a8b") (VBool true))
  /\ last (sheets_of saved 7) = Some (Service.generateCSS (VStr "#abcdef"))
  /\ last (sheets_of released 7) = Some (Service.generateCSS (VStr "#551a8b"))
  /\ length (sheets_of released 7) = 3.
Proof. cbv zeta. repeat split; vm_compute; reflexivity. Qed.

(** ** The response to an update, and the write behind it *)

Lemma Service_setSettings_resolves (settings : value) (w : world) :
  next_fault w = None ->
  Service.setSettings settings w
  = (Ok true,
     with_service_settings settings (persisted settings (issued (StorageSet settings) w))).
Proof.
  intros Hf.
  unfold Service.setSettings, try_catch, bind, storage_set, call, modify, ret.
  rewrite Hf. reflexivity.
Qed.

Lemma storage_persisted (m : gmap string value) (w : world) :
  storage (persisted (VObj m) w) !! SETTINGS_KEY = serialize (VObj m).
Proof. unfold persisted. rewrite serialize_object. cbn. by rewrite lookup_insert_eq. Qed.

(** When the write goes through, the store holds the merged record once
    the update is over. *)
Lemma updateSettings_storage (newSettings : value) (w : world) :
  next_fault w = None ->
  storage (snd (Service.updateSettings newSettings w)) !! SETTINGS_KEY
  = serialize (spread2 (service_settings w) newSettings).
Proof.
  intros Hf.
  unfold Service.updateSettings. rewrite snd_try_catch_const.
  unfold bind at 1. unfold Service.this_settings at 1, read.
  unfold bind at 1. unfold modify at 1.
  unfold bind at 1. unfold Service.this_settings at 1, read.
  cbn [service_settings with_service_settings].
  set (merged := spread2 (service_settings w) newSettings).
  set (w1 := with_service_settings merged w).
  assert (keeps storage
            (fun w0 =>
               (latest <- Service.this_settings ;;
                Service.notifyAllTabs (Service.updateSettings_message latest) ;;
                Service.updateAllTabs ;;
                ret true)%js w0)) as Hrest.
  { unfold Service.this_settings. keeps_steps. }
  unfold bind at 1.
  rewrite (Service_setSettings_resolves merged w1) by done.
  rewrite (Hrest _). unfold with_service_settings at 1. cbn [storage].
  unfold merged, spread2. apply storage_persisted.
Qed.

(** C6, as the code has it.  The handler of an [updateSettings] request
    merges the partial record into the in-memory copy and writes the merged
    record to the store; its response is [success: true], with no error,
    whether or not the write succeeded; when the write succeeds the store
    holds the merged record. *)
Theorem update_response_ignores_the_write (w : world) (payload : value) :
  let merged := spread2 (service_settings w) payload in
  let answer := Service.handleMessage (Service.updateSettings_message payload) w in
  fst answer = Ok (Service.Response true VUndefined None)
  /\ service_settings (snd answer) = merged
  /\ (next_fault w = None -> storage (snd answer) !! SETTINGS_KEY = serialize merged).
Proof.
  cbv zeta.
  rewrite (handleMessage_update _ payload w (message_action payload)
             (message_settings payload)).
  cbn [fst snd]. split; [done|]. split.
  - apply updateSettings_memory.
  - apply updateSettings_storage.
Qed.

Lemma update_response_ignores_the_write_witness :
  let payload := VObj {["visitedColor" := VStr "#ff0000"]} in
  let answer :=
    Service.handleMessage (Service.updateSettings_message payload) Sample.example_world in
  fst answer = Ok (Service.Response true VUndefined None)
  /\ storage (snd answer) !! SETTINGS_KEY
     = serialize (spread2 (service_settings Sample.example_world) payload).
Proof.
  cbv zeta.
  destruct (update_response_ignores_the_write Sample.example_world
              (VObj {["visitedColor" := VStr "#ff0000"]})) as (Hanswer & _ & Hstored).
  split; [exact Hanswer|]. apply Hstored. reflexivity.
Defined.

(** C6 as the spec has it fails: the write of an update is rejected,
    nothing is stored, [setSettings] reports [false], and the response still
    says [success: true], with no error. *)
Lemma update_reports_success_after_failed_write :
  let payload := VObj {["visitedColor" := VStr "#ff0000"]} in
  let merged := spread2 (service_settings Sample.offline) payload in
  let answer := Service.handleMessage (Service.updateSettings_message payload) Sample.offline in
  fst (Service.setSettings merged Sample.offline) = Ok false
  /\ storage (snd answer) = ∅
  /\ service_settings (snd answer) = merged
  /\ fst answer = Ok (Service.Response true VUndefined None).
Proof.
  cbv zeta. split; [reflexivity|]. split; [reflexivity|]. split; [reflexivity|].
  apply handleMessage_updateSettings.
Qed.

(** ** The service worker's memory is never empty *)

(** Every assignment to [this.settings] is guarded by [||] or is a fresh
    object, so the property reads of the resolver cannot throw. *)
Lemma loadSettings_truthy (w : world) :
  truthy (service_settings (snd (Service.loadSettings w))) = true.
Proof.
  unfold Service.loadSettings, try_catch.
  rewrite <- bind_assoc. unfold bind at 1. rewrite storage_get_closed.
  destruct (next_fault w); [reflexivity|].
  unfold modify. cbn [snd service_settings with_service_settings].
  apply truthy_or_object.
Qed.

Lemma updateSettings_truthy (newSettings : value) (w : world) :
  truthy (service_settings (snd (Service.updateSettings newSettings w))) = true.
Proof. by rewrite updateSettings_memory. Qed.

Lemma injectCSS_memory (tabId : value) (w : world) :
  service_settings (snd (Service.injectCSS tabId w)) = service_settings w.
Proof.
  assert (keeps service_settings (Service.injectCSS tabId)) as Hk
    by (unfold Service.injectCSS; keeps_steps).
  apply Hk.
Qed.

Lemma handleMessage_truthy (msg : value) (w : world) :
  truthy (service_settings w) = true ->
  truthy (service_settings (snd (Service.handleMessage msg w))) = true.
Proof.
  intros Hs. unfold Service.handleMessage. rewrite snd_try_catch_response.
  unfold bind at 1. unfold lift at 1.
  destruct (get msg "action") as [action|e]; [|done].
  destruct (is_string action "getSettings").
  { assert (keeps service_settings
              (settings <- Service.getSettings ;;
               ret (Service.Response true settings None))%js) as Hk
      by (unfold Service.getSettings; keeps_steps).
    by rewrite Hk. }
  destruct (is_string action "updateSettings").
  { unfold bind at 1. unfold lift at 1.
    destruct (get msg "settings") as [payload|e]; [|done].
    unfold bind.
    pose proof (updateSettings_truthy payload w) as Hu.
    by destruct (Service.updateSettings payload w) as [[b|e] w']. }
  destruct (is_string action "injectCSS").
  { assert (keeps service_settings
              (tabId <- lift (get msg "tabId") ;;
               Service.injectCSS tabId ;;
               ret (Service.Response true VUndefined None))%js) as Hk
      by keeps_steps.
    by rewrite Hk. }
  by destruct (is_string action "ping").
Qed.

(** * Further properties of the code *)

(** ** Invariants of a computation *)

Section Preserves.
Context (I : world -> Prop).

Lemma preserves_ret {A} (a : A) : preserves I (ret a).
Proof. by intros w. Qed.

Lemma preserves_throw {A} (e : JS.error) : preserves I (@throw A e).
Proof. by intros w. Qed.

Lemma preserves_lift {A} (r : result A) : preserves I (lift r).
Proof. by intros w. Qed.

Lemma preserves_read {A} (g : world -> A) : preserves I (read g).
Proof. by intros w. Qed.

Lemma preserves_modify (g : world -> world) :
  (forall w, I w -> I (g w)) -> preserves I (modify g).
Proof. intros Hg w. apply Hg. Qed.

Lemma preserves_bind {A B} (m : M A) (k : A -> M B) :
  preserves I m -> (forall a, preserves I (k a)) -> preserves I (bind m k).
Proof.
  intros Hm Hk w Hw. unfold bind. specialize (Hm w Hw).
  destruct (m w) as [[a|e] w']; cbn [snd] in *; [by apply Hk|done].
Qed.

Lemma preserves_try_catch {A} (m : M A) (handler : JS.error -> M A) :
  preserves I m -> (forall e, preserves I (handler e)) -> preserves I (try_catch m handler).
Proof.
  intros Hm Hh w Hw. unfold try_catch. specialize (Hm w Hw).
  destruct (m w) as [[a|e] w']; cbn [snd] in *; [done|by apply Hh].
Qed.

Lemma preserves_call {A} (o : op) (run : M A) :
  (forall o w, I w -> I (issued o w)) -> preserves I run -> preserves I (call o run).
Proof.
  intros Hi Hr w Hw. unfold call.
  destruct (next_fault w); cbn [snd]; [by apply Hi|by apply Hr, Hi].
Qed.

Lemma preserves_for_each {A} (xs : list A) (body : A -> M unit) :
  (forall x, preserves I (body x)) -> preserves I (Service.for_each xs body).
Proof.
  intros Hb. induction xs as [|x xs IH]; cbn [Service.for_each].
  - apply preserves_ret.
  - apply preserves_bind; [apply Hb|by intros _].
Qed.

End Preserves.

(** Splits a computation into its steps, trying [known] on each of them
    first, and closes the steps that plainly keep the invariant. *)
Ltac preserves_steps known :=
  repeat first
    [ known
    | apply preserves_ret | apply preserves_throw | apply preserves_lift
    | apply preserves_read
    | apply preserves_bind | apply preserves_try_catch | apply preserves_for_each
    | apply preserves_call;
      [solve [intros ? ? HI; first [exact HI | unfold issued; cbn; by rewrite HI]]|]
    | apply preserves_modify;
      solve [intros ? HI; first [exact HI | done | by destruct (serialize _)]]
    | progress intros
    | match goal with
      | |- preserves _ (if ?b then _ else _) => destruct b
      | |- preserves _ (match ?x with _ => _ end) => destruct x
      end ].

(** A loop whose body always returns is the fold of its steps. *)
Lemma for_each_closed {A} (xs : list A) (body : A -> M unit)
      (step : A -> world -> world) (w : world) :
  (forall x w, body x w = (Ok tt, step x w)) ->
  Service.for_each xs body w = (Ok tt, foldl (fun w x => step x w) w xs).
Proof.
  intros Hb. revert w. induction xs as [|x xs IH]; intros w; [done|].
  cbn [Service.for_each foldl]. unfold bind. by rewrite Hb, IH.
Qed.

(** ** Notifying the tabs *)

Lemma notify_tab_closed (msg : value) (t : tab) (w : world) :
  (if Service.eligible t
   then try_catch (tabs_sendMessage (tab_id t) msg) (fun _ => ret tt)
   else ret tt) w
  = (Ok tt, if Service.eligible t then issued (sent msg t) w else w).
Proof.
  destruct (Service.eligible t); [|done].
  unfold try_catch, tabs_sendMessage, call. by destruct (next_fault w).
Qed.

Lemma log_notified (msg : value) (ts : list tab) (w : world) :
  log (foldl (fun w t => if Service.eligible t then issued (sent msg t) w else w) w ts)
  = (log w ++ List.map (sent msg) (List.filter Service.eligible ts))%list.
Proof.
  revert w. induction ts as [|t ts IH]; intros w; cbn [foldl List.filter List.map].
  - by rewrite app_nil_r.
  - rewrite IH. destruct (Service.eligible t); [|done].
    cbn. by rewrite <- app_assoc.
Qed.

Lemma notifyAllTabs_closed (msg : value) (w : world) :
  Service.notifyAllTabs msg w
  = (Ok tt,
     match next_fault w with
     | Some _ => issued TabsQuery w
     | None =>
         foldl (fun w t => if Service.eligible t then issued (sent msg t) w else w)
               (issued TabsQuery w) (tabs w)
     end).
Proof.
  unfold Service.notifyAllTabs, try_catch, bind, tabs_query, call, read.
  destruct (next_fault w); [done|].
  change (tabs (issued TabsQuery w)) with (tabs w).
  by rewrite (for_each_closed _ _ _ _ (notify_tab_closed msg)).
Qed.

(** Components the bookkeeping of the calls leaves alone stay as they were
    over the whole round of messages. *)
Lemma notified_unlogged {X} (f : world -> X) (msg : value) (ts : list tab) (w : world) :
  unlogged f ->
  f (foldl (fun w t => if Service.eligible t then issued (sent msg t) w else w) w ts) = f w.
Proof.
  intros Hf. revert w. induction ts as [|t ts IH]; intros w; [done|].
  cbn [foldl]. rewrite IH. destruct (Service.eligible t); [apply Hf|done].
Qed.

(** X1.  [notifyAllTabs] never throws.  It queries the tabs and, unless the
    query fails, sends the message to every eligible tab and to no other, in
    the order of the query, whether or not a send fails; it changes neither
    the tabs, nor the store, nor the service worker's settings. *)
Theorem notifyAllTabs_reaches_every_eligible_tab (msg : value) (w : world) :
  let w' := snd (Service.notifyAllTabs msg w) in
  fst (Service.notifyAllTabs msg w) = Ok tt
  /\ calls_since w w'
     = TabsQuery :: match next_fault w with
                    | Some _ => []
                    | None => List.map (sent msg) (List.filter Service.eligible (tabs w))
                    end
  /\ tabs w' = tabs w
  /\ storage w' = storage w
  /\ service_settings w' = service_settings w.
Proof.
  cbn zeta. rewrite notifyAllTabs_closed. cbn [fst snd].
  split; [done|]. unfold calls_since.
  destruct (next_fault w).
  - cbn. by rewrite drop_app_length.
  - rewrite log_notified, !notified_unlogged by done.
    cbn. rewrite <- app_assoc. by rewrite drop_app_length.
Qed.

(** ** Refreshing the tabs *)

Lemma refreshed_id (settings : value) (t : tab) : tab_id (refreshed settings t) = tab_id t.
Proof. unfold refreshed. by destruct (Service.eligible t). Qed.

Lemma map_refreshed_ids (settings : value) (ts : list tab) :
  List.map tab_id (List.map (refreshed settings) ts) = List.map tab_id ts.
Proof. rewrite List.map_map. apply List.map_ext. intros t. apply refreshed_id. Qed.

Lemma find_tab_middle (t : tab) (pre post : list tab) :
  tab_id t ∉ List.map tab_id pre ->
  find_tab (tab_id t) (pre ++ t :: post) = Some t.
Proof.
  induction pre as [|p pre IH]; cbn [app List.map]; intros Hn.
  - cbn. by rewrite Z.eqb_refl.
  - apply not_elem_of_cons in Hn as [Hne Hn]. cbn.
    destruct (Z.eqb_spec (tab_id p) (tab_id t)); [congruence|by apply IH].
Qed.

Lemma map_add_sheet_other (id : Z) (css : string) (ts : list tab) :
  id ∉ List.map tab_id ts -> List.map (add_sheet id css) ts = ts.
Proof.
  induction ts as [|t ts IH]; [done|]. cbn [List.map]. intros Hn.
  apply not_elem_of_cons in Hn as [Hne Hn].
  rewrite (IH Hn). unfold add_sheet.
  by destruct (Z.eqb_spec (tab_id t) id); [congruence|].
Qed.

Lemma effective_for_found (w : world) (id : Z) (t : tab) :
  next_fault w = None ->
  find_tab id (tabs w) = Some t ->
  effective_for w (VNum id) = effective_of (service_settings w) t.
Proof. intros Hf Ht. unfold effective_for, effective_of. by rewrite Hf, Ht. Qed.

(** [injectCSS] for an eligible tab, when no call fails. *)
Lemma injectCSS_eligible (w : world) (t : tab) (pre post : list tab) :
  truthy (service_settings w) = true ->
  faults w = [] ->
  tabs w = (pre ++ t :: post)%list ->
  NoDup (List.map tab_id (pre ++ t :: post)) ->
  Service.eligible t = true ->
  let w' := injected w (VNum (tab_id t)) in
  tabs w' = (pre ++ refreshed (service_settings w) t :: post)%list
  /\ faults w' = []
  /\ service_settings w' = service_settings w
  /\ storage w' = storage w.
Proof.
  intros Hs Hf Ht Hnd He.
  rewrite List.map_app in Hnd. cbn [List.map] in Hnd.
  apply NoDup_app in Hnd as (Hpre & Hcross & Hpost).
  apply NoDup_cons in Hpost as [Hnpost Hpost].
  assert (tab_id t ∉ List.map tab_id pre) as Hnpre.
  { intros Hin. apply (Hcross _ Hin). by left. }
  assert (find_tab (tab_id t) (tabs w) = Some t) as Hfind
    by (rewrite Ht; by apply find_tab_middle).
  assert (next_fault w = None) as Hnf by (unfold next_fault; by rewrite Hf).
  cbn zeta. rewrite (injected_truthy w (tab_id t) t Hs Hnf Hfind He).
  rewrite effective_for_issued by done.
  rewrite (effective_for_found w (tab_id t) t Hnf Hfind).
  set (css := sheet_for (effective_of (service_settings w) t)).
  unfold inserted, next_fault, issued. cbn [faults with_faults with_log tabs].
  rewrite Hf. cbn [tail head mjoin option_join]. rewrite Hfind.
  cbn [tabs with_tabs faults service_settings storage].
  repeat split; try done.
  rewrite Ht, List.map_app. cbn [List.map].
  rewrite !map_add_sheet_other by done.
  unfold refreshed. rewrite He. fold css.
  unfold add_sheet, with_sheet. by rewrite Z.eqb_refl.
Qed.

(** One round of [updateAllTabs], from the tab it has reached. *)
Lemma refresh_round (todo done : list tab) (w : world) :
  truthy (service_settings w) = true ->
  faults w = [] ->
  tabs w = (List.map (refreshed (service_settings w)) done ++ todo)%list ->
  NoDup (List.map tab_id (done ++ todo)) ->
  let w' := foldl (fun w t => if Service.eligible t
                              then injected w (VNum (tab_id t)) else w) w todo in
  tabs w' = List.map (refreshed (service_settings w)) (done ++ todo)
  /\ faults w' = []
  /\ service_settings w' = service_settings w
  /\ storage w' = storage w.
Proof.
  revert done w. induction todo as [|t todo IH]; intros done w Hs Hf Ht Hnd; cbn zeta.
  - cbn [foldl]. by rewrite Ht, !app_nil_r.
  - cbn [foldl].
    assert (NoDup (List.map tab_id
                     (List.map (refreshed (service_settings w)) done ++ t :: todo))) as Hnd'
      by (rewrite List.map_app, map_refreshed_ids, <- List.map_app; done).
    destruct (Service.eligible t) eqn:He.
    + destruct (injectCSS_eligible w t _ _ Hs Hf Ht Hnd' He) as (Ht' & Hf' & Hs' & Hst').
      destruct (IH (done ++ [t])%list (injected w (VNum (tab_id t)))) as (H1 & H2 & H3 & H4).
      * by rewrite Hs'.
      * done.
      * rewrite Ht', Hs', List.map_app. cbn [List.map]. by rewrite <- app_assoc.
      * by rewrite <- app_assoc.
      * rewrite Hs' in H1. rewrite <- app_assoc in H1. cbn in H1.
        repeat split; [done|done|congruence|congruence].
    + destruct (IH (done ++ [t])%list w) as (H1 & H2 & H3 & H4).
      * done.
      * done.
      * assert (refreshed (service_settings w) t = t) as Hr
          by (unfold refreshed; by rewrite He).
        rewrite Ht, List.map_app. cbn [List.map]. rewrite <- app_assoc.
        by rewrite Hr.
      * by rewrite <- app_assoc.
      * rewrite <- app_assoc in H1. by cbn in H1.
Qed.

Lemma update_tab_closed (t : tab) (w : world) :
  try_catch (if Service.eligible t then Service.injectCSS (VNum (tab_id t)) else ret tt)
            (fun _ => ret tt) w
  = (Ok tt, if Service.eligible t then injected w (VNum (tab_id t)) else w).
Proof.
  unfold try_catch. destruct (Service.eligible t); [|done].
  by rewrite injectCSS_closed.
Qed.

Lemma updateAllTabs_closed (w : world) :
  Service.updateAllTabs w
  = (Ok tt,
     match next_fault w with
     | Some _ => issued TabsQuery w
     | None =>
         foldl (fun w t => if Service.eligible t
                           then injected w (VNum (tab_id t)) else w)
               (issued TabsQuery w) (tabs w)
     end).
Proof.
  unfold Service.updateAllTabs, try_catch at 1. unfold bind, tabs_query, call, read.
  destruct (next_fault w); [done|].
  change (tabs (issued TabsQuery w)) with (tabs w).
  by rewrite (for_each_closed _ _ _ _ update_tab_closed).
Qed.

(** [updateAllTabs] when no call fails. *)
Lemma updateAllTabs_refreshes (w : world) :
  truthy (service_settings w) = true ->
  faults w = [] ->
  NoDup (List.map tab_id (tabs w)) ->
  let w' := snd (Service.updateAllTabs w) in
  tabs w' = List.map (refreshed (service_settings w)) (tabs w)
  /\ faults w' = []
  /\ service_settings w' = service_settings w
  /\ storage w' = storage w.
Proof.
  intros Hs Hf Hnd. cbn zeta. rewrite updateAllTabs_closed. cbn [snd].
  unfold next_fault. rewrite Hf. cbn [head mjoin option_join].
  apply (refresh_round (tabs w) [] (issued TabsQuery w)); try done.
  unfold issued. cbn. by rewrite Hf.
Qed.

(** X2.  When no host call fails and the tabs have distinct ids,
    [updateAllTabs] gives every eligible tab one more style sheet, the one
    for the effective settings of the page it shows, and leaves every other
    tab, the store and the settings as they were. *)
Theorem updateAllTabs_refreshes_every_tab (w : world) :
  truthy (service_settings w) = true ->
  faults w = [] ->
  NoDup (List.map tab_id (tabs w)) ->
  let w' := snd (Service.updateAllTabs w) in
  fst (Service.updateAllTabs w) = Ok tt
  /\ tabs w' = List.map (refreshed (service_settings w)) (tabs w)
  /\ service_settings w' = service_settings w
  /\ storage w' = storage w.
Proof.
  intros Hs Hf Hnd. cbn zeta.
  destruct (updateAllTabs_refreshes w Hs Hf Hnd) as (H1 & H2 & H3 & H4).
  split; [by rewrite updateAllTabs_closed|done].
Qed.

Lemma updateAllTabs_refreshes_every_tab_witness :
  let w' := snd (Service.updateAllTabs Sample.example_world) in
  fst (Service.updateAllTabs Sample.example_world) = Ok tt
  /\ tabs w' = List.map (refreshed (service_settings Sample.example_world))
                        (tabs Sample.example_world)
  /\ service_settings w' = service_settings Sample.example_world
  /\ storage w' = storage Sample.example_world.
Proof.
  apply (updateAllTabs_refreshes_every_tab Sample.example_world); [done|done|].
  apply (bool_decide_unpack _). by vm_compute.
Defined.

(** ** A change of settings reaches the tabs *)

(** No scripted failure is left. *)
Lemma notifyAllTabs_faults (msg : value) : preserves (fun w => faults w = []) (Service.notifyAllTabs msg).
Proof. unfold Service.notifyAllTabs. preserves_steps fail. Qed.

Lemma notifyAllTabs_keeps (msg : value) (w : world) :
  fst (Service.notifyAllTabs msg w) = Ok tt
  /\ tabs (snd (Service.notifyAllTabs msg w)) = tabs w
  /\ storage (snd (Service.notifyAllTabs msg w)) = storage w
  /\ service_settings (snd (Service.notifyAllTabs msg w)) = service_settings w.
Proof.
  rewrite notifyAllTabs_closed. cbn [fst snd].
  destruct (next_fault w); [done|].
  by rewrite !notified_unlogged.
Qed.

Lemma updateAllTabs_returns (w : world) : fst (Service.updateAllTabs w) = Ok tt.
Proof. by rewrite updateAllTabs_closed. Qed.

(** [updateSettings] when no call fails. *)
Lemma updateSettings_refreshes (newSettings : value) (w : world) :
  faults w = [] ->
  NoDup (List.map tab_id (tabs w)) ->
  let merged := spread2 (service_settings w) newSettings in
  exists w',
    Service.updateSettings newSettings w = (Ok true, w')
    /\ tabs w' = List.map (refreshed merged) (tabs w)
    /\ service_settings w' = merged
    /\ storage w' = storage (persisted merged w)
    /\ faults w' = [].
Proof.
  intros Hf Hnd. cbn zeta.
  unfold Service.updateSettings, try_catch at 1.
  unfold bind at 1. unfold Service.this_settings at 1, read.
  unfold bind at 1. unfold modify at 1.
  unfold bind at 1. unfold Service.this_settings at 1, read.
  cbn [service_settings with_service_settings].
  set (merged := spread2 (service_settings w) newSettings).
  set (w1 := with_service_settings merged w).
  unfold bind at 1.
  rewrite (Service_setSettings_resolves merged w1)
    by (unfold next_fault, w1; cbn; by rewrite Hf).
  set (w2 := with_service_settings merged
               (persisted merged (issued (StorageSet merged) w1))).
  assert (faults w2 = []) as Hf2
    by (unfold w2, w1, persisted, issued; destruct (serialize merged); cbn; by rewrite Hf).
  assert (tabs w2 = tabs w) as Ht2
    by (unfold w2, w1, persisted, issued; by destruct (serialize merged)).
  assert (service_settings w2 = merged) as Hs2 by done.
  assert (storage w2 = storage (persisted merged w)) as Hst2
    by (unfold w2, w1, persisted, issued; by destruct (serialize merged)).
  unfold bind at 1. unfold Service.this_settings at 1, read.
  unfold bind at 1.
  pose proof (notifyAllTabs_faults (Service.updateSettings_message (service_settings w2))
                w2 Hf2) as Hf3.
  destruct (notifyAllTabs_keeps (Service.updateSettings_message (service_settings w2)) w2)
    as (Hr3 & Ht3 & Hst3 & Hs3).
  destruct (Service.notifyAllTabs _ w2) as [r3 w3]. cbn [fst snd] in *. subst r3.
  destruct (updateAllTabs_refreshes w3) as (H1 & H2 & H3 & H4).
  { by rewrite Hs3, Hs2. }
  { done. }
  { by rewrite Ht3, Ht2. }
  pose proof (updateAllTabs_returns w3) as Hr4.
  unfold bind.
  destruct (Service.updateAllTabs w3) as [r4 w4]. cbn [fst snd ret] in *. subst r4.
  exists w4. rewrite H1, H3, H4, Hs3, Hs2, Ht3, Ht2, Hst3, Hst2. done.
Qed.

(** X3.  When no host call fails and the tabs have distinct ids,
    [updateSettings] returns [true], holds the merged record in memory and in
    the store, and gives every eligible tab one more style sheet, the one for
    the effective settings of its page under the merged record. *)
Theorem updateSettings_reaches_every_tab (newSettings : value) (w : world) :
  faults w = [] ->
  NoDup (List.map tab_id (tabs w)) ->
  let merged := spread2 (service_settings w) newSettings in
  let w' := snd (Service.updateSettings newSettings w) in
  fst (Service.updateSettings newSettings w) = Ok true
  /\ tabs w' = List.map (refreshed merged) (tabs w)
  /\ service_settings w' = merged
  /\ storage w' !! SETTINGS_KEY = serialize merged.
Proof.
  intros Hf Hnd. cbn zeta.
  destruct (updateSettings_refreshes newSettings w Hf Hnd) as (w' & -> & H2 & H3 & H4 & H5).
  cbn [fst snd]. repeat split; try done.
  rewrite H4. apply storage_persisted.
Qed.

Lemma updateSettings_reaches_every_tab_witness :
  let newSettings := VObj {["enabled" := VBool false]} in
  let w' := snd (Service.updateSettings newSettings Sample.example_world) in
  fst (Service.updateSettings newSettings Sample.example_world) = Ok true
  /\ tabs w' = List.map (refreshed (spread2 (service_settings Sample.example_world) newSettings))
                        (tabs Sample.example_world)
  /\ service_settings w' = spread2 (service_settings Sample.example_world) newSettings
  /\ storage w' !! SETTINGS_KEY
     = serialize (spread2 (service_settings Sample.example_world) newSettings).
Proof.
  apply (updateSettings_reaches_every_tab (VObj {["enabled" := VBool false]})
           Sample.example_world); [done|].
  apply (bool_decide_unpack _). by vm_compute.
Defined.

(** ** The service worker over any sequence of events *)

Section Events.
Context (I : world -> Prop).
Hypothesis I_issued : forall o w, I w -> I (issued o w).
Hypothesis I_injectCSS : forall tabId, preserves I (Service.injectCSS tabId).
Hypothesis I_handleMessage : forall msg, preserves I (Service.handleMessage msg).
Hypothesis I_handleInstallation : forall details, preserves I (Service.handleInstallation details).
Hypothesis I_handleStorageChange :
  forall changes namespace, preserves I (Service.handleStorageChange changes namespace).

Lemma delayed_injectCSS_preserves (tabId : value) :
  preserves I (Service.delayed_injectCSS tabId).
Proof.
  unfold Service.delayed_injectCSS.
  apply preserves_try_catch; [apply I_injectCSS|intros e; apply preserves_ret].
Qed.

Lemma handleTabUpdate_preserves (tabId changeInfo tab : value) :
  preserves I (Service.handleTabUpdate tabId changeInfo tab).
Proof.
  unfold Service.handleTabUpdate. preserves_steps ltac:(apply I_injectCSS).
Qed.

(** The callbacks [handleTabUpdate] schedules. *)
Lemma handleTabUpdate_schedules (tabId changeInfo tab : value) (w : world) :
  match fst (Service.handleTabUpdate tabId changeInfo tab w) with
  | Ok scheduled => scheduled = [] \/ scheduled = [Service.delayed_injectCSS tabId]
  | Throw _ => True
  end.
Proof.
  unfold Service.handleTabUpdate, bind at 1. unfold lift at 1.
  destruct (get changeInfo "status") as [status|e]; [|done].
  destruct (is_string status "loading" || is_string status "complete"); [|by left].
  unfold bind at 1. unfold lift at 1.
  destruct (get tab "url") as [url|e]; [|done].
  destruct (truthy url); [|by left].
  unfold try_catch at 1.
  destruct (Service.shouldInjectOnSite (to_string url)); [|by left].
  unfold bind, try_catch. rewrite injectCSS_closed.
  destruct (is_string status "loading"); [right|left]; done.
Qed.

Lemma tabs_onCreated_preserves (tab : value) : preserves I (Service.tabs_onCreated tab).
Proof. unfold Service.tabs_onCreated. preserves_steps ltac:(apply I_injectCSS). Qed.

Lemma tabs_onActivated_preserves (activeInfo : value) :
  preserves I (Service.tabs_onActivated activeInfo).
Proof.
  unfold Service.tabs_onActivated.
  preserves_steps ltac:(first [apply I_injectCSS
                              | apply preserves_call; [exact I_issued|]]).
Qed.

(** The invariant and the pending timers over one event. *)
Lemma setupEventListeners_preserves (e : Service.event) (pending : list (M unit)) (w : world) :
  I w ->
  Forall (preserves I) pending ->
  I (snd (Service.setupEventListeners e pending w))
  /\ match fst (Service.setupEventListeners e pending w) with
     | Ok pending' => Forall (preserves I) pending'
     | Throw _ => True
     end.
Proof.
  intros Hw Hp. destruct e as [d|m|a b c|t|a|c n|n]; cbn [Service.setupEventListeners].
  - pose proof (I_handleInstallation d w Hw) as H. unfold bind.
    by destruct (Service.handleInstallation d w) as [[[]|e] w'].
  - pose proof (I_handleMessage m w Hw) as H. unfold bind.
    by destruct (Service.handleMessage m w) as [[r|e] w'].
  - pose proof (handleTabUpdate_preserves a b c w Hw) as H.
    pose proof (handleTabUpdate_schedules a b c w) as Hs. unfold bind.
    destruct (Service.handleTabUpdate a b c w) as [[l|e] w']; cbn [fst snd ret] in *;
      [|done].
    split; [done|]. apply Forall_app. split; [done|].
    destruct Hs as [->| ->]; [done|].
    apply Forall_singleton, delayed_injectCSS_preserves.
  - pose proof (tabs_onCreated_preserves t w Hw) as H. unfold bind.
    by destruct (Service.tabs_onCreated t w) as [[[]|e] w'].
  - pose proof (tabs_onActivated_preserves a w Hw) as H. unfold bind.
    by destruct (Service.tabs_onActivated a w) as [[[]|e] w'].
  - pose proof (I_handleStorageChange c n w Hw) as H. unfold bind.
    by destruct (Service.handleStorageChange c n w) as [[[]|e] w'].
  - destruct (pending !! n) as [callback|] eqn:Hn; [|done].
    assert (preserves I callback) as Hc
      by (by apply (Forall_lookup_1 _ _ _ _ Hp Hn)).
    specialize (Hc w Hw). unfold bind.
    destruct (callback w) as [[[]|e] w']; cbn [fst snd ret] in *; [|done].
    split; [done|]. by apply Forall_delete.
Qed.

Lemma run_preserves (events : list Service.event) (w : world) (pending : list (M unit)) :
  I w ->
  Forall (preserves I) pending ->
  I (fst (Service.run events w pending)).
Proof.
  revert w pending. induction events as [|e events IH]; intros w pending Hw Hp; [done|].
  cbn [Service.run].
  destruct (setupEventListeners_preserves e pending w Hw Hp) as [H1 H2].
  destruct (Service.setupEventListeners e pending w) as [[pending'|err] w'];
    cbn [fst snd] in *; by apply IH.
Qed.

End Events.

(** ** The settings in memory are never empty *)

Lemma setSettings_truthy (settings : value) :
  truthy settings = true ->
  preserves (fun w => truthy (service_settings w) = true) (Service.setSettings settings).
Proof. intros Hs. unfold Service.setSettings. preserves_steps fail. Qed.

Lemma injectCSS_truthy (tabId : value) :
  preserves (fun w => truthy (service_settings w) = true) (Service.injectCSS tabId).
Proof. intros w Hw. by rewrite injectCSS_memory. Qed.

Lemma handleInstallation_truthy (details : value) :
  preserves (fun w => truthy (service_settings w) = true)
            (Service.handleInstallation details).
Proof.
  unfold Service.handleInstallation, Service.initializeDefaultSettings, Service.getSettings.
  preserves_steps ltac:(by apply setSettings_truthy).
Qed.

Lemma handleStorageChange_truthy (changes namespace : value) :
  preserves (fun w => truthy (service_settings w) = true)
            (Service.handleStorageChange changes namespace).
Proof.
  unfold Service.handleStorageChange, Service.notifyAllTabs, Service.this_settings.
  preserves_steps ltac:(apply preserves_modify; intros ? _; apply truthy_or_object).
Qed.

Lemma new_VisitedLinkService_truthy (w : world) :
  truthy (service_settings (snd (Service.new_VisitedLinkService w))) = true.
Proof.
  assert (preserves (fun w => truthy (service_settings w) = true) Service.updateAllTabs) as Hu
    by (unfold Service.updateAllTabs; preserves_steps ltac:(apply injectCSS_truthy)).
  unfold Service.new_VisitedLinkService, Service.init.
  unfold bind at 1. unfold modify at 1. rewrite snd_try_catch_ret.
  unfold bind.
  pose proof (loadSettings_truthy (with_service_settings (spread Service.DEFAULT_SETTINGS) w))
    as Hl.
  destruct (Service.loadSettings _) as [[[]|e] w1]; cbn [snd] in *; [|done].
  by apply Hu.
Qed.

(** X4.  From its start and over any sequence of events, whatever the store
    holds and whichever calls fail, the service worker's [this.settings] is
    never [undefined], [null] or another falsy value; so
    [getEffectiveSettings] returns a pair in every state it can be called
    in. *)
Theorem settings_in_memory_never_empty (events : list Service.event) (w : world)
        (tabId : value) :
  let now := Service.started events w in
  truthy (service_settings now) = true
  /\ Service.getEffectiveSettings tabId now
     = (Ok (effective_for now tabId), issued (TabsGet tabId) now).
Proof.
  cbn zeta.
  assert (truthy (service_settings (Service.started events w)) = true) as Hs.
  { unfold Service.started.
    apply (run_preserves (fun w => truthy (service_settings w) = true)).
    - done.
    - apply injectCSS_truthy.
    - intros msg w0. apply handleMessage_truthy.
    - apply handleInstallation_truthy.
    - apply handleStorageChange_truthy.
    - apply new_VisitedLinkService_truthy.
    - done. }
  split; [done|by apply getEffectiveSettings_truthy].
Qed.

(** ** Pages the extension stays out of *)

(** What [injectCSS] does to the tabs. *)
Lemma injected_tabs (w : world) (tabId : value) :
  tabs (injected w tabId) = tabs w
  \/ exists id t css,
       find_tab id (tabs w) = Some t
       /\ Service.eligible t = true
       /\ tabs (injected w tabId) = List.map (add_sheet id css) (tabs w).
Proof.
  unfold injected.
  destruct (next_fault w); [by left|].
  destruct tabId as [| | |id| |]; try (by left).
  destruct (find_tab id (tabs w)) as [t|] eqn:Ht; [|by left].
  destruct (Service.eligible t) eqn:He; [|by left].
  destruct (fst (Service.getEffectiveSettings _ _)) as [e|err]; [|by left].
  unfold inserted.
  destruct (next_fault _); [by left|].
  change (tabs (issued _ (issued _ w))) with (tabs w). rewrite Ht.
  right. exists id, t, (sheet_for e). by cbn.
Qed.

Lemma injectCSS_spares (id : Z) (t : tab) (tabId : value) :
  Service.eligible t = false ->
  preserves (fun w => find_tab id (tabs w) = Some t) (Service.injectCSS tabId).
Proof.
  intros He w Hw. rewrite injectCSS_closed. cbn [snd].
  destruct (injected_tabs w tabId) as [->|(i & t' & css & Ht' & He' & ->)]; [done|].
  rewrite find_tab_add_sheet, Hw. cbn. f_equal.
  unfold add_sheet. destruct (Z.eqb_spec (tab_id t) i) as [Hi|]; [|done].
  pose proof (find_tab_id _ _ _ Hw) as Hid. congruence.
Qed.

(** X5.  A tab whose address is not eligible (an internal page of the
    browser, an extension page, a local file, a [data:] address, or no
    readable address) is never given a style sheet: from the start of the
    service worker and over any sequence of events, the tab stays exactly as
    it was. *)
Theorem ineligible_tabs_are_never_styled (events : list Service.event) (w : world)
        (id : Z) (t : tab) :
  find_tab id (tabs w) = Some t ->
  Service.eligible t = false ->
  find_tab id (tabs (Service.started events w)) = Some t.
Proof.
  intros Ht He. unfold Service.started.
  apply (run_preserves (fun w => find_tab id (tabs w) = Some t)).
  - done.
  - intros tabId. by apply injectCSS_spares.
  - intros msg. unfold Service.handleMessage, Service.getSettings, Service.updateSettings,
      Service.setSettings.
    preserves_steps ltac:(by apply injectCSS_spares).
  - intros details.
    unfold Service.handleInstallation, Service.initializeDefaultSettings,
      Service.getSettings, Service.setSettings.
    preserves_steps fail.
  - intros changes namespace. unfold Service.handleStorageChange. preserves_steps fail.
  - unfold Service.new_VisitedLinkService, Service.init, Service.loadSettings.
    assert (preserves (fun w => find_tab id (tabs w) = Some t)
              (modify (with_service_settings (spread Service.DEFAULT_SETTINGS)) ;;
               try_catch
                 (try_catch
                    (result <- storage_get ;;
                     stored <- lift (get result SETTINGS_KEY) ;;
                     modify (with_service_settings
                               (or stored (spread Service.DEFAULT_SETTINGS))))
                    (fun _ => modify (with_service_settings
                                        (spread Service.DEFAULT_SETTINGS))) ;;
                  Service.updateAllTabs)
                 (fun _ => ret tt))%js) as Hstart
      by preserves_steps ltac:(by apply injectCSS_spares).
    by apply Hstart.
  - done.
Qed.

Lemma ineligible_tabs_are_never_styled_witness :
  find_tab 9
    (tabs (Service.started
             [Service.onUpdated (VNum 9) (VObj {["status" := VStr "loading"]})
                                (VObj {["url" := VStr "chrome://extensions/"]});
              Service.onTimeout 0;
              Service.onMessage (VObj {["action" := VStr "injectCSS"; "tabId" := VNum 9]})]
             Sample.example_world))
  = Some Sample.internal_tab.
Proof.
  by apply (ineligible_tabs_are_never_styled _ Sample.example_world 9 Sample.internal_tab).
Defined.

(** ** Installation *)

Lemma Service_setSettings_returns (settings : value) (w : world) :
  exists b, fst (Service.setSettings settings w) = Ok b.
Proof.
  unfold Service.setSettings, try_catch at 1.
  destruct (bind (storage_set settings) _ w) as [[b|e] w1]; [by exists b|].
  unfold bind at 1.
  destruct (includes "quota" (message e)).
  - unfold try_catch.
    destruct (bind storage_clear _ w1) as [[[b|]|e'] w2]; cbn; eauto.
  - cbn. eauto.
Qed.

Lemma settings_as_read_truthy (w : world) : truthy (settings_as_read w) = true.
Proof.
  unfold settings_as_read. destruct (next_fault w); [done|apply truthy_or_object].
Qed.

Lemma initializeDefaultSettings_closed (w : world) :
  Service.initializeDefaultSettings w
  = (Ok tt,
     if (size (props (settings_as_read w)) =? 0)%nat
     then snd (Service.setSettings Service.DEFAULT_SETTINGS (issued StorageGet w))
     else issued StorageGet w).
Proof.
  unfold Service.initializeDefaultSettings, try_catch at 1.
  unfold bind at 1. rewrite Service_getSettings_closed. fold (settings_as_read w).
  rewrite (settings_as_read_truthy w). cbn [negb].
  unfold bind at 1. unfold bind at 1. unfold lift at 1, Object_keys_length.
  pose proof (settings_as_read_truthy w) as Ht.
  destruct (settings_as_read w) as [| |b|n|s|m] eqn:Hfound; try done;
    cbn [ret props];
    destruct (_ =? 0)%nat; try done;
    unfold bind;
    destruct (Service_setSettings_returns Service.DEFAULT_SETTINGS (issued StorageGet w))
      as [r Hr];
    destruct (Service.setSettings _ _) as [r' w']; cbn [fst snd] in *; by subst r'.
Qed.

(** X6.  [handleInstallation] never throws and acts on the reason
    [install] only.  It then reads the store once, and writes the default
    record only where the read yields a record without any property: when
    the store holds no settings or cannot be read, nothing is written. *)
Theorem installation_writes_defaults_only_over_an_empty_record
        (details reason : value) (w : world) :
  get details "reason" = Ok reason ->
  let w' := snd (Service.handleInstallation details w) in
  fst (Service.handleInstallation details w) = Ok tt
  /\ (is_string reason "install" = false -> w' = w)
  /\ (is_string reason "install" = true ->
      (storage w !! SETTINGS_KEY = None \/ is_Some (next_fault w) ->
       w' = issued StorageGet w)
      /\ (forall m,
            next_fault w = None ->
            storage w !! SETTINGS_KEY = Some (VObj m) ->
            m <> ∅ ->
            w' = issued StorageGet w)
      /\ (next_fault w = None ->
          storage w !! SETTINGS_KEY = Some (VObj ∅) ->
          w' = snd (Service.setSettings Service.DEFAULT_SETTINGS (issued StorageGet w)))).
Proof.
  intros Hr. cbn zeta. unfold Service.handleInstallation, bind, lift. rewrite Hr.
  destruct (is_string reason "install").
  - rewrite initializeDefaultSettings_closed. cbn [fst snd].
    split; [done|]. split; [done|]. intros _.
    unfold settings_as_read, stored_settings. repeat split.
    + intros [Hnone|[e He]].
      * rewrite Hnone. by destruct (next_fault w).
      * by rewrite He.
    + intros m Hf Hm Hne. rewrite Hf, Hm. cbn.
      apply map_size_non_empty_iff in Hne.
      by destruct (size m).
    + intros Hf Hm. by rewrite Hf, Hm.
  - cbn [fst snd ret]. by repeat split.
Qed.

Lemma installation_writes_defaults_only_over_an_empty_record_witness :
  let details := VObj {["reason" := VStr "install"]} in
  snd (Service.handleInstallation details Sample.example_world)
  = issued StorageGet Sample.example_world
  /\ snd (Service.handleInstallation details Sample.installed)
     = issued StorageGet Sample.installed
  /\ storage (snd (Service.handleInstallation details Sample.empty_record_stored))
     = {[SETTINGS_KEY := default_record]}.
Proof.
  cbn zeta.
  assert (get (VObj {["reason" := VStr "install"]}) "reason" = Ok (VStr "install")) as Hr
    by reflexivity.
  destruct (installation_writes_defaults_only_over_an_empty_record
              (VObj {["reason" := VStr "install"]}) (VStr "install")
              Sample.example_world Hr) as (_ & _ & H1).
  destruct (H1 eq_refl) as (Hnone & _ & _).
  destruct (installation_writes_defaults_only_over_an_empty_record
              (VObj {["reason" := VStr "install"]}) (VStr "install")
              Sample.installed Hr) as (_ & _ & H2).
  destruct (H2 eq_refl) as (_ & Hsome & _).
  destruct (installation_writes_defaults_only_over_an_empty_record
              (VObj {["reason" := VStr "install"]}) (VStr "install")
              Sample.empty_record_stored Hr) as (_ & _ & H3).
  destruct (H3 eq_refl) as (_ & _ & Hempty).
  split; [apply Hnone; by left|].
  split; [apply (Hsome Sample.custom_record); [done|done|]|].
  - intros Heq. by apply (f_equal (fun m => m !! "enabled")) in Heq.
  - rewrite Hempty by done. by vm_compute.
Defined.

(** ** Changes of the store made elsewhere *)

(** X7.  [handleStorageChange] ignores every change that is not a change of
    the settings in the [sync] area.  On such a change it takes the new value,
    or a copy of the defaults where the new value is missing or falsy, as the
    settings in memory, and sends them to every eligible tab; it writes
    nothing to the store and inserts no style sheet itself. *)
Theorem storage_change_updates_memory_and_notifies
        (changes namespace : value) (w : world) :
  (is_string namespace "sync" = false ->
   Service.handleStorageChange changes namespace w = (Ok tt, w))
  /\ (forall changed,
        is_string namespace "sync" = true ->
        get changes "settings" = Ok changed ->
        truthy changed = false ->
        Service.handleStorageChange changes namespace w = (Ok tt, w))
  /\ (forall changed newValue,
        is_string namespace "sync" = true ->
        get changes "settings" = Ok changed ->
        truthy changed = true ->
        get changed "newValue" = Ok newValue ->
        let current := or newValue (spread Service.DEFAULT_SETTINGS) in
        let w' := snd (Service.handleStorageChange changes namespace w) in
        fst (Service.handleStorageChange changes namespace w) = Ok tt
        /\ service_settings w' = current
        /\ tabs w' = tabs w
        /\ storage w' = storage w
        /\ calls_since w w'
           = TabsQuery
             :: match next_fault w with
                | Some _ => []
                | None => List.map (sent (Service.updateSettings_message current))
                                   (List.filter Service.eligible (tabs w))
                end).
Proof.
  unfold Service.handleStorageChange. split; [|split].
  - by intros ->.
  - intros changed -> Hc Ht. unfold bind, lift. by rewrite Hc, Ht.
  - intros changed newValue -> Hc Ht Hn. cbn zeta.
    unfold bind, lift. rewrite Hc, Ht, Hn. unfold modify, Service.this_settings, read.
    cbn [service_settings with_service_settings].
    set (current := or newValue (spread Service.DEFAULT_SETTINGS)).
    destruct (notifyAllTabs_keeps (Service.updateSettings_message current)
                (with_service_settings current w)) as (Hr & Htabs & Hst & Hs).
    split; [done|]. split; [done|]. split; [done|]. split; [done|].
    rewrite notifyAllTabs_closed. cbn [snd]. unfold calls_since.
    change (next_fault (with_service_settings current w)) with (next_fault w).
    destruct (next_fault w).
    + cbn. by rewrite drop_app_length.
    + rewrite log_notified. cbn. rewrite <- app_assoc. by rewrite drop_app_length.
Qed.

Lemma storage_change_updates_memory_and_notifies_witness :
  let cleared := VObj {["settings" := VObj {["oldValue" := VObj Sample.custom_record]}]} in
  let w' := snd (Service.handleStorageChange cleared (VStr "sync") Sample.installed) in
  Service.handleStorageChange cleared (VStr "local") Sample.installed
  = (Ok tt, Sample.installed)
  /\ service_settings w' = default_record
  /\ tabs w' = tabs Sample.installed
  /\ storage w' = storage Sample.installed.
Proof.
  cbn zeta.
  destruct (storage_change_updates_memory_and_notifies
              (VObj {["settings" := VObj {["oldValue" := VObj Sample.custom_record]}]})
              (VStr "local") Sample.installed) as (Hlocal & _ & _).
  destruct (storage_change_updates_memory_and_notifies
              (VObj {["settings" := VObj {["oldValue" := VObj Sample.custom_record]}]})
              (VStr "sync") Sample.installed) as (_ & _ & Hsync).
  split; [by apply Hlocal|].
  destruct (Hsync (VObj {["oldValue" := VObj Sample.custom_record]}) VUndefined)
    as (_ & Hs & Ht & Hst & _); try reflexivity.
  rewrite Hs. repeat split; try done.
Defined.

(** ** Answers to messages *)

(** X8.  [handleMessage] answers every message and never throws.  It
    reports success for [getSettings] (with the settings as read), for
    [updateSettings], [injectCSS] and [ping], whatever fails while the
    request is carried out; it reports failure only for an unknown action,
    and for a message that is [undefined] or [null]. *)
Theorem every_message_is_answered (msg : value) (w : world) :
  (forall e,
     get msg "action" = Throw e ->
     fst (Service.handleMessage msg w)
     = Ok (Service.Response false VUndefined (Some (message e))))
  /\ (forall action,
        get msg "action" = Ok action ->
        (is_string action "getSettings" = true ->
         fst (Service.handleMessage msg w)
         = Ok (Service.Response true (settings_as_read w) None))
        /\ (is_string action "updateSettings" = true
            \/ is_string action "injectCSS" = true
            \/ is_string action "ping" = true ->
            fst (Service.handleMessage msg w)
            = Ok (Service.Response true VUndefined None))
        /\ (is_string action "getSettings" = false ->
            is_string action "updateSettings" = false ->
            is_string action "injectCSS" = false ->
            is_string action "ping" = false ->
            fst (Service.handleMessage msg w)
            = Ok (Service.Response false VUndefined (Some "Unknown action")))).
Proof.
  assert (forall action,
            get msg "action" = Ok action ->
            fst (Service.handleMessage msg w)
            = Ok (if is_string action "getSettings"
                  then Service.Response true (settings_as_read w) None
                  else if is_string action "updateSettings" || is_string action "injectCSS"
                          || is_string action "ping"
                  then Service.Response true VUndefined None
                  else Service.Response false VUndefined (Some "Unknown action"))) as Hall.
  { intros action Ha. unfold Service.handleMessage, try_catch at 1.
    unfold bind at 1. unfold lift at 1. rewrite Ha.
    assert (forall k, get msg k = Ok (own msg k)) as Hm by (by destruct msg).
    destruct (is_string action "getSettings").
    { unfold bind. by rewrite Service_getSettings_closed. }
    destruct (is_string action "updateSettings").
    { unfold bind at 1. unfold lift at 1. rewrite Hm.
      unfold bind.
      destruct (updateSettings_returns (own msg "settings") w) as (b & w' & ->). done. }
    destruct (is_string action "injectCSS").
    { unfold bind at 1. unfold lift at 1. rewrite Hm.
      unfold bind. by rewrite injectCSS_closed. }
    by destruct (is_string action "ping"). }
  split.
  - intros e He. unfold Service.handleMessage, try_catch, bind, lift. by rewrite He.
  - intros action Ha. rewrite (Hall action Ha). split; [by intros ->|]. split.
    + destruct action as [| | | |s|]; try (by intros [|[|]]).
      cbn [is_string].
      destruct (String.eqb_spec s "getSettings") as [->|];
        [intros [H|[H|H]]; vm_compute in H; discriminate|].
      by intros [-> | [-> | ->]]; rewrite ?orb_true_r.
    + by intros -> -> -> ->.
Qed.

Lemma every_message_is_answered_witness :
  (exists text,
     fst (Service.handleMessage VNull Sample.offline)
     = Ok (Service.Response false VUndefined (Some text)))
  /\ fst (Service.handleMessage (VObj {["action" := VStr "getSettings"]}) Sample.offline)
     = Ok (Service.Response true default_record None)
  /\ fst (Service.handleMessage (VObj {["action" := VStr "injectCSS"; "tabId" := VNum 404]})
                                Sample.offline)
     = Ok (Service.Response true VUndefined None)
  /\ fst (Service.handleMessage (VObj {["action" := VStr "reset"]}) Sample.offline)
     = Ok (Service.Response false VUndefined (Some "Unknown action")).
Proof.
  destruct (every_message_is_answered VNull Sample.offline) as [Hnull _].
  destruct (every_message_is_answered (VObj {["action" := VStr "getSettings"]}) Sample.offline)
    as [_ Hget].
  destruct (every_message_is_answered
              (VObj {["action" := VStr "injectCSS"; "tabId" := VNum 404]}) Sample.offline)
    as [_ Hinject].
  destruct (every_message_is_answered (VObj {["action" := VStr "reset"]}) Sample.offline)
    as [_ Hreset].
  split; [exists (message TypeError); by apply (Hnull TypeError)|].
  split; [by apply (Hget (VStr "getSettings"))|].
  split; [apply (Hinject (VStr "injectCSS")); [reflexivity|by right; left]|].
  by apply (Hreset (VStr "reset")).
Defined.

(** ** What the recovery from a quota error does to the store *)

(** X9.  When the first write of the service worker's [setSettings] fails
    with a quota error, the store is cleared as a whole.  If the second write
    then goes through, the store holds the settings and nothing else; if it
    fails, the store is left empty, the settings stored before are lost,
    [false] is returned and the settings in memory stay as they were.  If the
    clearing itself fails, the store is untouched. *)
Theorem quota_recovery_clears_the_store
        (w : world) (settings : value) (e : JS.error) (rest : list (option JS.error)) :
  faults w = Some e :: rest ->
  includes "quota" (message e) = true ->
  let w' := snd (Service.setSettings settings w) in
  (forall e1 rest', rest = Some e1 :: rest' ->
     fst (Service.setSettings settings w) = Ok false
     /\ storage w' = storage w
     /\ service_settings w' = service_settings w)
  /\ (forall e2 rest', rest = None :: Some e2 :: rest' ->
        fst (Service.setSettings settings w) = Ok false
        /\ storage w' = ∅
        /\ service_settings w' = service_settings w)
  /\ (forall v, rest = [] \/ rest = [None] \/ (exists rest', rest = None :: None :: rest') ->
        serialize settings = Some v ->
        fst (Service.setSettings settings w) = Ok true
        /\ storage w' = {[SETTINGS_KEY := v]}
        /\ service_settings w' = settings).
Proof.
  destruct w as [st tb fs lg ss pg]. cbn [faults]. intros -> Hq. cbn zeta.
  unfold Service.setSettings, try_catch, bind, storage_set, storage_clear, call,
    next_fault, issued, modify, ret.
  cbn [faults log with_faults with_log head tail mjoin option_join message].
  rewrite Hq. split; [|split].
  - by intros e1 rest' ->.
  - intros e2 rest' ->. by cbn.
  - intros v Hrest Hv.
    destruct Hrest as [-> | [-> | [rest' ->]]]; cbn; rewrite Hv; cbn;
      by rewrite insert_empty.
Qed.

Lemma quota_recovery_clears_the_store_witness :
  let twice := with_faults [Some Sample.quota_error; None; Some Sample.quota_error]
                           Sample.installed in
  fst (Service.setSettings Service.DEFAULT_SETTINGS twice) = Ok false
  /\ storage twice = {[SETTINGS_KEY := VObj Sample.custom_record]}
  /\ storage (snd (Service.setSettings Service.DEFAULT_SETTINGS twice)) = ∅.
Proof.
  cbn zeta.
  destruct (quota_recovery_clears_the_store
              (with_faults [Some Sample.quota_error; None; Some Sample.quota_error]
                           Sample.installed)
              Service.DEFAULT_SETTINGS Sample.quota_error
              [None; Some Sample.quota_error] eq_refl eq_refl) as (_ & Hlost & _).
  destruct (Hlost Sample.quota_error [] eq_refl) as (Hr & Hst & _).
  by rewrite Hr, Hst.
Defined.

(** ** Updates of a tab *)

(** X10.  [handleTabUpdate] acts only on the statuses [loading] and
    [complete], and only when the address the event carries is truthy and
    eligible; otherwise it changes nothing and schedules nothing.  When it
    acts it runs [injectCSS] for the tab at once, and on [loading] it also
    schedules one later run of [injectCSS] for the same tab. *)
Theorem tab_update_injects_now_and_later
        (tabId changeInfo tab status url : value) (w : world) :
  get changeInfo "status" = Ok status ->
  get tab "url" = Ok url ->
  let acts := (is_string status "loading" || is_string status "complete")
              && truthy url && Service.shouldInjectOnSite (to_string url) in
  Service.handleTabUpdate tabId changeInfo tab w
  = (Ok (if acts && is_string status "loading"
         then [Service.delayed_injectCSS tabId]
         else []),
     if acts then injected w tabId else w)
  /\ (forall w0, Service.delayed_injectCSS tabId w0 = (Ok tt, injected w0 tabId)).
Proof.
  intros Hs Hu. cbn zeta. split.
  - unfold Service.handleTabUpdate, bind at 1. unfold lift at 1. rewrite Hs.
    destruct (is_string status "loading" || is_string status "complete") eqn:Hst; [|done].
    unfold bind at 1. unfold lift at 1. rewrite Hu.
    destruct (truthy url); [|done].
    unfold try_catch at 1.
    destruct (Service.shouldInjectOnSite (to_string url)); [|done].
    unfold bind, try_catch. rewrite injectCSS_closed. cbn [andb].
    by destruct (is_string status "loading").
  - intros w0. unfold Service.delayed_injectCSS, try_catch. by rewrite injectCSS_closed.
Qed.

Lemma tab_update_injects_now_and_later_witness :
  let loading := VObj {["status" := VStr "loading"]} in
  let page := VObj {["url" := VStr "https://news.example.org/"]} in
  Service.handleTabUpdate (VNum 8) loading page Sample.example_world
  = (Ok [Service.delayed_injectCSS (VNum 8)], injected Sample.example_world (VNum 8)).
Proof.
  cbn zeta.
  destruct (tab_update_injects_now_and_later
              (VNum 8) (VObj {["status" := VStr "loading"]})
              (VObj {["url" := VStr "https://news.example.org/"]})
              (VStr "loading") (VStr "https://news.example.org/")
              Sample.example_world) as [Hnow _]; [reflexivity|reflexivity|].
  rewrite Hnow.
  assert (Service.shouldInjectOnSite "https://news.example.org/" = true) as Hs
    by (by vm_compute).
  cbn [to_string is_string truthy]. rewrite Hs. reflexivity.
Defined.

(** ** The start of the service worker *)

Lemma Service_loadSettings_closed (w : world) :
  Service.loadSettings w
  = (Ok tt, with_service_settings (settings_as_read w) (issued StorageGet w)).
Proof.
  unfold Service.loadSettings, try_catch.
  rewrite <- bind_assoc. unfold bind at 1. rewrite storage_get_closed.
  unfold settings_as_read. by destruct (next_fault w).
Qed.

Lemma new_VisitedLinkService_closed (w : world) :
  faults w = [] ->
  NoDup (List.map tab_id (tabs w)) ->
  let loaded := or (stored_settings w) (spread Service.DEFAULT_SETTINGS) in
  exists w',
    Service.new_VisitedLinkService w = (Ok tt, w')
    /\ service_settings w' = loaded
    /\ tabs w' = List.map (refreshed loaded) (tabs w)
    /\ storage w' = storage w
    /\ faults w' = [].
Proof.
  intros Hf Hnd. cbn zeta.
  unfold Service.new_VisitedLinkService, Service.init.
  unfold bind at 1. unfold modify at 1.
  unfold try_catch at 1. unfold bind at 1. rewrite Service_loadSettings_closed.
  set (w0 := with_service_settings (spread Service.DEFAULT_SETTINGS) w).
  assert (settings_as_read w0 = or (stored_settings w) (spread Service.DEFAULT_SETTINGS))
    as Hread by (unfold settings_as_read, next_fault, w0; cbn; by rewrite Hf).
  rewrite Hread.
  set (loaded := or (stored_settings w) (spread Service.DEFAULT_SETTINGS)).
  set (w1 := with_service_settings loaded (issued StorageGet w0)).
  destruct (updateAllTabs_refreshes w1) as (H1 & H2 & H3 & H4).
  { apply truthy_or_object. }
  { unfold w1, w0, issued. cbn. by rewrite Hf. }
  { done. }
  pose proof (updateAllTabs_returns w1) as Hr.
  destruct (Service.updateAllTabs w1) as [r w2]. cbn [fst snd] in *. subst r.
  exists w2. by rewrite H1, H3, H4.
Qed.

(** X11.  When no host call fails and the tabs have distinct ids, the
    start of the service worker leaves in memory what the store holds under
    the settings key, or a copy of the defaults where that is missing or
    falsy, whatever was in memory before; and it gives every eligible tab the
    style sheet for its page under those settings.  The store is not written. *)
Theorem start_loads_the_settings_and_styles_the_tabs (w : world) :
  faults w = [] ->
  NoDup (List.map tab_id (tabs w)) ->
  let loaded := or (stored_settings w) (spread Service.DEFAULT_SETTINGS) in
  let w' := snd (Service.new_VisitedLinkService w) in
  fst (Service.new_VisitedLinkService w) = Ok tt
  /\ service_settings w' = loaded
  /\ tabs w' = List.map (refreshed loaded) (tabs w)
  /\ storage w' = storage w.
Proof.
  intros Hf Hnd. cbn zeta.
  by destruct (new_VisitedLinkService_closed w Hf Hnd) as (w' & -> & H1 & H2 & H3 & _).
Qed.

Lemma start_loads_the_settings_and_styles_the_tabs_witness :
  let w' := snd (Service.new_VisitedLinkService Sample.installed) in
  service_settings w' = VObj Sample.custom_record
  /\ tabs w' = List.map (refreshed (VObj Sample.custom_record)) (tabs Sample.installed)
  /\ storage w' = storage Sample.installed.
Proof.
  cbn zeta.
  destruct (start_loads_the_settings_and_styles_the_tabs Sample.installed)
    as (_ & Hs & Ht & Hst); [done|apply (bool_decide_unpack _); by vm_compute|].
  assert (or (stored_settings Sample.installed) (spread Service.DEFAULT_SETTINGS)
          = VObj Sample.custom_record) as Hl by reflexivity.
  rewrite Hl in Hs, Ht. exact (conj Hs (conj Ht Hst)).
Defined.

(** ** The settings store *)

Lemma next_fault_issued (o : op) (w : world) : next_fault (issued o w) = second_fault w.
Proof. done. Qed.

Lemma stored_persisted (settings v : value) (w : world) :
  serialize settings = Some v -> stored_settings (persisted settings w) = v.
Proof.
  intros Hv. unfold stored_settings, persisted. rewrite Hv. cbn.
  by rewrite lookup_insert_eq.
Qed.

(** X12.  What [StorageManager.setSettings] has written is what both
    [getSettings] read back, as JSON renders it, provided it is truthy; a
    falsy value that was written reads back as the defaults. *)
Theorem settings_written_are_read_back (settings v : value) (w : world) :
  next_fault w = None ->
  second_fault w = None ->
  serialize settings = Some v ->
  let w1 := snd (StorageManager.setSettings settings w) in
  fst (StorageManager.setSettings settings w) = Ok true
  /\ (truthy v = true ->
      fst (StorageManager.getSettings w1) = Ok (Own v)
      /\ fst (Service.getSettings w1) = Ok v)
  /\ (truthy v = false ->
      fst (StorageManager.getSettings w1) = Ok TheDefaults
      /\ fst (Service.getSettings w1) = Ok (spread Service.DEFAULT_SETTINGS)).
Proof.
  intros Hf Hf2 Hv. cbn zeta.
  rewrite StorageManager_setSettings_closed, Hf. cbn [fst snd].
  rewrite StorageManager_getSettings_closed, Service_getSettings_closed. cbn [fst].
  assert (next_fault (persisted settings (issued (StorageSet settings) w)) = None) as ->
    by (unfold next_fault; rewrite faults_persisted; exact Hf2).
  rewrite (stored_persisted settings v) by done.
  unfold StorageManager.or_DEFAULT_SETTINGS, or.
  split; [done|]. split; by intros ->.
Qed.

Lemma settings_written_are_read_back_witness :
  let w1 := snd (StorageManager.setSettings (VObj Sample.custom_record) Sample.example_world) in
  fst (StorageManager.getSettings w1) = Ok (Own (VObj Sample.custom_record))
  /\ fst (Service.getSettings w1) = Ok (VObj Sample.custom_record).
Proof.
  cbn zeta.
  destruct (settings_written_are_read_back (VObj Sample.custom_record)
              (VObj Sample.custom_record) Sample.example_world)
    as (_ & Hback & _); [done|done|by vm_compute|].
  by apply Hback.
Defined.

(** X13.  [StorageManager.updateSettings] never throws.  It reads the store
    once and writes once: the record it writes is the stored one, or the
    defaults where the store holds nothing truthy or the read fails, with
    the properties of the updates laid over it.  It returns [true] exactly
    when the write goes through, and the store then holds that record. *)
Theorem updateSettings_merges_over_what_it_reads (updates : value) (w : world) :
  let base :=
    match next_fault w with
    | Some _ => DEFAULT_SETTINGS_object (page w)
    | None => if truthy (stored_settings w) then stored_settings w
              else DEFAULT_SETTINGS_object (page w)
    end in
  let merged := spread2 base updates in
  let w' := snd (StorageManager.updateSettings updates w) in
  fst (StorageManager.updateSettings updates w)
  = Ok (match second_fault w with Some _ => false | None => true end)
  /\ calls_since w w' = [StorageGet; StorageSet merged]
  /\ (second_fault w = None -> storage w' !! SETTINGS_KEY = serialize merged)
  /\ (forall e, second_fault w = Some e -> storage w' = storage w).
Proof.
  cbn zeta.
  set (base := match next_fault w with
               | Some _ => DEFAULT_SETTINGS_object (page w)
               | None => if truthy (stored_settings w) then stored_settings w
                         else DEFAULT_SETTINGS_object (page w)
               end).
  assert (StorageManager.updateSettings updates w
          = StorageManager.setSettings (spread2 base updates) (issued StorageGet w)) as ->.
  { unfold StorageManager.updateSettings, try_catch at 1.
    unfold bind at 1. rewrite StorageManager_getSettings_closed.
    unfold bind at 1. unfold read at 1.
    assert (StorageManager.deref
              match next_fault w with
              | Some _ => TheDefaults
              | None => StorageManager.or_DEFAULT_SETTINGS (stored_settings w)
              end (issued StorageGet w) = base) as ->.
    { unfold base, StorageManager.or_DEFAULT_SETTINGS.
      destruct (next_fault w); [done|]. by destruct (truthy (stored_settings w)). }
    destruct (StorageManager_setSettings_returns (spread2 base updates) (issued StorageGet w))
      as [b Hb].
    destruct (StorageManager.setSettings _ _) as [r w']. cbn [fst] in Hb. by subst r. }
  rewrite StorageManager_setSettings_closed, next_fault_issued.
  unfold calls_since.
  destruct (second_fault w) as [e|]; cbn [fst snd].
  - split; [done|]. split; [|split; [done|by intros e' _]].
    cbn. rewrite <- app_assoc. by rewrite drop_app_length.
  - split; [done|]. split; [|split; [|done]].
    + unfold persisted, spread2. cbn. rewrite <- app_assoc. by rewrite drop_app_length.
    + intros _. apply storage_persisted.
Qed.

Lemma updateSettings_merges_over_what_it_reads_witness :
  let updates := VObj {["enabled" := VBool false]} in
  let unreadable := with_faults [Some (Error "Extension context invalidated.")]
                                Sample.installed in
  storage (snd (StorageManager.updateSettings updates Sample.installed)) !! SETTINGS_KEY
  = Some (VObj (<["enabled" := VBool false]> Sample.custom_record))
  /\ storage (snd (StorageManager.updateSettings updates unreadable)) !! SETTINGS_KEY
     = Some (VObj {["enabled" := VBool false;
                    "visitedColor" := VStr "#551a8b";
                    "siteSettings" := VObj ∅]}).
Proof.
  cbn zeta.
  destruct (updateSettings_merges_over_what_it_reads
              (VObj {["enabled" := VBool false]}) Sample.installed) as (_ & _ & H1 & _).
  destruct (updateSettings_merges_over_what_it_reads
              (VObj {["enabled" := VBool false]})
              (with_faults [Some (Error "Extension context invalidated.")] Sample.installed))
    as (_ & _ & H2 & _).
  rewrite H1, H2 by done. by vm_compute.
Defined.

(** ** Saving from the popup *)

Lemma log_extends_issued (before : list op) (o : op) (w : world) :
  log_extends before w -> log_extends before (issued o w).
Proof.
  intros [more Hm]. exists (more ++ [o])%list. cbn. by rewrite Hm, app_assoc.
Qed.

(** Closes the goal that a computation only adds to the log. *)
Ltac log_grows :=
  preserves_steps ltac:(apply preserves_call; [apply log_extends_issued|]).

Lemma handleMessage_log (before : list op) (msg : value) :
  preserves (log_extends before) (Service.handleMessage msg).
Proof.
  unfold Service.handleMessage, Service.getSettings, Service.updateSettings,
    Service.setSettings, Service.notifyAllTabs, Service.updateAllTabs, Service.injectCSS,
    Service.getEffectiveSettings, Service.removeCSS.
  log_grows.
Qed.

(** The calls [notifyServiceWorker] makes start with the message. *)
Lemma notifyServiceWorker_calls (w : world) :
  exists more,
    calls_since w (snd (Popup.notifyServiceWorker w))
    = RuntimeSendMessage (Service.updateSettings_message (popup_settings w)) :: more.
Proof.
  unfold Popup.notifyServiceWorker.
  assert (forall m : M unit, snd (try_catch m (fun e => throw e) w) = snd (m w)) as ->
    by (intros m; unfold try_catch, throw; by destruct (m w) as [[a|e] w']).
  unfold bind at 1. unfold Popup.this_settings at 1, read. fold (popup_settings w).
  set (msg := Service.updateSettings_message (popup_settings w)).
  assert (log_extends (log w ++ [RuntimeSendMessage msg])
            (snd (Popup.runtime_sendMessage msg w))) as [more Hmore].
  { unfold Popup.runtime_sendMessage, call.
    destruct (next_fault w); [by exists []; rewrite app_nil_r|].
    apply handleMessage_log. by exists []; rewrite app_nil_r. }
  exists more. unfold calls_since, bind.
  destruct (Popup.runtime_sendMessage msg w) as [[r|e] w1]; cbn [snd] in *.
  - assert (log (snd ((if negb (Service.success r)
                       then throw (Error ("Service worker returned error: "
                                   ++ to_string (or (default VUndefined
                                                       (VStr <$> Service.error r))
                                                    (VStr "Unknown error"))))
                       else ret tt) w1)) = log w1) as ->
      by (by destruct (negb (Service.success r))).
    rewrite Hmore, <- app_assoc. by rewrite drop_app_length.
  - rewrite Hmore, <- app_assoc. by rewrite drop_app_length.
Qed.

(** The write and the message [saveSettings] makes, at once or when the
    timer fires. *)
Lemma save_closed (w : world) :
  let save := (current <- Popup.this_settings ;;
               _ <- StorageManager.setSettings current ;;
               try_catch Popup.notifyServiceWorker (fun _ => ret tt))%js in
  fst (save w) = Ok tt
  /\ page (snd (save w)) = page w
  /\ exists more,
       calls_since w (snd (save w))
       = StorageSet (popup_settings w)
         :: RuntimeSendMessage (Service.updateSettings_message (popup_settings w))
         :: more.
Proof.
  cbn zeta.
  assert (keeps page
            (current <- Popup.this_settings ;;
             _ <- StorageManager.setSettings current ;;
             try_catch Popup.notifyServiceWorker (fun _ => ret tt))%js) as Hpage
    by (unfold Popup.this_settings; keeps_steps).
  split; [|split; [apply Hpage|]].
  - unfold bind at 1. unfold Popup.this_settings at 1, read. unfold bind.
    destruct (StorageManager_setSettings_returns (popup_settings w) w) as [b Hb].
    fold (popup_settings w).
    destruct (StorageManager.setSettings (popup_settings w) w) as [r w1].
    cbn [fst] in Hb. subst r. unfold try_catch.
    by destruct (Popup.notifyServiceWorker w1) as [[[]|e] w2].
  - unfold bind at 1. unfold Popup.this_settings at 1, read. fold (popup_settings w).
    unfold bind.
    destruct (StorageManager_setSettings_returns (popup_settings w) w) as [b Hb].
    pose proof (StorageManager_setSettings_closed w (popup_settings w)) as Hc.
    destruct (StorageManager.setSettings (popup_settings w) w) as [r w1].
    cbn [fst] in Hb. subst r.
    assert (log w1 = (log w ++ [StorageSet (popup_settings w)])%list
            /\ popup_settings w1 = popup_settings w) as [Hlog Hsame].
    { destruct (next_fault w); injection Hc as _ ->; [done|].
      unfold persisted. by destruct (serialize _). }
    rewrite snd_try_catch_ret.
    destruct (notifyServiceWorker_calls w1) as [more Hmore].
    exists more. unfold calls_since in *. rewrite Hsame in Hmore.
    assert (log_extends (log w1) (snd (Popup.notifyServiceWorker w1))) as [all Hall].
    { assert (preserves (log_extends (log w1)) Popup.notifyServiceWorker) as Hp.
      { unfold Popup.notifyServiceWorker, Popup.runtime_sendMessage, Popup.this_settings.
        preserves_steps ltac:(first [apply handleMessage_log
                                    | apply preserves_call; [apply log_extends_issued|]]). }
      apply Hp. by exists []; rewrite app_nil_r. }
    rewrite Hall in *. rewrite drop_app_length in Hmore. subst all.
    rewrite Hlog, <- app_assoc. by rewrite drop_app_length.
Qed.

(** The page once a property of the settings has been assigned and the
    pending timer cleared. *)
Lemma assigned_closed (key : string) (v : value) (w : world) (o : gmap string value) :
  popup_settings w = VObj o ->
  exists w0,
    (current <- Popup.this_settings ;;
     updated <- lift (set current key v) ;;
     Popup.mutate_settings updated ;;
     Popup.set_timeout false)%js w = (Ok tt, w0)
    /\ w0 = with_page (page w0) w
    /\ popup_settings w0 = VObj (<[key := v]> o)
    /\ save_pending w0 = false
    /\ currentSite (page w0) = currentSite (page w).
Proof.
  intros Hs. unfold bind, Popup.this_settings, read. fold (popup_settings w).
  rewrite Hs. cbn [lift set]. unfold Popup.mutate_settings, Popup.set_timeout, modify.
  eexists. split; [reflexivity|].
  unfold popup_settings, StorageManager.deref, save_pending in *.
  destruct w as [st tb fs lg ss [d s site t]]. cbn in *.
  by destruct s.
Qed.

Lemma updateGlobalSetting_unfold (key : string) (v : value) (w : world) :
  Popup.updateGlobalSetting key v w
  = try_catch
      (_ <- (current <- Popup.this_settings ;;
             updated <- lift (set current key v) ;;
             Popup.mutate_settings updated ;;
             Popup.set_timeout false) ;;
       if String.eqb key "enabled" then
         current <- Popup.this_settings ;;
         _ <- StorageManager.setSettings current ;;
         try_catch Popup.notifyServiceWorker (fun _ => ret tt)
       else Popup.set_timeout true)%js
      (fun _ => ret tt) w.
Proof.
  unfold Popup.updateGlobalSetting, Popup.saveSettings, try_catch, bind.
  destruct (Popup.this_settings w) as [[current|e] w1]; [|done].
  destruct (lift (set current key v) w1) as [[updated|e] w2]; [|done].
  destruct (Popup.mutate_settings updated w2) as [[[]|e] w3]; [|done].
  by destruct (Popup.set_timeout false w3) as [[[]|e] w4].
Qed.

(** The save, as a step from one world to the next. *)
Lemma save_step (w : world) :
  exists w',
    (current <- Popup.this_settings ;;
     _ <- StorageManager.setSettings current ;;
     try_catch Popup.notifyServiceWorker (fun _ => ret tt))%js w = (Ok tt, w')
    /\ page w' = page w
    /\ exists more,
         calls_since w w'
         = StorageSet (popup_settings w)
           :: RuntimeSendMessage (Service.updateSettings_message (popup_settings w))
           :: more.
Proof.
  destruct (save_closed w) as (Hr & Hp & more & Hc). cbn zeta in *.
  destruct (bind Popup.this_settings _ w) as [r w']. cbn [fst snd] in *. subst r.
  exists w'. split; [done|]. split; [done|]. by exists more.
Qed.

(** A change of the switch, in closed form. *)
Lemma switch_change_closed (key : string) (v : value) (w : world) (o : gmap string value) :
  popup_settings w = VObj o ->
  String.eqb key "enabled" = true ->
  exists w1,
    Popup.updateGlobalSetting key v w = (Ok tt, w1)
    /\ popup_settings w1 = VObj (<[key := v]> o)
    /\ save_pending w1 = false
    /\ exists more,
         calls_since w w1
         = StorageSet (VObj (<[key := v]> o))
           :: RuntimeSendMessage (Service.updateSettings_message (VObj (<[key := v]> o)))
           :: more.
Proof.
  intros Hs Hk. rewrite updateGlobalSetting_unfold.
  destruct (assigned_closed key v w o Hs) as (w0 & Hw0 & Hpage & Hset & Hpend & Hsite).
  unfold try_catch at 1. unfold bind at 1. rewrite Hw0, Hk. cbv beta iota.
  destruct (save_step w0) as (w1 & -> & Hp & more & Hcalls).
  exists w1. split; [done|]. split; [|split].
  - by rewrite (popup_settings_page w0 w1).
  - unfold save_pending in *. by rewrite Hp.
  - exists more. rewrite Hset in Hcalls. rewrite <- Hcalls.
    unfold calls_since. by rewrite Hpage.
Qed.

(** A change of a global setting other than the switch, in closed form. *)
Lemma deferred_change_closed (key : string) (v : value) (w : world) (o : gmap string value) :
  popup_settings w = VObj o ->
  String.eqb key "enabled" = false ->
  exists w1,
    Popup.updateGlobalSetting key v w = (Ok tt, w1)
    /\ w1 = with_page (page w1) w
    /\ popup_settings w1 = VObj (<[key := v]> o)
    /\ save_pending w1 = true.
Proof.
  intros Hs Hk. rewrite updateGlobalSetting_unfold.
  destruct (assigned_closed key v w o Hs) as (w0 & Hw0 & Hpage & Hset & Hpend & Hsite).
  unfold try_catch, bind at 1. rewrite Hw0, Hk. cbv beta iota.
  unfold Popup.set_timeout, modify. eexists. split; [reflexivity|].
  split; [rewrite Hpage; done|]. split; [|done].
  rewrite <- Hset. unfold popup_settings, StorageManager.deref. cbn.
  by destruct (settings (page w0)).
Qed.

(** The timer fires while a save is pending. *)
Lemma timeout_fires_pending (w : world) :
  save_pending w = true ->
  exists w',
    Popup.timeout_fires w = (Ok tt, w')
    /\ save_pending w' = false
    /\ popup_settings w' = popup_settings w
    /\ exists more,
         calls_since w w'
         = StorageSet (popup_settings w)
           :: RuntimeSendMessage (Service.updateSettings_message (popup_settings w))
           :: more.
Proof.
  intros Hp. unfold Popup.timeout_fires, bind at 1. unfold read at 1.
  unfold save_pending in Hp. rewrite Hp.
  unfold bind at 1. unfold Popup.set_timeout, modify.
  set (w0 := with_page _ w).
  assert (popup_settings w0 = popup_settings w) as Hs0
    by (unfold w0, popup_settings, StorageManager.deref; cbn; by destruct (settings (page w))).
  unfold Popup.debounced_save, try_catch at 1.
  destruct (save_step w0) as (w' & -> & Hpage & more & Hcalls).
  exists w'. split; [done|]. split; [|split].
  - unfold save_pending. by rewrite Hpage.
  - by rewrite (popup_settings_page w0 w').
  - exists more. by rewrite <- Hs0, <- Hcalls.
Qed.

Lemma timeout_fires_idle (w : world) :
  save_pending w = false -> Popup.timeout_fires w = (Ok tt, w).
Proof.
  intros Hp. unfold Popup.timeout_fires, bind, read.
  unfold save_pending in Hp. by rewrite Hp.
Qed.

(** X14.  A change of the switch is saved at once, a change of another
    global setting when the timer fires.  [updateGlobalSetting] assigns the
    property and, for [enabled], clears the timer, writes the settings and
    sends them to the service worker before it returns.  For any other key
    it makes no call and changes nothing but the page, where a save is then
    pending; when the timer fires, the settings are written and sent, and a
    second expiry does nothing. *)
Theorem global_changes_are_saved_at_once_or_by_the_timer
        (key : string) (v : value) (w : world) (o : gmap string value) :
  popup_settings w = VObj o ->
  let changed := VObj (<[key := v]> o) in
  let w1 := snd (Popup.updateGlobalSetting key v w) in
  let w2 := snd (Popup.timeout_fires w1) in
  fst (Popup.updateGlobalSetting key v w) = Ok tt
  /\ popup_settings w1 = changed
  /\ (String.eqb key "enabled" = true ->
      save_pending w1 = false
      /\ exists more,
           calls_since w w1
           = StorageSet changed
             :: RuntimeSendMessage (Service.updateSettings_message changed) :: more)
  /\ (String.eqb key "enabled" = false ->
      w1 = with_page (page w1) w
      /\ save_pending w1 = true
      /\ save_pending w2 = false
      /\ Popup.timeout_fires w2 = (Ok tt, w2)
      /\ exists more,
           calls_since w1 w2
           = StorageSet changed
             :: RuntimeSendMessage (Service.updateSettings_message changed) :: more).
Proof.
  intros Hs. cbn zeta.
  destruct (String.eqb key "enabled") eqn:Hk.
  - destruct (switch_change_closed key v w o Hs Hk) as (w1 & -> & Hset & Hp & Hcalls).
    cbn [fst snd]. by repeat split.
  - destruct (deferred_change_closed key v w o Hs Hk) as (w1 & -> & Hpage & Hset & Hp).
    cbn [fst snd]. split; [done|]. split; [done|]. split; [done|]. intros _.
    destruct (timeout_fires_pending w1 Hp) as (w2 & -> & Hp2 & Hs2 & more & Hcalls).
    cbn [snd]. split; [done|]. split; [done|]. split; [done|].
    split; [by apply timeout_fires_idle|].
    exists more. by rewrite <- Hset.
Qed.

Lemma global_changes_are_saved_at_once_or_by_the_timer_witness :
  let w := snd (Popup.start Sample.installed) in
  let w1 := snd (Popup.updateGlobalSetting "visitedColor" (VStr "#ff0000") w) in
  let w2 := snd (Popup.timeout_fires w1) in
  popup_settings w1 = VObj (<["visitedColor" := VStr "#ff0000"]> Sample.custom_record)
  /\ w1 = with_page (page w1) w
  /\ save_pending w1 = true
  /\ save_pending w2 = false
  /\ Popup.timeout_fires w2 = (Ok tt, w2).
Proof.
  cbn zeta.
  assert (popup_settings (snd (Popup.start Sample.installed)) = VObj Sample.custom_record)
    as Hs by (vm_compute; reflexivity).
  destruct (global_changes_are_saved_at_once_or_by_the_timer
              "visitedColor" (VStr "#ff0000") (snd (Popup.start Sample.installed))
              Sample.custom_record Hs) as (_ & Hset & _ & Hlater).
  destruct (Hlater eq_refl) as (Hpage & Hp1 & Hp2 & Hidle & _).
  exact (conj Hset (conj Hpage (conj Hp1 (conj Hp2 Hidle)))).
Defined.

(** X15.  A change of a global setting other than the switch is lost when
    the popup closes before the timer fires: [destroy] clears the timer, so
    from the change on no call is made and the store stays as it was. *)
Theorem closing_the_popup_drops_the_pending_save
        (key : string) (v : value) (w : world) (o : gmap string value) :
  popup_settings w = VObj o ->
  String.eqb key "enabled" = false ->
  let w1 := snd (Popup.updateGlobalSetting key v w) in
  let w2 := snd (Popup.destroy w1) in
  save_pending w1 = true
  /\ save_pending w2 = false
  /\ w2 = with_page (page w2) w
  /\ Popup.timeout_fires w2 = (Ok tt, w2).
Proof.
  intros Hs Hk. cbn zeta.
  destruct (deferred_change_closed key v w o Hs Hk) as (w1 & -> & Hpage & Hset & Hpend).
  cbn [snd]. split; [done|].
  assert (Popup.destroy w1
          = (Ok tt, with_page (Popup (DEFAULT_SETTINGS_object (page w1)) (settings (page w1))
                                     (currentSite (page w1)) false) w1)) as ->.
  { unfold Popup.destroy, bind, read. unfold save_pending in Hpend. by rewrite Hpend. }
  cbn [snd]. split; [done|]. split; [rewrite Hpage; done|].
  by apply timeout_fires_idle.
Qed.

Lemma closing_the_popup_drops_the_pending_save_witness :
  let w := snd (Popup.start Sample.installed) in
  let w1 := snd (Popup.updateGlobalSetting "visitedColor" (VStr "#ff0000") w) in
  let w2 := snd (Popup.destroy w1) in
  save_pending w1 = true
  /\ save_pending w2 = false
  /\ w2 = with_page (page w2) w
  /\ Popup.timeout_fires w2 = (Ok tt, w2).
Proof.
  cbn zeta.
  assert (popup_settings (snd (Popup.start Sample.installed)) = VObj Sample.custom_record)
    as Hs by (vm_compute; reflexivity).
  exact (closing_the_popup_drops_the_pending_save
           "visitedColor" (VStr "#ff0000") (snd (Popup.start Sample.installed))
           Sample.custom_record Hs eq_refl).
Defined.

(** ** Settings of one site *)

Lemma this_settings_bind {B} (k : value -> M B) (w : world) :
  bind Popup.this_settings k w = k (popup_settings w) w.
Proof. done. Qed.

Lemma mutate_settings_bind {B} (v : value) (k : unit -> M B) (w : world) :
  bind (Popup.mutate_settings v) k w = k tt (snd (Popup.mutate_settings v w)).
Proof. done. Qed.

Lemma mutate_settings_pair (v : value) (w : world) :
  Popup.mutate_settings v w = (Ok tt, snd (Popup.mutate_settings v w)).
Proof. done. Qed.

Lemma only_settings_changed_refl (w : world) : only_settings_changed w w.
Proof. by destruct w. Qed.

Lemma only_settings_changed_trans (w1 w2 w3 : world) :
  only_settings_changed w1 w2 -> only_settings_changed w2 w3 ->
  only_settings_changed w1 w3.
Proof.
  intros (H1 & H2 & H3) (H4 & H5 & H6). repeat split; [|congruence|congruence].
  rewrite H4 at 1. by rewrite H1.
Qed.

Lemma mutate_settings_only (v : value) (w : world) :
  only_settings_changed w (snd (Popup.mutate_settings v w)).
Proof.
  unfold Popup.mutate_settings, modify. cbn [snd].
  destruct w as [st tb fs lg ss [d s site t]]. by destruct s.
Qed.

Lemma popup_site_only (w w' : world) :
  only_settings_changed w w' -> popup_site w' = popup_site w.
Proof. intros (_ & H & _). unfold popup_site. by rewrite H. Qed.

Lemma object_or_empty_falsy (v : value) (m : gmap string value) :
  object_or_empty v = Some m -> truthy v = false -> m = ∅.
Proof.
  unfold object_or_empty. intros H Ht. rewrite Ht in H.
  destruct v; try done; congruence.
Qed.

Lemma object_or_empty_truthy (v : value) (m : gmap string value) :
  object_or_empty v = Some m -> truthy v = true -> v = VObj m.
Proof.
  unfold object_or_empty. intros H Ht. rewrite Ht in H.
  destruct v; try done; congruence.
Qed.

(** The first test of [updateSiteSetting]: the map of the sites is made
    where it is missing. *)
Lemma sites_map_closed (w : world) (o m : gmap string value) :
  popup_settings w = VObj o ->
  object_or_empty (own (VObj o) "siteSettings") = Some m ->
  exists wa,
    (if negb (truthy (own (VObj o) "siteSettings"))
     then s <- lift (set (VObj o) "siteSettings" (VObj ∅)) ;; Popup.mutate_settings s
     else ret tt)%js w = (Ok tt, wa)
    /\ only_settings_changed w wa
    /\ popup_settings wa = VObj (<["siteSettings" := VObj m]> o).
Proof.
  intros Hs Hm.
  destruct (truthy (own (VObj o) "siteSettings")) eqn:Ht; cbn [negb].
  - exists w. split; [done|]. split; [apply only_settings_changed_refl|].
    rewrite Hs. f_equal. symmetry. apply insert_id.
    apply object_or_empty_truthy in Hm; [|done].
    cbn [own] in Hm. destruct (o !! "siteSettings"); by cbn in Hm; subst.
  - rewrite (object_or_empty_falsy _ _ Hm Ht). cbn [set]. rewrite bind_lift.
    rewrite mutate_settings_pair.
    eexists. split; [reflexivity|]. split; [apply mutate_settings_only|].
    apply popup_settings_mutated.
Qed.

(** The assignments of [updateSiteSetting], followed by whatever comes
    next, on a site whose name reads the map itself. *)
Lemma site_assigned_closed (key : string) (v : value) (w : world)
      (o m e : gmap string value) :
  popup_settings w = VObj o ->
  object_or_empty (own (VObj o) "siteSettings") = Some m ->
  object_or_empty (own (VObj m) (popup_site w)) = Some e ->
  is_Some (m !! popup_site w) \/ popup_site w ∉ Object_prototype ->
  exists w0,
    (forall (next : M unit),
       (site <- Popup.getCurrentSite ;;
        let currentSite := to_string site in
        s0 <- Popup.this_settings ;;
        all0 <- lift (get s0 "siteSettings") ;;
        (if negb (truthy all0)
         then s <- lift (set s0 "siteSettings" (VObj ∅)) ;; Popup.mutate_settings s
         else ret tt) ;;
        s1 <- Popup.this_settings ;;
        all1 <- lift (get s1 "siteSettings") ;;
        entry1 <- lift (lookup all1 currentSite) ;;
        (if negb (truthy_property entry1)
         then all <- lift (set all1 currentSite (VObj ∅)) ;;
              Popup.mutate_settings (Popup.put_back s1 "siteSettings" all)
         else ret tt) ;;
        s2 <- Popup.this_settings ;;
        all2 <- lift (get s2 "siteSettings") ;;
        entry2 <- lift (lookup all2 currentSite) ;;
        match entry2 with
        | Value entry2 =>
            entry <- lift (set entry2 key v) ;;
            Popup.mutate_settings
              (Popup.put_back s2 "siteSettings" (Popup.put_back all2 currentSite entry))
        | Builtin => ret tt
        end ;;
        next)%js w
       = next w0)
    /\ only_settings_changed w w0
    /\ popup_settings w0 = with_site_setting o m e (popup_site w) key v.
Proof.
  intros Hs Hm He Hown.
  destruct (getCurrentSite_closed w) as (vs & Hvs & Hsite).
  set (site := popup_site w) in *.
  destruct (sites_map_closed w o m Hs Hm) as (wa & Hwa & Hoa & Hsa).
  (* the entry of the site *)
  assert (exists wb,
            (if negb (truthy (own (VObj m) site))
             then all <- lift (set (VObj m) site (VObj ∅)) ;;
                  Popup.mutate_settings
                    (Popup.put_back (VObj (<["siteSettings" := VObj m]> o)) "siteSettings" all)
             else ret tt)%js wa = (Ok tt, wb)
            /\ only_settings_changed wa wb
            /\ popup_settings wb
               = VObj (<["siteSettings" := VObj (<[site := VObj e]> m)]> o))
    as (wb & Hwb & Hob & Hsb).
  { destruct (truthy (own (VObj m) site)) eqn:Ht; cbn [negb].
    - exists wa. split; [done|]. split; [apply only_settings_changed_refl|].
      rewrite Hsa. do 3 f_equal. symmetry. apply insert_id.
      apply object_or_empty_truthy in He; [|done].
      cbn [own] in He. destruct (m !! site); by cbn in He; subst.
    - rewrite (object_or_empty_falsy _ _ He Ht). cbn [set]. rewrite bind_lift.
      rewrite mutate_settings_pair.
      eexists. split; [reflexivity|]. split; [apply mutate_settings_only|].
      rewrite popup_settings_mutated. cbn [Popup.put_back].
      by rewrite insert_insert_eq. }
  exists (snd (Popup.mutate_settings
                 (with_site_setting o m e site key v) wb)).
  split; [|split].
  - intros next.
    unfold bind at 1. rewrite Hvs, Hsite. cbn zeta.
    rewrite this_settings_bind, Hs.
    rewrite (truthy_get (VObj o)) by done. rewrite bind_lift.
    unfold bind at 1. rewrite Hwa.
    rewrite this_settings_bind, Hsa.
    rewrite (truthy_get (VObj _)) by done. rewrite bind_lift.
    cbn [own]. rewrite lookup_insert_eq. cbn [default from_option id].
    rewrite (lookup_object m) by done. rewrite bind_lift.
    cbn [truthy_property].
    fold site. unfold bind at 1. rewrite Hwb.
    rewrite this_settings_bind, Hsb.
    rewrite (truthy_get (VObj _)) by done. rewrite bind_lift.
    cbn [own]. rewrite lookup_insert_eq. cbn [default from_option id].
    rewrite lookup_object by (left; by rewrite lookup_insert_eq). rewrite bind_lift.
    cbn [own]. rewrite lookup_insert_eq. cbn [default from_option id set].
    unfold bind at 1. rewrite bind_lift. rewrite mutate_settings_pair.
    cbn [Popup.put_back]. unfold with_site_setting.
    by rewrite !insert_insert_eq.
  - eapply only_settings_changed_trans; [exact Hoa|].
    eapply only_settings_changed_trans; [exact Hob|apply mutate_settings_only].
  - apply popup_settings_mutated.
Qed.

(** The same on a site that has no entry and whose name the map inherits:
    the map is made where it is missing, and that is all. *)
Lemma site_inherited_closed (key : string) (v : value) (w : world)
      (o m : gmap string value) :
  popup_settings w = VObj o ->
  object_or_empty (own (VObj o) "siteSettings") = Some m ->
  m !! popup_site w = None ->
  popup_site w ∈ Object_prototype ->
  exists w0,
    (forall (next : M unit),
       (site <- Popup.getCurrentSite ;;
        let currentSite := to_string site in
        s0 <- Popup.this_settings ;;
        all0 <- lift (get s0 "siteSettings") ;;
        (if negb (truthy all0)
         then s <- lift (set s0 "siteSettings" (VObj ∅)) ;; Popup.mutate_settings s
         else ret tt) ;;
        s1 <- Popup.this_settings ;;
        all1 <- lift (get s1 "siteSettings") ;;
        entry1 <- lift (lookup all1 currentSite) ;;
        (if negb (truthy_property entry1)
         then all <- lift (set all1 currentSite (VObj ∅)) ;;
              Popup.mutate_settings (Popup.put_back s1 "siteSettings" all)
         else ret tt) ;;
        s2 <- Popup.this_settings ;;
        all2 <- lift (get s2 "siteSettings") ;;
        entry2 <- lift (lookup all2 currentSite) ;;
        match entry2 with
        | Value entry2 =>
            entry <- lift (set entry2 key v) ;;
            Popup.mutate_settings
              (Popup.put_back s2 "siteSettings" (Popup.put_back all2 currentSite entry))
        | Builtin => ret tt
        end ;;
        next)%js w
       = next w0)
    /\ only_settings_changed w w0
    /\ popup_settings w0 = VObj (<["siteSettings" := VObj m]> o).
Proof.
  intros Hs Hm Hnone Hin.
  destruct (getCurrentSite_closed w) as (vs & Hvs & Hsite).
  destruct (sites_map_closed w o m Hs Hm) as (wa & Hwa & Hoa & Hsa).
  exists wa. split; [|done].
  intros next.
  unfold bind at 1. rewrite Hvs, Hsite. cbn zeta.
  rewrite this_settings_bind, Hs.
  rewrite (truthy_get (VObj o)) by done. rewrite bind_lift.
  unfold bind at 1. rewrite Hwa.
  rewrite this_settings_bind, Hsa.
  rewrite (truthy_get (VObj _)) by done. rewrite bind_lift.
  cbn [own]. rewrite lookup_insert_eq. cbn [default from_option id].
  rewrite (lookup_builtin m) by done. rewrite bind_lift.
  cbn [truthy_property negb]. unfold bind at 1. unfold ret at 1.
  rewrite this_settings_bind, Hsa.
  rewrite (truthy_get (VObj _)) by done. rewrite bind_lift.
  cbn [own]. rewrite lookup_insert_eq. cbn [default from_option id].
  rewrite (lookup_builtin m) by done. rewrite bind_lift.
  by unfold bind at 1.
Qed.

Lemma fst_try_catch_ret (m : M unit) (w : world) :
  fst (try_catch m (fun _ => ret tt) w) = Ok tt.
Proof. unfold try_catch. by destruct (m w) as [[[]|e] w']. Qed.

Lemma set_timeout_keeps_settings (pending : bool) :
  keeps popup_settings (Popup.set_timeout pending).
Proof.
  apply keeps_modify. intros w. unfold popup_settings, StorageManager.deref.
  cbn. by destruct (settings (page w)).
Qed.

Lemma saveSettings_keeps_settings (key : string) :
  keeps popup_settings (Popup.saveSettings key).
Proof.
  unfold Popup.saveSettings, Popup.this_settings.
  keeps_steps; apply set_timeout_keeps_settings.
Qed.

Lemma saveSettings_keeps_site (key : string) :
  keeps popup_site (Popup.saveSettings key).
Proof. unfold Popup.saveSettings, Popup.this_settings. keeps_steps. Qed.


Lemma updateSiteSetting_closed (key : string) (v : value) (w : world)
      (o m e : gmap string value) :
  popup_settings w = VObj o ->
  object_or_empty (own (VObj o) "siteSettings") = Some m ->
  object_or_empty (own (VObj m) (popup_site w)) = Some e ->
  is_Some (m !! popup_site w) \/ popup_site w ∉ Object_prototype ->
  exists w0,
    only_settings_changed w w0
    /\ popup_settings w0 = with_site_setting o m e (popup_site w) key v
    /\ fst (Popup.updateSiteSetting key v w) = Ok tt
    /\ snd (Popup.updateSiteSetting key v w) = snd (Popup.saveSettings key w0).
Proof.
  intros Hs Hm He Hown.
  destruct (site_assigned_closed key v w o m e Hs Hm He Hown) as (w0 & Hw0 & Honly & Hset).
  exists w0. split; [done|]. split; [done|].
  split; [apply fst_try_catch_ret|].
  unfold Popup.updateSiteSetting. rewrite snd_try_catch_ret.
  exact (f_equal snd (Hw0 (Popup.saveSettings key))).
Qed.

Lemma updateSiteSetting_settings (key : string) (v : value) (w : world)
      (o m e : gmap string value) :
  popup_settings w = VObj o ->
  object_or_empty (own (VObj o) "siteSettings") = Some m ->
  object_or_empty (own (VObj m) (popup_site w)) = Some e ->
  is_Some (m !! popup_site w) \/ popup_site w ∉ Object_prototype ->
  popup_settings (snd (Popup.updateSiteSetting key v w))
  = with_site_setting o m e (popup_site w) key v
  /\ popup_site (snd (Popup.updateSiteSetting key v w)) = popup_site w.
Proof.
  intros Hs Hm He Hown.
  destruct (updateSiteSetting_closed key v w o m e Hs Hm He Hown)
    as (w0 & Honly & Hset & _ & ->).
  rewrite saveSettings_keeps_settings, saveSettings_keeps_site.
  split; [done|by apply popup_site_only].
Qed.

Lemma updateSiteSetting_inherited (key : string) (v : value) (w : world)
      (o m : gmap string value) :
  popup_settings w = VObj o ->
  object_or_empty (own (VObj o) "siteSettings") = Some m ->
  m !! popup_site w = None ->
  popup_site w ∈ Object_prototype ->
  popup_settings (snd (Popup.updateSiteSetting key v w))
  = VObj (<["siteSettings" := VObj m]> o)
  /\ popup_site (snd (Popup.updateSiteSetting key v w)) = popup_site w.
Proof.
  intros Hs Hm Hnone Hin.
  destruct (site_inherited_closed key v w o m Hs Hm Hnone Hin) as (w0 & Hw0 & Honly & Hset).
  assert (snd (Popup.updateSiteSetting key v w) = snd (Popup.saveSettings key w0)) as ->.
  { unfold Popup.updateSiteSetting. rewrite snd_try_catch_ret.
    exact (f_equal snd (Hw0 (Popup.saveSettings key))). }
  rewrite saveSettings_keeps_settings, saveSettings_keeps_site.
  split; [done|by apply popup_site_only].
Qed.

(** The entry of a site in a record with that entry set. *)
Lemma entry_of_with_site_setting (o m e : gmap string value) (site key : string) (v : value) :
  entry_of (with_site_setting o m e site key v) site = VObj (<[key := v]> e).
Proof.
  unfold entry_of, with_site_setting. cbn [own]. rewrite lookup_insert_eq.
  cbn [default from_option id get_opt own]. by rewrite lookup_insert_eq.
Qed.

Lemma other_site_with_site_setting (o m e : gmap string value) (site key other : string)
      (v : value) :
  other <> site ->
  get_opt (own (with_site_setting o m e site key v) "siteSettings") other
  = own (VObj m) other.
Proof.
  intros Hne. unfold with_site_setting. cbn [own]. rewrite lookup_insert_eq.
  cbn [default from_option id get_opt own]. by rewrite lookup_insert_ne.
Qed.

(** A site without an entry resolves as one with an empty entry. *)
Lemma entry_of_object_or_empty (o m e : gmap string value) (site : string) :
  object_or_empty (own (VObj o) "siteSettings") = Some m ->
  object_or_empty (own (VObj m) site) = Some e ->
  entry_of (VObj o) site = VObj e
  \/ (e = ∅ /\ truthy (entry_of (VObj o) site) = true
      /\ forall k, own (entry_of (VObj o) site) k = VUndefined).
Proof.
  intros Hm He. unfold entry_of.
  destruct (truthy (own (VObj o) "siteSettings")) eqn:Ht.
  - rewrite (object_or_empty_truthy _ _ Hm Ht). cbn [get_opt].
    destruct (truthy (own (VObj m) site)) eqn:Ht'.
    + left. rewrite (object_or_empty_truthy _ _ He Ht'). done.
    + right. unfold or. rewrite Ht'.
      split; [by apply (object_or_empty_falsy _ _ He)|done].
  - right. split.
    + rewrite (object_or_empty_falsy _ _ Hm Ht) in He. by injection He.
    + assert (truthy (get_opt (own (VObj o) "siteSettings") site) = false) as Hg.
      { destruct (own (VObj o) "siteSettings") as [| |b|n|s|x]; try done.
        cbn in Ht. apply negb_false_iff in Ht. apply String.eqb_eq in Ht. subst s.
        cbn. by destruct (String.eqb site "length"). }
      unfold or. by rewrite Hg.
Qed.

(** A primitive reads its own properties where no prototype of its
    defines the name. *)
Lemma lookup_not_inherited (p : value) (k : string) :
  truthy p = true -> inherits p k = false -> lookup p k = Ok (Value (own p k)).
Proof.
  intros Ht Hin. unfold lookup. rewrite Hin, andb_false_r. by destruct p.
Qed.

(** X16.  [updateSiteSetting] never throws.  On a site that has an entry,
    or whose name no prototype defines, it sets the key in the entry of the
    site, creating the map of the sites and the entry where they are
    missing or falsy; every other key of the entry, the entry of every
    other site and every other property of the settings stay as they were.
    On a site without an entry whose name [Object.prototype] defines
    ([constructor], [__proto__], ...), no entry is made and nothing is
    filed under the site.  Where the map is a truthy primitive that does
    not inherit the name, or the entry is a truthy primitive, the
    assignment throws and nothing is changed. *)
Theorem site_changes_touch_one_entry (key : string) (v : value) (w : world)
        (o : gmap string value) :
  popup_settings w = VObj o ->
  let site := popup_site w in
  let w' := snd (Popup.updateSiteSetting key v w) in
  fst (Popup.updateSiteSetting key v w) = Ok tt
  /\ (forall m e,
        object_or_empty (own (VObj o) "siteSettings") = Some m ->
        object_or_empty (own (VObj m) site) = Some e ->
        is_Some (m !! site) \/ site ∉ Object_prototype ->
        popup_settings w' = with_site_setting o m e site key v
        /\ popup_site w' = site
        /\ own (entry_of (popup_settings w') site) key = v
        /\ (forall k, k <> key ->
              own (entry_of (popup_settings w') site) k = own (VObj e) k)
        /\ (forall other, other <> site ->
              get_opt (own (popup_settings w') "siteSettings") other = own (VObj m) other)
        /\ (forall k, k <> "siteSettings" ->
              own (popup_settings w') k = own (VObj o) k))
  /\ (forall m,
        object_or_empty (own (VObj o) "siteSettings") = Some m ->
        m !! site = None ->
        site ∈ Object_prototype ->
        popup_settings w' = VObj (<["siteSettings" := VObj m]> o)
        /\ popup_site w' = site
        /\ own (own (popup_settings w') "siteSettings") site = VUndefined)
  /\ (object_or_empty (own (VObj o) "siteSettings") = None ->
      inherits (own (VObj o) "siteSettings") site = false ->
      Popup.updateSiteSetting key v w = (Ok tt, w))
  /\ (forall m,
        own (VObj o) "siteSettings" = VObj m ->
        object_or_empty (own (VObj m) site) = None ->
        Popup.updateSiteSetting key v w = (Ok tt, w)).
Proof.
  intros Hs. cbn zeta. split; [apply fst_try_catch_ret|]. split; [|split; [|split]].
  - intros m e Hm He Hown.
    destruct (updateSiteSetting_settings key v w o m e Hs Hm He Hown) as [-> ->].
    split; [done|]. split; [done|].
    rewrite entry_of_with_site_setting. cbn [own].
    split; [by rewrite lookup_insert_eq|].
    split; [intros k Hk; by rewrite lookup_insert_ne|].
    split; [intros other Hother; by apply other_site_with_site_setting|].
    intros k Hk. unfold with_site_setting. cbn [own]. by rewrite lookup_insert_ne.
  - intros m Hm Hnone Hin.
    destruct (updateSiteSetting_inherited key v w o m Hs Hm Hnone Hin) as [-> ->].
    split; [done|]. split; [done|].
    cbn [own]. rewrite lookup_insert_eq. cbn [default from_option id own].
    by rewrite Hnone.
  - intros Hnone Hin.
    destruct (getCurrentSite_closed w) as (vs & Hvs & Hsite).
    unfold Popup.updateSiteSetting, try_catch.
    unfold bind at 1. rewrite Hvs, Hsite. cbn zeta.
    rewrite this_settings_bind, Hs.
    rewrite (truthy_get (VObj o)) by done. rewrite bind_lift.
    unfold object_or_empty in Hnone.
    destruct (truthy (own (VObj o) "siteSettings")) eqn:Ht;
      [|by destruct (own (VObj o) "siteSettings")].
    cbn [negb]. unfold bind at 1. cbn [ret].
    rewrite this_settings_bind, Hs.
    rewrite (truthy_get (VObj o)) by done. rewrite bind_lift.
    rewrite lookup_not_inherited by done. rewrite bind_lift.
    destruct (truthy_property (Value (own (own (VObj o) "siteSettings") (popup_site w))))
      eqn:Hentry; cbn [negb].
    + unfold bind at 1. cbn [ret].
      rewrite this_settings_bind, Hs.
      rewrite (truthy_get (VObj o)) by done. rewrite bind_lift.
      rewrite lookup_not_inherited by done. rewrite bind_lift.
      cbn [truthy_property] in Hentry.
      destruct (own (VObj o) "siteSettings") as [| |b|n|s|x]; try done.
      cbn [own] in *.
      destruct (String.eqb (popup_site w) "length"); [by unfold bind, lift|].
      destruct (char_at_key 0 s (popup_site w)); by unfold bind, lift.
    + destruct (own (VObj o) "siteSettings") as [| |b|n|s|x]; try done;
        by unfold bind, lift.
  - intros m Hall Hnone.
    destruct (getCurrentSite_closed w) as (vs & Hvs & Hsite).
    assert (is_Some (m !! popup_site w)) as Hown.
    { unfold object_or_empty in Hnone. cbn [own] in Hnone.
      destruct (m !! popup_site w); [eauto|done]. }
    unfold Popup.updateSiteSetting, try_catch.
    unfold bind at 1. rewrite Hvs, Hsite. cbn zeta.
    rewrite this_settings_bind, Hs.
    rewrite (truthy_get (VObj o)) by done. rewrite bind_lift, Hall.
    cbn [truthy negb]. unfold bind at 1. cbn [ret].
    rewrite this_settings_bind, Hs.
    rewrite (truthy_get (VObj o)) by done. rewrite bind_lift, Hall.
    rewrite (lookup_object m) by (by left). rewrite bind_lift.
    unfold object_or_empty in Hnone. cbn [truthy_property].
    destruct (truthy (own (VObj m) (popup_site w))) eqn:Ht;
      [|by destruct (own (VObj m) (popup_site w))].
    cbn [negb]. unfold bind at 1. cbn [ret].
    rewrite this_settings_bind, Hs.
    rewrite (truthy_get (VObj o)) by done. rewrite bind_lift, Hall.
    rewrite (lookup_object m) by (by left). rewrite bind_lift.
    destruct (own (VObj m) (popup_site w)); try done; by unfold bind, lift.
Qed.

Lemma site_changes_touch_one_entry_witness :
  let w := snd (Popup.start Sample.installed) in
  let w' := snd (Popup.updateSiteSetting "enabled" (VBool false) w) in
  own (entry_of (popup_settings w') (popup_site w)) "enabled" = VBool false
  /\ own (entry_of (popup_settings w') (popup_site w)) "visitedColor"
     = own (VObj Sample.custom_entry) "visitedColor"
  /\ own (popup_settings w') "visitedColor" = own (VObj Sample.custom_record) "visitedColor".
Proof.
  cbn zeta.
  assert (popup_settings (snd (Popup.start Sample.installed)) = VObj Sample.custom_record)
    as Hs by (vm_compute; reflexivity).
  destruct (site_changes_touch_one_entry
              "enabled" (VBool false) (snd (Popup.start Sample.installed))
              Sample.custom_record Hs) as (_ & Hset & _).
  destruct (Hset Sample.custom_sites Sample.custom_entry)
    as (_ & _ & Hkey & Hkeys & _ & Hglobal);
    [vm_compute; reflexivity|vm_compute; reflexivity|
     left; apply (bool_decide_unpack _); by vm_compute|].
  exact (conj Hkey (conj (Hkeys "visitedColor" ltac:(discriminate))
                         (Hglobal "visitedColor" ltac:(discriminate)))).
Defined.

(** On [http://constructor/] the name of the site reads [Object] in the map
    of the sites: no colour is filed under the site, which follows the
    global colour. *)
Example site_named_constructor :
  let opened := snd (Popup.start Sample.on_constructor) in
  let custom := snd (Popup.useCustomColor_change true opened) in
  let typed := snd (Popup.siteColorPicker_input "#123456" custom) in
  let changed := snd (Popup.globalColorPicker_input "#ff0000" typed) in
  popup_site opened = "constructor"
  /\ popup_settings typed = default_record
  /\ save_pending typed = true
  /\ Service.resolve (popup_settings changed) "constructor"
     = Ok (Service.Effective (VStr "#ff0000") (VBool true)).
Proof. cbv zeta. repeat split; vm_compute; reflexivity. Qed.

(** ** A colour of its own for a site *)

(** The pair the resolver forms depends on the record through four reads. *)
Lemma resolve_by_reads (o1 o2 : gmap string value) (site : string) :
  own (VObj o1) "enabled" = own (VObj o2) "enabled" ->
  own (VObj o1) "visitedColor" = own (VObj o2) "visitedColor" ->
  own (entry_of (VObj o1) site) "enabled" = own (entry_of (VObj o2) site) "enabled" ->
  own (entry_of (VObj o1) site) "visitedColor"
  = own (entry_of (VObj o2) site) "visitedColor" ->
  Service.resolve (VObj o1) site = Service.resolve (VObj o2) site.
Proof. intros H1 H2 H3 H4. rewrite !resolve_object. by rewrite H1, H2, H3, H4. Qed.

Lemma useCustomColor_on_settings (w : world) (o m e : gmap string value) :
  popup_settings w = VObj o ->
  object_or_empty (own (VObj o) "siteSettings") = Some m ->
  object_or_empty (own (VObj m) (popup_site w)) = Some e ->
  is_Some (m !! popup_site w) \/ popup_site w ∉ Object_prototype ->
  popup_settings (snd (Popup.useCustomColor_change true w))
  = with_site_setting o m e (popup_site w) "visitedColor" (own (VObj o) "visitedColor")
  /\ popup_site (snd (Popup.useCustomColor_change true w)) = popup_site w.
Proof.
  intros Hs Hm He Hown. unfold Popup.useCustomColor_change.
  rewrite this_settings_bind, Hs.
  rewrite (truthy_get (VObj o)) by done. rewrite bind_lift.
  by apply updateSiteSetting_settings.
Qed.

Lemma useCustomColor_on_inherited (w : world) (o m : gmap string value) :
  popup_settings w = VObj o ->
  object_or_empty (own (VObj o) "siteSettings") = Some m ->
  m !! popup_site w = None ->
  popup_site w ∈ Object_prototype ->
  popup_settings (snd (Popup.useCustomColor_change true w))
  = VObj (<["siteSettings" := VObj m]> o)
  /\ popup_site (snd (Popup.useCustomColor_change true w)) = popup_site w.
Proof.
  intros Hs Hm Hnone Hin. unfold Popup.useCustomColor_change.
  rewrite this_settings_bind, Hs.
  rewrite (truthy_get (VObj o)) by done. rewrite bind_lift.
  by apply updateSiteSetting_inherited.
Qed.

(** [removeSiteSetting] on a site without an entry whose name the map
    inherits: the settings stay as they are. *)
Lemma removeSiteSetting_inherited (key : string) (w : world) (o m : gmap string value) :
  popup_settings w = VObj o ->
  o !! "siteSettings" = Some (VObj m) ->
  m !! popup_site w = None ->
  popup_site w ∈ Object_prototype ->
  popup_settings (snd (Popup.removeSiteSetting key w)) = VObj o.
Proof.
  intros Hs Ho Hnone Hin.
  unfold Popup.removeSiteSetting. rewrite snd_try_catch_ret.
  destruct (getCurrentSite_closed w) as (v & Hv & Hsite).
  unfold bind at 1. rewrite Hv, Hsite.
  unfold bind at 1. unfold Popup.this_settings at 1, read.
  fold (popup_settings w). rewrite Hs.
  rewrite (truthy_get (VObj o)) by done. rewrite bind_lift.
  cbn [own]. rewrite Ho. cbn [default from_option id truthy].
  rewrite (lookup_builtin m) by done. rewrite bind_lift.
  cbn [truthy_property]. unfold bind at 1. unfold ret at 1.
  rewrite <- Hs. apply popup_settings_page.
  assert (keeps page
            (s1 <- Popup.this_settings ;;
             _ <- StorageManager.setSettings s1 ;;
             Popup.notifyServiceWorker)%js) as Hkeep.
  { unfold Popup.this_settings. keeps_steps. }
  apply Hkeep.
Qed.

(** Making the map of the sites where it was missing changes no entry the
    resolver reads. *)
Lemma entry_of_map_made (o m : gmap string value) (site : string) :
  object_or_empty (own (VObj o) "siteSettings") = Some m ->
  entry_of (VObj (<["siteSettings" := VObj m]> o)) site = entry_of (VObj o) site.
Proof.
  intros Hm. unfold entry_of.
  assert (own (VObj (<["siteSettings" := VObj m]> o)) "siteSettings" = VObj m) as ->
    by (cbn [own]; by rewrite lookup_insert_eq).
  remember (own (VObj o) "siteSettings") as all eqn:Hall. clear Hall.
  destruct (truthy all) eqn:Ht.
  - by rewrite (object_or_empty_truthy _ _ Hm Ht).
  - rewrite (object_or_empty_falsy _ _ Hm Ht). cbn [get_opt own].
    rewrite lookup_empty.
    destruct all as [| |b|n|s|y]; try done.
    cbn in Ht. apply negb_false_iff, String.eqb_eq in Ht. subst s.
    cbn. by destruct (String.eqb site "length").
Qed.

(** X17.  Turning the custom colour on files the global colour of that
    moment under the site, where the site has an entry or its name is none
    that [Object.prototype] defines: the resolver returns it for the site
    from then on, also after the global colour has been changed.  On a site
    without an entry whose name [Object.prototype] defines, nothing is
    filed under the site. *)
Theorem custom_colour_holds_against_global_changes
        (w : world) (o m e : gmap string value) (c : value) :
  popup_settings w = VObj o ->
  object_or_empty (own (VObj o) "siteSettings") = Some m ->
  object_or_empty (own (VObj m) (popup_site w)) = Some e ->
  is_not_undefined (own (VObj o) "visitedColor") = true ->
  let site := popup_site w in
  let w1 := snd (Popup.useCustomColor_change true w) in
  let w2 := snd (Popup.updateGlobalSetting "visitedColor" c w1) in
  (is_Some (m !! site) \/ site ∉ Object_prototype ->
   own (entry_of (popup_settings w1) site) "visitedColor" = own (VObj o) "visitedColor"
   /\ own (popup_settings w2) "visitedColor" = c
   /\ exists r,
        Service.resolve (popup_settings w2) site = Ok r
        /\ Service.visitedColor r = own (VObj o) "visitedColor")
  /\ (m !! site = None -> site ∈ Object_prototype ->
      popup_settings w2 = VObj (<["visitedColor" := c]> (<["siteSettings" := VObj m]> o))
      /\ own (entry_of (popup_settings w2) site) "visitedColor" = VUndefined).
Proof.
  intros Hs Hm He Hdef. cbn zeta. split.
  - intros Hown.
    destruct (useCustomColor_on_settings w o m e Hs Hm He Hown) as [Hs1 Hsite1].
    set (w1 := snd (Popup.useCustomColor_change true w)) in *.
    unfold with_site_setting in Hs1.
    destruct (deferred_change_closed "visitedColor" c w1 _ Hs1 eq_refl)
      as (w2 & -> & _ & Hs2 & _).
    cbn [snd]. rewrite Hs1, Hs2.
    split; [|split].
    + fold (with_site_setting o m e (popup_site w) "visitedColor"
              (own (VObj o) "visitedColor")).
      rewrite entry_of_with_site_setting. cbn [own]. by rewrite lookup_insert_eq.
    + cbn [own]. by rewrite lookup_insert_eq.
    + rewrite resolve_object. eexists. split; [reflexivity|]. cbn [Service.visitedColor].
      assert (entry_of (VObj (<["visitedColor" := c]>
                                (<["siteSettings" :=
                                     VObj (<[popup_site w :=
                                               VObj (<["visitedColor" :=
                                                         own (VObj o) "visitedColor"]> e)]> m)]>
                                   o))) (popup_site w)
              = VObj (<["visitedColor" := own (VObj o) "visitedColor"]> e)) as ->.
      { unfold entry_of. cbn [own]. rewrite lookup_insert_ne by done.
        rewrite lookup_insert_eq. cbn [default from_option id get_opt own].
        by rewrite lookup_insert_eq. }
      cbn [own]. rewrite lookup_insert_eq. cbn [default from_option id].
      cbn [own] in Hdef. by rewrite Hdef.
  - intros Hnone Hin.
    destruct (useCustomColor_on_inherited w o m Hs Hm Hnone Hin) as [Hs1 Hsite1].
    set (w1 := snd (Popup.useCustomColor_change true w)) in *.
    destruct (deferred_change_closed "visitedColor" c w1 _ Hs1 eq_refl)
      as (w2 & -> & _ & Hs2 & _).
    cbn [snd]. rewrite Hs2. split; [done|].
    unfold entry_of. cbn [own]. rewrite lookup_insert_ne by done.
    rewrite lookup_insert_eq. cbn [default from_option id get_opt own].
    by rewrite Hnone.
Qed.

Lemma custom_colour_holds_against_global_changes_witness :
  let w := snd (Popup.start Sample.example_world) in
  let w1 := snd (Popup.useCustomColor_change true w) in
  let w2 := snd (Popup.updateGlobalSetting "visitedColor" (VStr "#ff0000") w1) in
  own (popup_settings w2) "visitedColor" = VStr "#ff0000"
  /\ exists r,
       Service.resolve (popup_settings w2) (popup_site w) = Ok r
       /\ Service.visitedColor r = own default_record "visitedColor".
Proof.
  cbn zeta.
  assert (popup_settings (snd (Popup.start Sample.example_world)) = default_record)
    as Hs by (vm_compute; reflexivity).
  destruct (custom_colour_holds_against_global_changes
              (snd (Popup.start Sample.example_world))
              {["enabled" := VBool true;
                "visitedColor" := VStr "#551a8b";
                "siteSettings" := VObj ∅]} ∅ ∅ (VStr "#ff0000") Hs)
    as (Hfiled & _);
    [vm_compute; reflexivity|vm_compute; reflexivity|vm_compute; reflexivity|].
  destruct Hfiled as (_ & Hglobal & Hsite).
  { right. apply (bool_decide_unpack _). by vm_compute. }
  exact (conj Hglobal Hsite).
Defined.

(** The entries of the other sites, once the entry of one site is set. *)
Lemma other_entry_unchanged (o m : gmap string value) (x : value) (site other : string) :
  object_or_empty (own (VObj o) "siteSettings") = Some m ->
  other <> site ->
  entry_of (VObj (<["siteSettings" := VObj (<[site := x]> m)]> o)) other
  = entry_of (VObj o) other.
Proof.
  intros Hm Hne. unfold entry_of.
  assert (own (VObj (<["siteSettings" := VObj (<[site := x]> m)]> o)) "siteSettings"
          = VObj (<[site := x]> m)) as ->
    by (cbn [own]; by rewrite lookup_insert_eq).
  remember (own (VObj o) "siteSettings") as all eqn:Hall. clear Hall.
  cbn [get_opt own]. rewrite lookup_insert_ne by done.
  destruct (truthy all) eqn:Ht.
  - by rewrite (object_or_empty_truthy _ _ Hm Ht).
  - rewrite (object_or_empty_falsy _ _ Hm Ht), lookup_empty.
    destruct all as [| |b|n|s|y]; try done.
    cbn in Ht. apply negb_false_iff, String.eqb_eq in Ht. subst s.
    cbn. by destruct (String.eqb other "length").
Qed.

(** X18.  Turning the custom colour on and off again for a site that had no
    colour of its own leaves the settings such that the resolver returns, for
    every site, what it returned before.  Where the site has an entry or its
    name is none that [Object.prototype] defines, the entry of the site may
    have been created, and holds no colour; on a site without an entry whose
    name [Object.prototype] defines, no entry is made. *)
Theorem custom_colour_on_and_off_changes_no_result
        (w : world) (o m e : gmap string value) :
  popup_settings w = VObj o ->
  object_or_empty (own (VObj o) "siteSettings") = Some m ->
  object_or_empty (own (VObj m) (popup_site w)) = Some e ->
  e !! "visitedColor" = None ->
  let w1 := snd (Popup.useCustomColor_change true w) in
  let w2 := snd (Popup.useCustomColor_change false w1) in
  (is_Some (m !! popup_site w) \/ popup_site w ∉ Object_prototype ->
   popup_settings w2 = VObj (<["siteSettings" := VObj (<[popup_site w := VObj e]> m)]> o))
  /\ (m !! popup_site w = None -> popup_site w ∈ Object_prototype ->
      popup_settings w2 = VObj (<["siteSettings" := VObj m]> o))
  /\ own (entry_of (popup_settings w2) (popup_site w)) "visitedColor" = VUndefined
  /\ forall site, Service.resolve (popup_settings w2) site = Service.resolve (VObj o) site.
Proof.
  intros Hs Hm He Hnone. cbn zeta.
  assert (is_Some (m !! popup_site w) \/ popup_site w ∉ Object_prototype ->
          popup_settings (snd (Popup.useCustomColor_change false
                                 (snd (Popup.useCustomColor_change true w))))
          = VObj (<["siteSettings" := VObj (<[popup_site w := VObj e]> m)]> o)) as Hfiled.
  { intros Hown.
    destruct (useCustomColor_on_settings w o m e Hs Hm He Hown) as [Hs1 Hsite1].
    set (w1 := snd (Popup.useCustomColor_change true w)) in *.
    unfold with_site_setting in Hs1.
    unfold Popup.useCustomColor_change.
    rewrite (removeSiteSetting_deletes "visitedColor" w1 _
               (<[popup_site w := VObj (<["visitedColor" := own (VObj o) "visitedColor"]> e)]> m)
               (<["visitedColor" := own (VObj o) "visitedColor"]> e) Hs1);
      [|apply lookup_insert_eq|rewrite Hsite1; apply lookup_insert_eq].
    rewrite Hsite1, !insert_insert_eq, delete_insert_eq.
    by rewrite (delete_id e). }
  assert (m !! popup_site w = None -> popup_site w ∈ Object_prototype ->
          popup_settings (snd (Popup.useCustomColor_change false
                                 (snd (Popup.useCustomColor_change true w))))
          = VObj (<["siteSettings" := VObj m]> o)) as Hnot.
  { intros Hnone' Hin.
    destruct (useCustomColor_on_inherited w o m Hs Hm Hnone' Hin) as [Hs1 Hsite1].
    set (w1 := snd (Popup.useCustomColor_change true w)) in *.
    unfold Popup.useCustomColor_change.
    apply (removeSiteSetting_inherited "visitedColor" w1 _ m Hs1);
      [apply lookup_insert_eq|by rewrite Hsite1|by rewrite Hsite1]. }
  split; [exact Hfiled|]. split; [exact Hnot|].
  assert (entry_of (VObj (<["siteSettings" := VObj (<[popup_site w := VObj e]> m)]> o))
                   (popup_site w) = VObj e) as Hentry.
  { unfold entry_of. cbn [own]. rewrite lookup_insert_eq.
    cbn [default from_option id get_opt own]. by rewrite lookup_insert_eq. }
  destruct (m !! popup_site w) as [x|] eqn:Hx;
    [|destruct (decide (popup_site w ∈ Object_prototype)) as [Hin|Hin]].
  1, 3: rewrite Hfiled by (first [left; by eauto | by right]).
  1, 2: split; [rewrite Hentry; cbn [own]; by rewrite Hnone|].
  1, 2: intros site; apply resolve_by_reads.
  1, 2, 5, 6: cbn [own]; by rewrite lookup_insert_ne.
  1, 2, 3, 4: destruct (decide (site = popup_site w)) as [->|Hne];
    [rewrite Hentry;
     destruct (entry_of_object_or_empty o m e _ Hm He) as [->|(-> & _ & Hall)];
     [done|by rewrite Hall]
    |by rewrite (other_entry_unchanged o m _ _ _ Hm Hne)].
  rewrite Hnot by done. split.
  - unfold entry_of. cbn [own]. rewrite lookup_insert_eq.
    cbn [default from_option id get_opt own]. by rewrite Hx.
  - intros site. apply resolve_by_reads.
    1, 2: cbn [own]; by rewrite lookup_insert_ne.
    1, 2: by rewrite (entry_of_map_made o m _ Hm).
Qed.

Lemma custom_colour_on_and_off_changes_no_result_witness :
  let w := snd (Popup.start Sample.example_world) in
  let w1 := snd (Popup.useCustomColor_change true w) in
  let w2 := snd (Popup.useCustomColor_change false w1) in
  own (entry_of (popup_settings w2) (popup_site w)) "visitedColor" = VUndefined
  /\ forall site,
       Service.resolve (popup_settings w2) site
       = Service.resolve (VObj {["enabled" := VBool true;
                                 "visitedColor" := VStr "#551a8b";
                                 "siteSettings" := VObj ∅]}) site.
Proof.
  cbn zeta.
  assert (popup_settings (snd (Popup.start Sample.example_world)) = default_record)
    as Hs by (vm_compute; reflexivity).
  destruct (custom_colour_on_and_off_changes_no_result
              (snd (Popup.start Sample.example_world))
              {["enabled" := VBool true;
                "visitedColor" := VStr "#551a8b";
                "siteSettings" := VObj ∅]} ∅ ∅ Hs)
    as (_ & _ & Hcolor & Hall);
    [vm_compute; reflexivity|vm_compute; reflexivity|apply lookup_empty|].
  exact (conj Hcolor Hall).
Defined.

(** On such a site the switch, when released, still finds the inherited
    object under the name of the site: nothing leaves the settings, and
    they are written to the store and sent to the service worker. *)
Example site_named_constructor_released :
  let opened := snd (Popup.start Sample.on_constructor) in
  let released := snd (Popup.useCustomColor_change false opened) in
  popup_settings released = default_record
  /\ storage released !! SETTINGS_KEY = Some default_record
  /\ take 2 (calls_since opened released)
     = [StorageSet default_record;
        RuntimeSendMessage (Service.updateSettings_message default_record)].
Proof. cbv zeta. repeat split; vm_compute; reflexivity. Qed.

(** ** The site of the popup *)

Lemma getCurrentSiteInfo_site (w : world) :
  currentSite (page (snd (Popup.getCurrentSiteInfo w)))
  = match next_fault w with
    | Some _ => VStr "Unknown"
    | None =>
        match List.filter tab_active (tabs w) with
        | t :: _ =>
            if truthy (url_value t) then
              match URL.parse (to_string (url_value t)) with
              | Some u => VStr (URL.hostname u)
              | None => VStr "Unknown"
              end
            else currentSite (page w)
        | [] => currentSite (page w)
        end
    end.
Proof.
  unfold Popup.getCurrentSiteInfo, try_catch, bind at 1.
  unfold tabs_query_active, call, read.
  destruct (next_fault w); [done|].
  change (tabs (issued TabsQueryActive w)) with (tabs w).
  destruct (List.filter tab_active (tabs w)) as [|t rest]; [done|].
  destruct (truthy (url_value t)); [|done].
  unfold bind, lift, new_URL.
  by destruct (URL.parse (to_string (url_value t))).
Qed.

Lemma Popup_start_site (w : world) :
  currentSite (page (snd (Popup.start w)))
  = match second_fault w with
    | Some _ => VStr "Unknown"
    | None =>
        match List.filter tab_active (tabs w) with
        | t :: _ =>
            if truthy (url_value t) then
              match URL.parse (to_string (url_value t)) with
              | Some u => VStr (URL.hostname u)
              | None => VStr "Unknown"
              end
            else VNull
        | [] => VNull
        end
    end.
Proof.
  unfold Popup.start, Popup.init.
  unfold bind at 1. unfold modify at 1.
  rewrite snd_try_catch_ret. unfold bind. rewrite loadSettings_closed.
  rewrite getCurrentSiteInfo_site. done.
Qed.

(** X19.  The key under which the popup files the settings of its site is
    the host name of the first active tab, where that tab has an address that
    parses and the host name is not empty.  It is [unknown] where there is no
    active tab, where the tab has no address, and where the host name is empty
    (a local file, [about:blank]); it is [Unknown] where the query for the tab
    fails or the address does not parse. *)
Theorem the_site_of_the_popup (w : world) :
  let site := popup_site (snd (Popup.start w)) in
  (is_Some (second_fault w) -> site = "Unknown")
  /\ (second_fault w = None ->
      List.filter tab_active (tabs w) = [] ->
      site = "unknown")
  /\ (forall t rest,
        second_fault w = None ->
        List.filter tab_active (tabs w) = t :: rest ->
        (truthy (url_value t) = false -> site = "unknown")
        /\ (truthy (url_value t) = true ->
            URL.parse (to_string (url_value t)) = None ->
            site = "Unknown")
        /\ (forall u,
              truthy (url_value t) = true ->
              URL.parse (to_string (url_value t)) = Some u ->
              site = if String.eqb (URL.hostname u) "" then "unknown"
                     else URL.hostname u)).
Proof.
  cbn zeta. unfold popup_site. rewrite Popup_start_site.
  split; [|split].
  - by intros [e ->].
  - by intros -> ->.
  - intros t rest -> ->. split; [by intros ->|]. split.
    + by intros -> ->.
    + intros u -> ->. unfold or. cbn [truthy].
      by destruct (String.eqb (URL.hostname u) "").
Qed.

Lemma the_site_of_the_popup_witness :
  popup_site (snd (Popup.start Sample.example_world)) = "example.com"
  /\ popup_site (snd (Popup.start Sample.on_a_local_file)) = "unknown"
  /\ popup_site (snd (Popup.start
                        (with_faults [None; Some (Error "No current window")]
                                     Sample.example_world)))
     = "Unknown".
Proof.
  destruct (the_site_of_the_popup Sample.example_world) as (_ & _ & H1).
  destruct (H1 Sample.example_tab [] eq_refl eq_refl) as (_ & _ & Hhost).
  destruct (the_site_of_the_popup Sample.on_a_local_file) as (_ & _ & H2).
  destruct (H2 Sample.local_file_tab [] eq_refl eq_refl) as (_ & _ & Hfile).
  destruct (the_site_of_the_popup
              (with_faults [None; Some (Error "No current window")] Sample.example_world))
    as (Hfails & _).
  split; [exact (Hhost (URL.Make "https:" "example.com") eq_refl eq_refl)|].
  split; [exact (Hfile (URL.Make "file:" "") eq_refl eq_refl)|].
  apply Hfails. by eexists.
Defined.

(** ** The defaults and the popup *)

Lemma Popup_start_binding (w : world) :
  settings (page (snd (Popup.start w)))
  = match next_fault w with
    | Some _ => TheDefaults
    | None => StorageManager.or_DEFAULT_SETTINGS (stored_settings w)
    end
  /\ DEFAULT_SETTINGS_object (page (snd (Popup.start w))) = StorageManager.DEFAULT_SETTINGS.
Proof.
  assert (keeps (fun w => settings (page w)) Popup.getCurrentSiteInfo) as Hb
    by (unfold Popup.getCurrentSiteInfo, Popup.set_currentSite; keeps_steps).
  assert (keeps (fun w => DEFAULT_SETTINGS_object (page w)) Popup.getCurrentSiteInfo) as Hd
    by (unfold Popup.getCurrentSiteInfo, Popup.set_currentSite; keeps_steps).
  split.
  - unfold Popup.start, Popup.init.
    unfold bind at 1. unfold modify at 1.
    rewrite snd_try_catch_ret. unfold bind. rewrite loadSettings_closed.
    by rewrite Hb.
  - unfold Popup.start, Popup.init.
    unfold bind at 1. unfold modify at 1.
    rewrite snd_try_catch_ret. unfold bind. rewrite loadSettings_closed.
    by rewrite Hd.
Qed.

Lemma updateGlobalSetting_binding (key : string) (v : value) :
  preserves (fun w => settings (page w) = TheDefaults) (Popup.updateGlobalSetting key v).
Proof.
  unfold Popup.updateGlobalSetting, Popup.saveSettings, Popup.this_settings,
    Popup.set_timeout, Popup.mutate_settings.
  preserves_steps ltac:(apply preserves_modify; intros ? HI; cbv zeta; by rewrite HI).
Qed.

Lemma updateGlobalSetting_settings (key : string) (v : value) (w : world)
      (o : gmap string value) :
  popup_settings w = VObj o ->
  popup_settings (snd (Popup.updateGlobalSetting key v w)) = VObj (<[key := v]> o).
Proof.
  intros Hs. destruct (String.eqb key "enabled") eqn:Hk.
  - by destruct (switch_change_closed key v w o Hs Hk) as (w1 & -> & Hset & _).
  - by destruct (deferred_change_closed key v w o Hs Hk) as (w1 & -> & _ & Hset & _).
Qed.

(** X20.  Where the store holds no settings or cannot be read, the popup
    holds the [DEFAULT_SETTINGS] object of the storage module itself, not a
    copy: a global setting changed in the popup is changed in that object,
    and [StorageManager.getSettings] then returns the changed value as the
    default. *)
Theorem the_defaults_are_changed_through_the_popup (key : string) (v : value) (w : world) :
  storage w !! SETTINGS_KEY = None \/ is_Some (next_fault w) ->
  let w1 := snd (Popup.start w) in
  let w2 := snd (Popup.updateGlobalSetting key v w1) in
  DEFAULT_SETTINGS_object (page w1) = default_record
  /\ settings (page w1) = TheDefaults
  /\ own (DEFAULT_SETTINGS_object (page w2)) key = v
  /\ (forall w3,
        page w3 = page w2 ->
        storage w3 !! SETTINGS_KEY = None \/ is_Some (next_fault w3) ->
        exists ref,
          fst (StorageManager.getSettings w3) = Ok ref
          /\ own (StorageManager.deref ref (snd (StorageManager.getSettings w3))) key = v).
Proof.
  intros Hw. cbn zeta.
  destruct (Popup_start_binding w) as [Hb Hd].
  assert (settings (page (snd (Popup.start w))) = TheDefaults) as Hb1.
  { rewrite Hb. destruct Hw as [Hnone|[e ->]]; [|done].
    unfold stored_settings. rewrite Hnone. by destruct (next_fault w). }
  set (w1 := snd (Popup.start w)) in *.
  assert (popup_settings w1 = default_record) as Hs1.
  { unfold popup_settings, StorageManager.deref. rewrite Hb1, Hd.
    apply default_record_is_DEFAULT_SETTINGS. }
  pose proof (updateGlobalSetting_settings key v w1 _ Hs1) as Hs2.
  pose proof (updateGlobalSetting_binding key v w1 Hb1) as Hb2. cbn beta in Hb2.
  set (w2 := snd (Popup.updateGlobalSetting key v w1)) in *.
  assert (DEFAULT_SETTINGS_object (page w2)
          = VObj (<[key := v]> {["enabled" := VBool true;
                                 "visitedColor" := VStr "#551a8b";
                                 "siteSettings" := VObj ∅]})) as Hd2.
  { rewrite <- Hs2. unfold popup_settings, StorageManager.deref. by rewrite Hb2. }
  split; [rewrite Hd; apply default_record_is_DEFAULT_SETTINGS|].
  split; [done|]. split.
  - rewrite Hd2. cbn [own]. by rewrite lookup_insert_eq.
  - intros w3 Hpage Hw3. rewrite StorageManager_getSettings_closed. cbn [fst snd].
    eexists. split; [reflexivity|].
    assert (match next_fault w3 with
            | Some _ => TheDefaults
            | None => StorageManager.or_DEFAULT_SETTINGS (stored_settings w3)
            end = TheDefaults) as ->.
    { destruct Hw3 as [Hnone|[e ->]]; [|done].
      unfold stored_settings. rewrite Hnone. by destruct (next_fault w3). }
    unfold StorageManager.deref.
    change (page (issued StorageGet w3)) with (page w3).
    rewrite Hpage, Hd2. cbn [own]. by rewrite lookup_insert_eq.
Qed.

Lemma the_defaults_are_changed_through_the_popup_witness :
  let w1 := snd (Popup.start Sample.example_world) in
  let w2 := snd (Popup.updateGlobalSetting "visitedColor" (VStr "#ff0000") w1) in
  DEFAULT_SETTINGS_object (page w1) = default_record
  /\ own (DEFAULT_SETTINGS_object (page w2)) "visitedColor" = VStr "#ff0000".
Proof.
  cbn zeta.
  destruct (the_defaults_are_changed_through_the_popup
              "visitedColor" (VStr "#ff0000") Sample.example_world)
    as (H1 & _ & H2 & _); [by left|].
  exact (conj H1 H2).
Defined.

(** ** From the switch in the popup to the tabs *)

Lemma notifyServiceWorker_closed (w : world) (current : gmap string value) :
  popup_settings w = VObj current ->
  next_fault w = None ->
  Popup.notifyServiceWorker w
  = (Ok tt,
     snd (Service.updateSettings (VObj (omap serialize current))
            (issued (RuntimeSendMessage (Service.updateSettings_message (VObj current))) w))).
Proof.
  intros Hs Hf.
  unfold Popup.notifyServiceWorker, try_catch.
  unfold bind at 1. unfold Popup.this_settings at 1, read.
  fold (popup_settings w). rewrite Hs.
  unfold bind at 1. unfold Popup.runtime_sendMessage.
  rewrite call_resolves by done.
  destruct (received_update current) as [Ha Hp].
  by rewrite (handleMessage_update _ _ _ Ha Hp).
Qed.

(** Under a record whose switch is off, every page gets the resetting
    sheet. *)
Lemma sheet_for_switched_off (settings : gmap string value) (t : tab) :
  settings !! "enabled" = Some (VBool false) ->
  sheet_for (effective_of (VObj settings) t) = Service.resetCSS.
Proof.
  intros He. unfold effective_of.
  assert (sheet_for (global_settings (VObj settings)) = Service.resetCSS) as Hg
    by (unfold sheet_for, global_settings; cbn [Service.enabled own]; by rewrite He).
  destruct (URL.parse (to_string (url_value t))) as [u|]; [|done].
  rewrite resolve_object. unfold sheet_for. cbn [Service.enabled own]. by rewrite He.
Qed.

(** A change of the switch when no call fails: the settings are written,
    and the service worker carries out the update. *)
Lemma switch_reaches_the_service_worker (v : value) (w : world) (o : gmap string value) :
  popup_settings w = VObj o ->
  faults w = [] ->
  exists wb,
    snd (Popup.updateGlobalSetting "enabled" v w)
    = snd (Service.updateSettings (VObj (omap serialize (<["enabled" := v]> o))) wb)
    /\ faults wb = []
    /\ tabs wb = tabs w.
Proof.
  intros Hs Hf.
  rewrite updateGlobalSetting_unfold.
  destruct (assigned_closed "enabled" v w o Hs)
    as (w0 & Hw0 & Hpage & Hset & Hpend & Hsite).
  rewrite snd_try_catch_ret. unfold bind at 1. rewrite Hw0.
  change (String.eqb "enabled" "enabled") with true. cbv beta iota.
  rewrite this_settings_bind, Hset.
  set (changed := <["enabled" := v]> o) in *.
  assert (faults w0 = [] /\ tabs w0 = tabs w) as [Hf0 Ht0] by (by rewrite Hpage).
  unfold bind at 1. rewrite StorageManager_setSettings_closed.
  assert (next_fault w0 = None) as -> by (unfold next_fault; by rewrite Hf0).
  set (wa := persisted (VObj changed) (issued (StorageSet (VObj changed)) w0)).
  assert (faults wa = [] /\ tabs wa = tabs w /\ popup_settings wa = VObj changed)
    as (Hfa & Hta & Hsa).
  { unfold wa, persisted. rewrite serialize_object.
    repeat split; [cbn; by rewrite Hf0|done|done]. }
  rewrite snd_try_catch_ret.
  rewrite (notifyServiceWorker_closed wa changed Hsa)
    by (unfold next_fault; by rewrite Hfa).
  cbn [snd]. eexists. split; [reflexivity|]. split.
  - change (faults (issued ?o wa)) with (tail (faults wa)). by rewrite Hfa.
  - done.
Qed.

(** X21.  When no host call fails and the tabs have distinct ids, turning
    the switch of the popup off puts the resetting style sheet on every
    eligible tab, as its newest one, and changes no other tab; the store and
    the service worker's memory then hold the switch as off. *)
Theorem switching_off_resets_every_tab (w : world) (o : gmap string value) :
  popup_settings w = VObj o ->
  faults w = [] ->
  NoDup (List.map tab_id (tabs w)) ->
  let w' := snd (Popup.globalToggle_change false w) in
  tabs w' = List.map (fun t => if Service.eligible t
                               then with_sheet Service.resetCSS t else t) (tabs w)
  /\ own (service_settings w') "enabled" = VBool false
  /\ own (stored_settings w') "enabled" = VBool false.
Proof.
  intros Hs Hf Hnd. cbn zeta. unfold Popup.globalToggle_change.
  destruct (switch_reaches_the_service_worker (VBool false) w o Hs Hf)
    as (wb & -> & Hfb & Htb).
  set (changed := <["enabled" := VBool false]> o).
  destruct (updateSettings_refreshes (VObj (omap serialize changed)) wb)
    as (w' & -> & Ht' & Hs' & Hst' & _); [done|by rewrite Htb|].
  cbn [snd]. cbn zeta in *.
  assert (props (VObj (omap serialize changed)) !! "enabled" = Some (VBool false)) as He.
  { cbn [props]. rewrite lookup_omap. unfold changed. by rewrite lookup_insert_eq. }
  assert ((props (VObj (omap serialize changed)) ∪ props (service_settings wb)) !! "enabled"
          = Some (VBool false)) as Hmerged
    by (by apply lookup_union_Some_l).
  split; [|split].
  - rewrite Ht', Htb.
    apply List.map_ext. intros t. unfold refreshed, spread2.
    by rewrite (sheet_for_switched_off _ t Hmerged).
  - rewrite Hs'. unfold spread2. cbn [own]. by rewrite Hmerged.
  - unfold stored_settings. rewrite Hst'. unfold persisted, spread2.
    rewrite serialize_object. cbn [storage with_storage].
    rewrite lookup_insert_eq. cbn [default from_option id own].
    rewrite lookup_omap, Hmerged. done.
Qed.

Lemma switching_off_resets_every_tab_witness :
  let w := snd (Popup.start Sample.installed) in
  let w' := snd (Popup.globalToggle_change false w) in
  tabs w' = List.map (fun t => if Service.eligible t
                               then with_sheet Service.resetCSS t else t) (tabs w)
  /\ own (service_settings w') "enabled" = VBool false
  /\ own (stored_settings w') "enabled" = VBool false.
Proof.
  cbn zeta.
  assert (popup_settings (snd (Popup.start Sample.installed)) = VObj Sample.custom_record)
    as Hs by (vm_compute; reflexivity).
  exact (switching_off_resets_every_tab (snd (Popup.start Sample.installed))
           Sample.custom_record Hs eq_refl
           ltac:(apply (bool_decide_unpack _); vm_compute; exact I)).
Defined.

(** ** What the popup shows *)

Lemma found_assign (element property other : string) (v : value) (doc : Popup.document) :
  Popup.found other (Popup.assign element property v doc) = Popup.found other doc.
Proof.
  unfold Popup.found, Popup.assign, Popup.document in *.
  destruct (doc !! element) as [ps|] eqn:He; [|done].
  destruct (decide (other = element)) as [->|Hne].
  - by rewrite lookup_insert_eq, He.
  - by rewrite lookup_insert_ne.
Qed.

Lemma shown_assign (element property : string) (v : value) (doc : Popup.document) :
  Popup.found element doc = true ->
  shown (Popup.assign element property v doc) element property = v.
Proof.
  unfold Popup.found, Popup.assign, shown, Popup.document in *.
  destruct (doc !! element) as [ps|] eqn:He; [|done]. intros _.
  rewrite lookup_insert_eq. by rewrite lookup_insert_eq.
Qed.

Lemma shown_assign_other (element property element' property' : string) (v : value)
      (doc : Popup.document) :
  element' <> element \/ property' <> property ->
  shown (Popup.assign element property v doc) element' property'
  = shown doc element' property'.
Proof.
  intros Hne. unfold Popup.assign, shown, Popup.document in *.
  destruct (doc !! element) as [ps|] eqn:He; [|done].
  destruct (decide (element' = element)) as [->|Hel].
  - rewrite lookup_insert_eq, He.
    destruct Hne as [|Hp]; [done|]. by rewrite lookup_insert_ne.
  - by rewrite lookup_insert_ne.
Qed.

Lemma complete_found (doc : Popup.document) (element : string) :
  complete doc -> element ∈ controls -> Popup.found element doc = true.
Proof. intros Hc Hin. by apply (proj1 (Forall_forall _ _) Hc). Qed.

(** Rewrites the lookups of a complete document, through assignments. *)
Ltac lookups Hc :=
  rewrite ?found_assign;
  repeat match goal with
         | |- context [Popup.found ?k ?d] =>
             rewrite (complete_found d k Hc) by (unfold controls; repeat first [apply list_elem_of_here | apply list_elem_of_further])
         end;
  cbn [andb].

Lemma bind_ret {A B} (a : A) (k : A -> M B) (w : world) : bind (ret a) k w = k a w.
Proof. done. Qed.

Lemma initializeGlobalSettings_closed (doc : Popup.document) (w : world)
      (o : gmap string value) :
  popup_settings w = VObj o ->
  complete doc ->
  Popup.initializeGlobalSettings doc w
  = (Ok (Popup.assign "global-color-hex" "value" (own (VObj o) "visitedColor")
           (Popup.assign "global-color-picker" "value" (own (VObj o) "visitedColor")
              (Popup.assign "global-toggle" "checked" (own (VObj o) "enabled") doc))),
     w).
Proof.
  intros Hs Hc. unfold Popup.initializeGlobalSettings.
  lookups Hc. cbv iota.
  rewrite bind_assoc, this_settings_bind, Hs.
  rewrite (truthy_get (VObj o)) by done. rewrite bind_assoc, bind_lift, bind_ret.
  lookups Hc. cbv iota.
  rewrite this_settings_bind, Hs.
  rewrite (truthy_get (VObj o)) by done. by rewrite bind_lift.
Qed.

Lemma updateStatusIndicator_closed (doc : Popup.document) (w : world)
      (o : gmap string value) :
  popup_settings w = VObj o ->
  Popup.found ".status-dot" doc = true ->
  Popup.found ".status-text" doc = true ->
  Popup.updateStatusIndicator doc w
  = (Ok (if truthy (own (VObj o) "enabled")
         then Popup.assign ".status-text" "textContent" (VStr "Active")
                (Popup.assign ".status-dot" "className" (VStr "status-dot active") doc)
         else Popup.assign ".status-text" "textContent" (VStr "Disabled")
                (Popup.assign ".status-dot" "className" (VStr "status-dot inactive") doc)),
     w).
Proof.
  intros Hs Hd Ht. unfold Popup.updateStatusIndicator. rewrite Hd, Ht. cbn [andb].
  rewrite this_settings_bind, Hs.
  rewrite (truthy_get (VObj o)) by done. rewrite bind_lift.
  by destruct (truthy (own (VObj o) "enabled")).
Qed.

Lemma initializeSiteSettings_closed (doc : Popup.document) (w : world)
      (o : gmap string value) :
  popup_settings w = VObj o ->
  complete doc ->
  let entry := entry_of (VObj o) (popup_site w) in
  let override := own entry "visitedColor" in
  let color := if truthy override then override else own (VObj o) "visitedColor" in
  Popup.initializeSiteSettings doc w
  = (Ok (Popup.assign "site-color-hex" "value" color
           (Popup.assign "site-color-picker" "value" color
              (Popup.assign "site-color-row" "style.display"
                 (VStr (if is_not_undefined override then "flex" else "none"))
                 (Popup.assign "use-custom-color" "checked"
                    (VBool (is_not_undefined override))
                    (Popup.assign "site-toggle" "checked"
                       (VBool (is_not_false (own entry "enabled"))) doc))))),
     w).
Proof.
  intros Hs Hc. cbn zeta. unfold Popup.initializeSiteSettings.
  destruct (getCurrentSite_closed w) as (vs & Hvs & Hsite).
  unfold bind at 1. rewrite Hvs, Hsite. cbn zeta.
  rewrite this_settings_bind, Hs.
  rewrite (truthy_get (VObj o)) by done. rewrite bind_lift.
  fold (entry_of (VObj o) (popup_site w)).
  assert (truthy (entry_of (VObj o) (popup_site w)) = true) as Ht
    by apply truthy_or_object.
  set (entry := entry_of (VObj o) (popup_site w)) in *.
  rewrite !(truthy_get entry) by done.
  lookups Hc. cbv iota.
  rewrite bind_assoc, bind_lift, bind_ret.
  lookups Hc. cbv iota.
  rewrite bind_assoc, bind_lift, bind_ret.
  lookups Hc. cbv iota.
  rewrite bind_lift.
  destruct (truthy (own entry "visitedColor")); [done|].
  rewrite this_settings_bind, Hs.
  rewrite (truthy_get (VObj o)) by done. by rewrite bind_lift.
Qed.

Lemma initializeUI_closed (doc : Popup.document) (w : world) (o : gmap string value) :
  popup_settings w = VObj o ->
  complete doc ->
  let entry := entry_of (VObj o) (popup_site w) in
  let override := own entry "visitedColor" in
  let color := if truthy override then override else own (VObj o) "visitedColor" in
  let active := truthy (own (VObj o) "enabled") in
  Popup.initializeUI doc w
  = (Ok (Popup.assign ".status-text" "textContent"
           (VStr (if active then "Active" else "Disabled"))
        (Popup.assign ".status-dot" "className"
           (VStr (if active then "status-dot active" else "status-dot inactive"))
        (Popup.assign "site-color-hex" "value" color
        (Popup.assign "site-color-picker" "value" color
        (Popup.assign "site-color-row" "style.display"
           (VStr (if is_not_undefined override then "flex" else "none"))
        (Popup.assign "use-custom-color" "checked" (VBool (is_not_undefined override))
        (Popup.assign "site-toggle" "checked" (VBool (is_not_false (own entry "enabled")))
        (Popup.assign "global-color-hex" "value" (own (VObj o) "visitedColor")
        (Popup.assign "global-color-picker" "value" (own (VObj o) "visitedColor")
        (Popup.assign "global-toggle" "checked" (own (VObj o) "enabled") doc)))))))))),
     w).
Proof.
  intros Hs Hc. cbn zeta. unfold Popup.initializeUI.
  unfold bind at 1. rewrite (initializeGlobalSettings_closed doc w o Hs Hc).
  set (doc1 := Popup.assign "global-color-hex" _ _ _).
  assert (complete doc1) as Hc1.
  { unfold complete, doc1 in *. eapply Forall_impl; [exact Hc|].
    intros k Hk. cbn beta in *. by rewrite !found_assign. }
  unfold bind at 1. rewrite (initializeSiteSettings_closed doc1 w o Hs Hc1). cbn zeta.
  set (doc2 := Popup.assign "site-color-hex" _ _ _).
  assert (complete doc2) as Hc2.
  { unfold complete, doc2 in *. eapply Forall_impl; [exact Hc1|].
    intros k Hk. cbn beta in *. by rewrite !found_assign. }
  rewrite (updateStatusIndicator_closed doc2 w o Hs)
    by (apply (complete_found _ _ Hc2); unfold controls; repeat first [apply list_elem_of_here | apply list_elem_of_further]).
  by destruct (truthy (own (VObj o) "enabled")).
Qed.

(** Reads a property through the assignments made after it. *)
Ltac shows :=
  repeat first
    [ rewrite shown_assign_other by (first [left; discriminate | right; discriminate])
    | rewrite shown_assign
        by (rewrite ?found_assign;
            match goal with
            | Hc : complete ?d |- Popup.found ?k ?d = true =>
                apply (complete_found d k Hc); unfold controls; repeat first [apply list_elem_of_here | apply list_elem_of_further]
            end) ].

(** X22.  On a document that has all its controls, [initializeUI] changes
    no state and shows the settings as the resolver reads them: the global
    switch and colour as stored, the switch of the site as the site's factor
    of the effective flag, the custom colour as on exactly where the entry
    holds a colour, and in the colour field of the site the effective colour,
    unless the entry holds a colour that is falsy, where the field shows the
    global one.  The status reads Active exactly when the global switch is
    truthy, whatever the site's. *)
Theorem the_popup_shows_what_the_resolver_uses
        (doc : Popup.document) (w : world) (o : gmap string value) :
  popup_settings w = VObj o ->
  complete doc ->
  let entry := entry_of (VObj o) (popup_site w) in
  let override := own entry "visitedColor" in
  exists doc',
    Popup.initializeUI doc w = (Ok doc', w)
    /\ shown doc' "global-toggle" "checked" = own (VObj o) "enabled"
    /\ shown doc' "global-color-hex" "value" = own (VObj o) "visitedColor"
    /\ shown doc' "site-toggle" "checked" = VBool (is_not_false (own entry "enabled"))
    /\ shown doc' "use-custom-color" "checked" = VBool (is_not_undefined override)
    /\ shown doc' ".status-text" "textContent"
       = VStr (if truthy (own (VObj o) "enabled") then "Active" else "Disabled")
    /\ exists r,
         Service.resolve (VObj o) (popup_site w) = Ok r
         /\ Service.enabled r
            = and (shown doc' "global-toggle" "checked") (shown doc' "site-toggle" "checked")
         /\ (truthy override = true \/ override = VUndefined ->
             shown doc' "site-color-hex" "value" = Service.visitedColor r)
         /\ (truthy override = false ->
             shown doc' "site-color-hex" "value" = own (VObj o) "visitedColor").
Proof.
  intros Hs Hc. cbn zeta.
  pose proof (initializeUI_closed doc w o Hs Hc) as Hui. cbn zeta in Hui.
  eexists. split; [exact Hui|].
  set (entry := entry_of (VObj o) (popup_site w)).
  split; [by shows|]. split; [by shows|]. split; [by shows|]. split; [by shows|].
  split; [by shows|].
  rewrite resolve_object. eexists. split; [reflexivity|].
  cbn [Service.enabled Service.visitedColor]. fold entry.
  split; [by shows|]. split.
  - shows. intros [Ht| ->]; [|done].
    rewrite Ht. by destruct (own entry "visitedColor").
  - shows. by intros ->.
Qed.

Lemma the_popup_shows_what_the_resolver_uses_witness :
  let w := snd (Popup.start Sample.installed) in
  exists doc',
    Popup.initializeUI Sample.blank_document w = (Ok doc', w)
    /\ shown doc' "global-toggle" "checked" = own (VObj Sample.custom_record) "enabled"
    /\ shown doc' ".status-text" "textContent" = VStr "Active".
Proof.
  cbn zeta.
  assert (popup_settings (snd (Popup.start Sample.installed)) = VObj Sample.custom_record)
    as Hs by (vm_compute; reflexivity).
  assert (complete Sample.blank_document) as Hc
    by (unfold complete, controls; repeat constructor).
  destruct (the_popup_shows_what_the_resolver_uses
              Sample.blank_document (snd (Popup.start Sample.installed))
              Sample.custom_record Hs Hc)
    as (doc' & Hui & Hglobal & _ & _ & _ & Hstatus & _).
  exists doc'. exact (conj Hui (conj Hglobal Hstatus)).
Defined.

(** ** From the colour field to the style sheet *)

(** X23.  A colour typed into the global colour field that the validator
    accepts becomes the global colour of the popup's settings as typed, and
    the style sheet generated for it declares exactly that colour: nothing of
    an accepted value ends the declaration early. *)
Theorem accepted_colours_are_declared_as_typed
        (color : string) (w : world) (o : gmap string value) :
  popup_settings w = VObj o ->
  Popup.isValidHexColor color = true ->
  let w' := snd (Popup.globalColorHex_input color w) in
  own (popup_settings w') "visitedColor" = VStr color
  /\ declared_color (Service.generateCSS (own (popup_settings w') "visitedColor"))
     = Some color.
Proof.
  intros Hs Hv. cbn zeta. unfold Popup.globalColorHex_input. rewrite Hv.
  rewrite (updateGlobalSetting_settings "visitedColor" (VStr color) w o Hs).
  cbn [own]. rewrite lookup_insert_eq. cbn [default from_option id].
  split; [done|by apply declared_color_valid].
Qed.

Lemma accepted_colours_are_declared_as_typed_witness :
  let w := snd (Popup.start Sample.installed) in
  let w' := snd (Popup.globalColorHex_input "#A1B2C3" w) in
  own (popup_settings w') "visitedColor" = VStr "#A1B2C3"
  /\ declared_color (Service.generateCSS (own (popup_settings w') "visitedColor"))
     = Some "#A1B2C3".
Proof.
  cbn zeta.
  assert (popup_settings (snd (Popup.start Sample.installed)) = VObj Sample.custom_record)
    as Hs by (vm_compute; reflexivity).
  exact (accepted_colours_are_declared_as_typed
           "#A1B2C3" (snd (Popup.start Sample.installed)) Sample.custom_record Hs eq_refl).
Defined.
